(** * Raster utilities of the reporting pipeline ([src/tools.py])

    A shallow embedding of the [Tools] class: the Julian-date renamer, the
    daily-file merger, the country and region croppers, the plotter and the
    per-municipality averager, with the properties their specification states.

    Conventions.
    - Exceptions are values: every operation returns a [result] and the state it
      leaves behind, so what was written before a failure stays visible.
    - Floating-point numbers are modelled as rationals, not-a-number as [None].
    - Functions of the Python standard library and of the array, raster and
      vector libraries are modelled by definitions that carry the name of the
      library function and follow its documented behaviour.
    - File names are strings of one-byte characters; a digit is one of 0-9.
    - The bounds of the date types (years 1 to 9999 for a calendar date, a
      narrower range for the timestamps of the table library) are modelled only
      where the code can reach them: in the date parser of the renamer. *)

From Stdlib Require Import ZArith QArith Qabs Lia List Bool Sorted FunctionalExtensionality.
From Stdlib Require Import Strings.String Strings.Ascii Numbers.DecimalString.
From stdpp Require Import base option list gmap strings.

Open Scope string_scope.

(** ** Exceptions and the state-and-error monad *)

Inductive exn : Type :=
| ValueError (msg : string)
| KeyError (key : string)
| IndexError (msg : string)
| OSError (path : string)
| RuntimeError (msg : string).

Inductive result (A : Type) : Type :=
| Ok (a : A)
| Raise (e : exn).
Arguments Ok {A} a.
Arguments Raise {A} e.

Definition is_ok {A} (r : result A) : bool :=
  match r with Ok _ => true | Raise _ => false end.

Definition is_raise {A} (r : result A) : bool := negb (is_ok r).

(** A computation over a state [S]: it returns or raises, and leaves a state. *)
Definition M (S A : Type) : Type := S -> result A * S.

Definition ret {S A} (a : A) : M S A := fun s => (Ok a, s).
Definition raise {S A} (e : exn) : M S A := fun s => (Raise e, s).
Definition bind {S A B} (m : M S A) (k : A -> M S B) : M S B :=
  fun s => match m s with
           | (Ok a, s') => k a s'
           | (Raise e, s') => (Raise e, s')
           end.
Definition lift {S A} (r : result A) : M S A := fun s => (r, s).
Definition get {S} : M S S := fun s => (Ok s, s).
Definition modify {S} (f : S -> S) : M S unit := fun s => (Ok tt, f s).

Notation "'do' x <- m ; k" := (bind m (fun x => k))
  (at level 10, x name, m at level 100, k at level 200).
Notation "m ;; k" := (bind m (fun _ => k))
  (at level 100, k at level 200, right associativity).

(** ** Strings and numbers of the Python standard library *)

Module Py.

Definition char_is_digit (c : ascii) : bool :=
  let n := nat_of_ascii c in (48 <=? n)%nat && (n <=? 57)%nat.

Fixpoint all_digits (s : string) : bool :=
  match s with
  | EmptyString => true
  | String c r => char_is_digit c && all_digits r
  end.

(** [str.isdigit]: at least one character, all of them digits.  The
    characters here are bytes and the digits are ["0"] to ["9"]: the digits
    that Unicode has beyond ASCII are outside this model, and what is
    proved of names is proved of ASCII names. *)
Definition isdigit (s : string) : bool :=
  negb (String.eqb s "") && all_digits s.

Definition digit_value (c : ascii) : Z := Z.of_nat (nat_of_ascii c) - 48.

Fixpoint int_from (acc : Z) (s : string) : Z :=
  match s with
  | EmptyString => acc
  | String c r => int_from (10 * acc + digit_value c) r
  end.

(** [int(s)] on a string of digits. *)
Definition int (s : string) : Z := int_from 0 s.

(** [str(n)] on an integer. *)
Definition str (n : Z) : string := NilZero.string_of_int (Z.to_int n).

Fixpoint zeros (n : nat) : string :=
  match n with
  | O => ""
  | S k => String "0" (zeros k)
  end.

(** [s.zfill(width)]: zeros are inserted after a leading sign. *)
Definition zfill (width : nat) (s : string) : string :=
  let pad := zeros (width - String.length s) in
  match s with
  | String "+" r => String "+" (pad ++ r)
  | String "-" r => String "-" (pad ++ r)
  | _ => pad ++ s
  end.

(** The format specification [:03] of an f-string on an integer. *)
Definition format_03 (n : Z) : string := zfill 3 (str n).

(** [s.rfind(c)]: the index of the last occurrence, if any. *)
Fixpoint rfind (c : ascii) (s : string) : option nat :=
  match s with
  | EmptyString => None
  | String a r =>
      match rfind c r with
      | Some i => Some (S i)
      | None => if Ascii.eqb a c then Some 0%nat else None
      end
  end.

Definition char_at (s : string) (k : nat) : ascii :=
  match String.get k s with Some c => c | None => "000"%char end.

(** [os.path.splitext] (POSIX): the extension starts at the last dot of the
    last path component, unless only dots precede it there. *)
Definition splitext (p : string) : string * string :=
  let start := match rfind "/" p with Some i => S i | None => 0%nat end in
  match rfind "." p with
  | Some dot =>
      if (start <=? dot)%nat
         && existsb (fun k => negb (Ascii.eqb (char_at p k) "."))
                    (seq start (dot - start))
      then (substring 0 dot p, substring dot (String.length p - dot) p)
      else (p, "")
  | None => (p, "")
  end.

Definition ends_with_slash (s : string) : bool :=
  match String.length s with
  | O => false
  | S k => Ascii.eqb (char_at s k) "/"
  end.

(** [os.path.join(a, b)] (POSIX). *)
Definition path_join (a b : string) : string :=
  match b with
  | String "/" _ => b
  | _ => if String.eqb a "" || ends_with_slash a then a ++ b
         else a ++ "/" ++ b
  end.

End Py.

(** ** The proleptic Gregorian calendar of [datetime] *)

Module Calendar.
Open Scope Z_scope.

Definition is_leap (year : Z) : bool :=
  (year mod 4 =? 0) && (negb (year mod 100 =? 0) || (year mod 400 =? 0)).

Definition days_in_year (year : Z) : Z := if is_leap year then 366 else 365.

Definition DAYS_IN_MONTH : list Z :=
  [31; 28; 31; 30; 31; 30; 31; 31; 30; 31; 30; 31].

Definition DAYS_BEFORE_MONTH : list Z :=
  [0; 31; 59; 90; 120; 151; 181; 212; 243; 273; 304; 334].

(** Tables are indexed by the month number, 1 to 12. *)
Definition table (t : list Z) (month : Z) : Z :=
  nth (Z.to_nat (month - 1)) t 0.

Definition days_before_year (year : Z) : Z :=
  let y := year - 1 in y * 365 + y / 4 - y / 100 + y / 400.

Definition days_in_month (year month : Z) : Z :=
  if (month =? 2) && is_leap year then 29 else table DAYS_IN_MONTH month.

Definition days_before_month (year month : Z) : Z :=
  table DAYS_BEFORE_MONTH month
  + (if (2 <? month) && is_leap year then 1 else 0).

(** A calendar date, as its year, month and day fields. *)
Record ymd : Type := mk_ymd { year : Z; month : Z; day : Z }.

(** [date(y, m, d).toordinal()]: 1 is the first of January of year 1. *)
Definition ymd2ord (y m d : Z) : Z :=
  days_before_year y + days_before_month y m + d.

Definition toordinal (t : ymd) : Z := ymd2ord (year t) (month t) (day t).

Definition DI400Y : Z := 146097.
Definition DI100Y : Z := 36524.
Definition DI4Y : Z := 1461.

(** [date.fromordinal(n)], by cycles of 400, 100, 4 and 1 years. *)
Definition ord2ymd (n : Z) : ymd :=
  let n := n - 1 in
  let n400 := n / DI400Y in
  let n := n mod DI400Y in
  let year := n400 * 400 + 1 in
  let n100 := n / DI100Y in
  let n := n mod DI100Y in
  let n4 := n / DI4Y in
  let n := n mod DI4Y in
  let n1 := n / 365 in
  let n := n mod 365 in
  let year := year + n100 * 100 + n4 * 4 + n1 in
  if (n1 =? 4) || (n100 =? 4) then mk_ymd (year - 1) 12 31
  else
    let leapyear := (n1 =? 3) && (negb (n4 =? 24) || (n100 =? 3)) in
    let month := Z.shiftr (n + 50) 5 in
    let preceding :=
      table DAYS_BEFORE_MONTH month
      + (if (2 <? month) && leapyear then 1 else 0) in
    if n <? preceding then
      let month := month - 1 in
      let preceding :=
        preceding
        - (table DAYS_IN_MONTH month
           + (if (month =? 2) && leapyear then 1 else 0)) in
      mk_ymd year month (n - preceding + 1)
    else mk_ymd year month (n - preceding + 1).

(** The day of the year of a date, 1 for the first of January. *)
Definition yday (t : ymd) : Z := days_before_month (year t) (month t) + day t.

Definition MAXORDINAL : Z := 3652059.

(** [time.strftime("%Y-%m-%d")] and the fields of an f-string date. *)
Definition two_digits (n : Z) : string := Py.zfill 2 (Py.str n).

Definition isoformat (t : ymd) : string :=
  Py.str (year t) ++ "-" ++ two_digits (month t) ++ "-" ++ two_digits (day t).

(** The directive [%j] of [strptime] is the regular expression
    [36[0-6]|3[0-5]\d|[1-2]\d\d|0[1-9]\d|00[1-9]|[1-9]\d|0[1-9]|[1-9]]:
    the first alternative that matches a prefix is taken.  The result is
    the day number and how many characters were consumed. *)
Definition between (lo hi : ascii) (c : ascii) : bool :=
  let n := nat_of_ascii c in
  (nat_of_ascii lo <=? n)%nat && (n <=? nat_of_ascii hi)%nat.

Definition match_j (s : string) : option (Z * nat) :=
  let three a b c := 100 * Py.digit_value a + 10 * Py.digit_value b + Py.digit_value c in
  let two a b := 10 * Py.digit_value a + Py.digit_value b in
  let long :=
    match s with
    | String a (String b (String c _)) =>
        if Ascii.eqb a "3" && Ascii.eqb b "6" && between "0" "6" c
        then Some (three a b c, 3%nat)
        else if Ascii.eqb a "3" && between "0" "5" b && Py.char_is_digit c
        then Some (three a b c, 3%nat)
        else if between "1" "2" a && Py.char_is_digit b && Py.char_is_digit c
        then Some (three a b c, 3%nat)
        else if Ascii.eqb a "0" && between "1" "9" b && Py.char_is_digit c
        then Some (three a b c, 3%nat)
        else if Ascii.eqb a "0" && Ascii.eqb b "0" && between "1" "9" c
        then Some (three a b c, 3%nat)
        else None
    | _ => None
    end in
  let medium :=
    match s with
    | String a (String b _) =>
        if between "1" "9" a && Py.char_is_digit b then Some (two a b, 2%nat)
        else if Ascii.eqb a "0" && between "1" "9" b then Some (two a b, 2%nat)
        else None
    | _ => None
    end in
  let short :=
    match s with
    | String a _ =>
        if between "1" "9" a then Some (Py.digit_value a, 1%nat) else None
    | _ => None
    end in
  match long with
  | Some r => Some r
  | None => match medium with Some r => Some r | None => short end
  end.

(** [datetime.strptime(s, "%Y%j")]: four digits of year, then [%j]; the
    whole string must be consumed.  The date is the first of January of
    the year moved forward by the day number less one, with no check that
    the day number fits the year. *)
Definition strptime_Yj (s : string) : result ymd :=
  match s with
  | String a (String b (String c (String d rest))) =>
      if Py.all_digits (String a (String b (String c (String d "")))) then
        match match_j rest with
        | Some (julian, used) =>
            if (used =? String.length rest)%nat then
              let year := Py.int (String a (String b (String c (String d "")))) in
              if year <? 1 then Raise (ValueError "year 0 is out of range")
              else
                let n := (julian - 1) + ymd2ord year 1 1 in
                if MAXORDINAL <? n
                then Raise (ValueError "year 10000 is out of range")
                else Ok (ord2ymd n)
            else Raise (ValueError "unconverted data remains")
        | None => Raise (ValueError "time data does not match format")
        end
      else Raise (ValueError "time data does not match format")
  | _ => Raise (ValueError "time data does not match format")
  end.

End Calendar.

(** ** JulianDateRenamer: [translate_julian_dates] *)

Module Renamer.

(** The state is the directory the function works on: its entries in the
    order the operating system lists them, and the renames performed. *)
Record directory : Type := mk_directory {
  entries : list string;
  renamed : list (string * string)
}.

(** [os.listdir(directorio)]. *)
Definition os_listdir : M directory (list string) :=
  fun d => (Ok (entries d), d).

(** [os.rename(os.path.join(directorio, src), os.path.join(directorio, dst))]
    (POSIX): fails when the source is missing, replaces an existing
    destination, and does nothing when both are the same file. *)
Definition os_rename (directorio src dst : string) : M directory unit :=
  fun d =>
    if bool_decide (src ∈ entries d) then
      let others :=
        filter (fun n => n ≠ src ∧ n ≠ dst) (entries d) in
      (Ok tt,
       {| entries := others ++ [dst];
          renamed := renamed d
                     ++ [(Py.path_join directorio src, Py.path_join directorio dst)] |})
    else (Raise (OSError (Py.path_join directorio src)), d).

(** The test of the loop: a base name of seven characters, all digits. *)
Definition is_julian_name (nombre : string) : bool :=
  (String.length nombre =? 7)%nat && Py.isdigit nombre.

(** One turn of the loop on the entry [archivo]: the name appended to
    [nuevos_nombres]. *)
Definition translate_entry (directorio archivo : string) : M directory string :=
  let '(nombre, extension) := Py.splitext archivo in
  if is_julian_name nombre then
    let año := Py.int (substring 0 4 nombre) in
    let dia_juliano := Py.int (substring 4 (String.length nombre - 4) nombre) in
    do t <- lift (Calendar.strptime_Yj (Py.str año ++ Py.format_03 dia_juliano));
    let fecha := Calendar.isoformat t in
    let nuevo_nombre := fecha ++ extension in
    os_rename directorio archivo nuevo_nombre;;
    ret nuevo_nombre
  else ret archivo.

Fixpoint translate_loop (directorio : string) (archivos nuevos_nombres : list string)
  : M directory (list string) :=
  match archivos with
  | [] => ret nuevos_nombres
  | archivo :: rest =>
      do nombre <- translate_entry directorio archivo;
      translate_loop directorio rest (nuevos_nombres ++ [nombre])
  end.

Definition translate_julian_dates (directorio : string) : M directory (list string) :=
  do archivos <- os_listdir;
  translate_loop directorio archivos [].

End Renamer.

(** ** Grid datasets, rasters and vector layers *)

(** A coordinate label or an attribute value: a number, a missing value, a
    text, a calendar day (counted like [date.toordinal]), or a day of a
    calendar-aware time axis ([cftime.DatetimeGregorian]). *)
Inductive label : Type :=
| LNum (q : Q)
| LNaN
| LStr (s : string)
| LDay (d : Z)
| LCal (d : Z).

(** Labels are compared as they are written: a number has one representation. *)
#[global] Instance Q_eq_dec : EqDecision Q.
Proof. solve_decision. Defined.

#[global] Instance label_eq_dec : EqDecision label.
Proof. solve_decision. Defined.

(** A cell holds a number or not-a-number. *)
Definition cell : Type := option Q.

(** A position along every named dimension; an array ignores the dimensions
    it does not have, which is how the array library broadcasts. *)
Definition index : Type := string -> nat.

Definition origin : index := fun _ => 0%nat.

Definition upd (e : index) (d : string) (k : nat) : index :=
  fun d' => if String.eqb d' d then k else e d'.

Fixpoint assoc {A} (k : string) (l : list (string * A)) : option A :=
  match l with
  | [] => None
  | (k', a) :: r => if String.eqb k' k then Some a else assoc k r
  end.

Definition has_key {A} (k : string) (l : list (string * A)) : bool :=
  match assoc k l with Some _ => true | None => false end.

Definition remove_assoc {A} (k : string) (l : list (string * A)) : list (string * A) :=
  filter (fun p => negb (String.eqb (fst p) k)) l.

(** Assignment to a key keeps its place, a new key goes last (a Python dict). *)
Fixpoint set_assoc {A} (k : string) (a : A) (l : list (string * A)) : list (string * A) :=
  match l with
  | [] => [(k, a)]
  | (k', a') :: r => if String.eqb k' k then (k, a) :: r else (k', a') :: set_assoc k a r
  end.

Definition mem (d : string) (l : list string) : bool := existsb (String.eqb d) l.

Record DataVar : Type := mk_DataVar {
  v_dims : list string;
  v_data : index -> cell;
  v_attrs : list (string * string)
}.

Record Dataset : Type := mk_Dataset {
  ds_sizes : list (string * nat);           (* the dimensions and their lengths *)
  ds_coords : list (string * list label);   (* the coordinate of a dimension *)
  ds_vars : list (string * DataVar);       (* the data variables, in file order *)
  ds_attrs : list (string * string)
}.

(** A variable taken out of a dataset keeps the dimensions and coordinates. *)
Record DataArray : Type := mk_DataArray {
  da_name : string;
  da_sizes : list (string * nat);
  da_coords : list (string * list label);
  da_var : DataVar
}.

Definition size_of (sizes : list (string * nat)) (d : string) : nat :=
  match assoc d sizes with Some n => n | None => 0%nat end.

(** [name in dataset]: a data variable or a coordinate. *)
Definition ds_contains (ds : Dataset) (name : string) : bool :=
  has_key name (ds_vars ds) || has_key name (ds_coords ds).

Definition label_value (l : label) : cell :=
  match l with
  | LNum q => Some q
  | LDay d | LCal d => Some (inject_Z d)
  | LNaN | LStr _ => None
  end.

(** [dataset[name]]: a data variable, a coordinate, or, for the name of a
    dimension that has no coordinate, its positions [0 .. n-1].  (The names
    with a dot that the library reads as a part of a date are not
    modelled.) *)
Definition ds_getitem (ds : Dataset) (name : string) : result DataArray :=
  match assoc name (ds_vars ds) with
  | Some v =>
      Ok {| da_name := name;
            da_sizes := filter (fun p => mem (fst p) (v_dims v)) (ds_sizes ds);
            da_coords := filter (fun p => mem (fst p) (v_dims v)) (ds_coords ds);
            da_var := v |}
  | None =>
      match assoc name (ds_coords ds) with
      | Some ls =>
          Ok {| da_name := name;
                da_sizes := [(name, length ls)];
                da_coords := [(name, ls)];
                da_var := {| v_dims := [name];
                             v_data := fun e => match nth_error ls (e name) with
                                                | Some l => label_value l
                                                | None => None
                                                end;
                             v_attrs := [] |} |}
      | None =>
          match assoc name (ds_sizes ds) with
          | Some n =>
              Ok {| da_name := name;
                    da_sizes := [(name, n)];
                    da_coords :=
                      [(name, map (fun k => LNum (inject_Z (Z.of_nat k))) (seq 0 n))];
                    da_var := {| v_dims := [name];
                                 v_data := fun e =>
                                   if (e name <? n)%nat
                                   then Some (inject_Z (Z.of_nat (e name)))
                                   else None;
                                 v_attrs := [] |} |}
          | None => Raise (KeyError name)
          end
      end
  end.

(** Every position along the listed dimensions, the others as in [e]. *)
Fixpoint all_indices (e : index) (sizes : list (string * nat)) : list index :=
  match sizes with
  | [] => [e]
  | (d, n) :: r => flat_map (fun k => all_indices (upd e d k) r) (seq 0 n)
  end.

(** A single-band raster with its affine transform [(a, b, c, d, e, f)]. *)
Record Raster : Type := mk_Raster {
  r_height : nat;
  r_width : nat;
  r_transform : list Q;
  r_band1 : nat -> nat -> cell
}.

(** A geometry is known by the points it covers and by its centroid. *)
Record Geometry : Type := mk_Geometry {
  g_covers : Q -> Q -> bool;      (* x, y *)
  g_centroid : Q * Q              (* x, y *)
}.

Record Feature : Type := mk_Feature {
  f_geometry : Geometry;
  f_attrs : list (string * label)
}.

Record Layer : Type := mk_Layer {
  l_crs : string;
  l_features : list Feature
}.

(** What the plotter draws. *)
Record Figure : Type := mk_Figure {
  fig_x : list label;
  fig_mean : list cell;
  fig_lower : list cell;
  fig_upper : list cell;
  fig_xlabel : string;
  fig_ylabel : string;
  fig_title : string;
  fig_legend : list string
}.

Inductive File : Type :=
| NetCDF (ds : Dataset)
| GeoTIFF (r : Raster)
| Shapefile (l : Layer)
| Image (f : Figure).

(** The world of the file operations: the files by path, the lines printed,
    and the paths whose existence was asked for. *)
Record World : Type := mk_World {
  fs : gmap string File;
  stdout : list string;
  probed : list string
}.

Definition print (line : string) : M World unit :=
  modify (fun w => {| fs := fs w; stdout := stdout w ++ [line]; probed := probed w |}).

(** [os.path.exists(path)]. *)
Definition os_path_exists (path : string) : M World bool :=
  fun w => (Ok (bool_decide (is_Some (fs w !! path))),
            {| fs := fs w; stdout := stdout w; probed := probed w ++ [path] |}).

Definition write_file (path : string) (f : File) : M World unit :=
  modify (fun w => {| fs := <[path := f]> (fs w); stdout := stdout w; probed := probed w |}).

(** [xr.open_dataset(path)]. *)
Definition xr_open_dataset (path : string) : M World Dataset :=
  fun w => match fs w !! path with
           | Some (NetCDF ds) => (Ok ds, w)
           | Some _ => (Raise (ValueError "not a dataset file"), w)
           | None => (Raise (OSError path), w)
           end.

(** [rasterio.open(path)] on a GeoTIFF.  What the library makes of a file
    of another kind under the same name is not modelled; the properties
    that open rasters assume the files to be GeoTIFF. *)
Definition rasterio_open (path : string) : M World Raster :=
  fun w => match fs w !! path with
           | Some (GeoTIFF r) => (Ok r, w)
           | Some _ => (Raise (OSError path), w)
           | None => (Raise (OSError path), w)
           end.

(** [gpd.read_file(path)]. *)
Definition gpd_read_file (path : string) : M World Layer :=
  fun w => match fs w !! path with
           | Some (Shapefile l) => (Ok l, w)
           | Some _ => (Raise (OSError path), w)
           | None => (Raise (OSError path), w)
           end.

(** [dataset.to_netcdf(path)], for a dataset that can be written: every
    dimension has a length, no variable carries an attribute the encoding
    reserves, the path lies in a folder that is there and is not one of the
    open inputs.  The write of
    another dataset, which the library starts and then gives up, is not
    modelled; the properties that state what is written say so for
    datasets of the first kind. *)
Definition to_netcdf (ds : Dataset) (path : string) : M World unit :=
  write_file path (NetCDF ds).

(** The text [print] shows for a dataset; its content is not modelled. *)
Definition repr (ds : Dataset) : string := "<xarray.Dataset>".

(** ** Operations of the array library *)

Module Xr.

(** How many positions a piece contributes along [dim]: its length there,
    or one when it has no such dimension. *)
Definition steps_along (dim : string) (ds : Dataset) : nat :=
  match assoc dim (ds_sizes ds) with Some n => n | None => 1%nat end.

(** The piece and the position inside it of position [k] of the whole. *)
Fixpoint locate (steps : list nat) (k : nat) : nat * nat :=
  match steps with
  | [] => (0%nat, k)
  | n :: r => if (k <? n)%nat then (0%nat, k)
              else let '(p, j) := locate r (k - n) in (S p, j)
  end.

(** [xr.concat(datasets, dim)].  The pieces are laid one after the other
    along [dim]; the variables, the attributes and the other dimensions
    are those of the first piece (the join of pieces lying on different
    grids is not modelled).  A coordinate of [dim] that some pieces bring
    and others do not is refused; the new dimension has a coordinate
    when every piece brings one. *)
Definition xr_concat (datasets : list Dataset) (dim : string) : result Dataset :=
  match datasets with
  | [] => Raise (ValueError "must supply at least one object to concatenate")
  | first :: _ =>
      if negb (forallb (fun ds => has_key dim (ds_coords ds)) datasets
               || forallb (fun ds => negb (has_key dim (ds_coords ds))) datasets)
      then Raise (ValueError ("'" ++ dim ++ "' is not present in all datasets."))
      else
      let steps := map (steps_along dim) datasets in
      let piece_var (name : string) (e : index) : cell :=
        let '(p, j) := locate steps (e dim) in
        match nth_error datasets p with
        | Some piece =>
            match assoc name (ds_vars piece) with
            | Some v => v_data v (upd e dim j)
            | None => None
            end
        | None => None
        end in
      Ok {| ds_sizes := (dim, list_sum steps) :: remove_assoc dim (ds_sizes first);
            ds_coords :=
              (if forallb (fun ds => has_key dim (ds_coords ds)) datasets
               then [(dim, flat_map (fun ds => default [] (assoc dim (ds_coords ds))) datasets)]
               else [])
              ++ remove_assoc dim (ds_coords first);
            ds_vars :=
              map (fun nv =>
                     (fst nv,
                      {| v_dims := if mem dim (v_dims (snd nv)) then v_dims (snd nv)
                                   else dim :: v_dims (snd nv);
                         v_data := piece_var (fst nv);
                         v_attrs := v_attrs (snd nv) |}))
                  (ds_vars first);
            ds_attrs := ds_attrs first |}
  end.

(** [dataset[dim] = values]: the values become the coordinate of [dim];
    their number must be the length of the dimension. *)
Definition ds_set_coord (ds : Dataset) (dim : string) (values : list label)
  : result Dataset :=
  match assoc dim (ds_sizes ds) with
  | Some n =>
      if (n =? length values)%nat then
        Ok {| ds_sizes := ds_sizes ds;
              ds_coords := set_assoc dim values (ds_coords ds);
              ds_vars := ds_vars ds;
              ds_attrs := ds_attrs ds |}
      else Raise (ValueError "conflicting sizes for dimension")
  | None =>
      Ok {| ds_sizes := set_assoc dim (length values) (ds_sizes ds);
            ds_coords := set_assoc dim values (ds_coords ds);
            ds_vars := ds_vars ds;
            ds_attrs := ds_attrs ds |}
  end.

(** [dataset[name].attrs[key] = value]: on a data variable the attribute
    is kept; on a coordinate, or on the positions of a dimension without
    coordinate, the assignment is made and leaves no trace here. *)
Definition ds_set_var_attr (ds : Dataset) (name key value : string) : result Dataset :=
  match assoc name (ds_vars ds) with
  | Some v =>
      Ok {| ds_sizes := ds_sizes ds;
            ds_coords := ds_coords ds;
            ds_vars := set_assoc name
                         {| v_dims := v_dims v; v_data := v_data v;
                            v_attrs := set_assoc key value (v_attrs v) |}
                         (ds_vars ds);
            ds_attrs := ds_attrs ds |}
  | None =>
      if has_key name (ds_coords ds) || has_key name (ds_sizes ds) then Ok ds
      else Raise (KeyError name)
  end.

(** *** Comparisons, selection by a condition *)

(** A boolean array: the outcome of a comparison. *)
Record BoolArray : Type := mk_BoolArray {
  b_dims : list string;
  b_sizes : list (string * nat);
  b_coords : list (string * list label);
  b_test : index -> bool
}.

Definition cell_eqb (c : cell) (q : Q) : bool :=
  match c with Some x => Qeq_bool x q | None => false end.

(** [array == q]: not-a-number equals nothing. *)
Definition da_eq (da : DataArray) (q : Q) : BoolArray :=
  {| b_dims := v_dims (da_var da);
     b_sizes := da_sizes da;
     b_coords := da_coords da;
     b_test := fun e => cell_eqb (v_data (da_var da) e) q |}.

(** [array.notnull().astype(int)], read as a condition. *)
Definition da_notnull (da : DataArray) : BoolArray :=
  {| b_dims := v_dims (da_var da);
     b_sizes := da_sizes da;
     b_coords := da_coords da;
     b_test := fun e => match v_data (da_var da) e with Some _ => true | None => false end |}.

(** [xr.where(cond, array, other)] on arrays over one grid. *)
Definition xr_where (cond : BoolArray) (da : DataArray) (other : cell) : DataArray :=
  {| da_name := da_name da;
     da_sizes := da_sizes da;
     da_coords := da_coords da;
     da_var := {| v_dims := v_dims (da_var da);
                  v_data := fun e => if b_test cond e then v_data (da_var da) e else other;
                  v_attrs := [] |} |}.

Fixpoint find_label (l : label) (ls : list label) : option nat :=
  match ls with
  | [] => None
  | l' :: r => if bool_decide (l' = l) then Some 0%nat
               else option_map S (find_label l r)
  end.

Definition positions (n : nat) : list (nat * nat) :=
  map (fun k => (k, k)) (seq 0 n).

(** The inner join of two coordinates: the pairs [(i, j)] such that
    position [i] of the first carries the label of position [j] of the
    second.  Equal coordinates are paired position by position. *)
Definition join_positions (a b : list label) : list (nat * nat) :=
  if bool_decide (a = b) then positions (length a)
  else omap (fun i => match nth_error a i with
                      | Some l => option_map (fun j => (i, j)) (find_label l b)
                      | None => None
                      end)
            (seq 0 (length a)).

(** Every choice of one position per listed dimension, the others as in [e]. *)
Fixpoint all_indices_in (e : index) (choices : list (string * list nat)) : list index :=
  match choices with
  | [] => [e]
  | (d, ks) :: r => flat_map (fun k => all_indices_in (upd e d k) r) ks
  end.

Section WhereDrop.
Variable ds : Dataset.
Variable cond : BoolArray.

Definition alignable (d : string) : bool :=
  match assoc d (ds_coords ds), assoc d (b_coords cond) with
  | Some _, Some _ => true
  | _, _ => (size_of (ds_sizes ds) d =? size_of (b_sizes cond) d)%nat
  end.

(** The positions of the dataset and of the condition that are aligned
    along [d]. *)
Definition aligned (d : string) : list (nat * nat) :=
  match assoc d (ds_coords ds), assoc d (b_coords cond) with
  | Some a, Some b => join_positions a b
  | _, _ => positions (size_of (ds_sizes ds) d)
  end.

(** The aligned positions along [d] at which the condition holds
    somewhere across its other dimensions. *)
Definition kept (d : string) : list (nat * nat) :=
  let others := filter (fun d' => negb (String.eqb d' d)) (b_dims cond) in
  let choices := map (fun d' => (d', map snd (aligned d'))) others in
  filter (fun ij => existsb (fun e => b_test cond (upd e d (snd ij)))
                            (all_indices_in origin choices))
         (aligned d).

Definition kept_ds (e : index) : index :=
  fun d => if mem d (b_dims cond) then fst (nth (e d) (kept d) (0%nat, 0%nat)) else e d.

Definition kept_cond (e : index) : index :=
  fun d => if mem d (b_dims cond) then snd (nth (e d) (kept d) (0%nat, 0%nat)) else e d.

(** [dataset.where(cond, drop=True)]: along every dimension of the
    condition only the positions are kept where it holds somewhere; in
    what is kept, a cell where it does not hold becomes not-a-number. *)
Definition ds_where_drop : result Dataset :=
  if negb (forallb (fun d => has_key d (ds_sizes ds)) (b_dims cond))
  then Raise (ValueError "dimensions do not exist")
  else if negb (forallb alignable (b_dims cond))
  then Raise (ValueError "cannot align along a dimension without an index")
  else
    Ok {| ds_sizes :=
            map (fun dn => (fst dn, if mem (fst dn) (b_dims cond)
                                    then length (kept (fst dn)) else snd dn))
                (ds_sizes ds);
          ds_coords :=
            map (fun dl => (fst dl, if mem (fst dl) (b_dims cond)
                                    then map (fun ij => nth (fst ij) (snd dl) LNaN)
                                             (kept (fst dl))
                                    else snd dl))
                (ds_coords ds);
          ds_vars :=
            map (fun nv =>
                   (fst nv,
                    {| v_dims := v_dims (snd nv)
                                 ++ filter (fun d => negb (mem d (v_dims (snd nv))))
                                           (b_dims cond);
                       v_data := fun e => if b_test cond (kept_cond e)
                                          then v_data (snd nv) (kept_ds e)
                                          else None;
                       v_attrs := v_attrs (snd nv) |}))
                (ds_vars ds);
          ds_attrs := ds_attrs ds |}.
End WhereDrop.

(** *** Reductions *)

Definition qsum (l : list Q) : Q := fold_right Qplus 0%Q l.

Definition numbers (cs : list cell) : list Q := omap id cs.

(** The mean of the cells that hold a number. *)
Definition nanmean (cs : list cell) : cell :=
  match numbers cs with
  | [] => None
  | xs => Some (qsum xs / inject_Z (Z.of_nat (length xs)))%Q
  end.

(** The standard deviation of the cells that hold a number; the square
    root is a parameter. *)
Definition nanstd (sqrt : Q -> Q) (cs : list cell) : cell :=
  match nanmean cs with
  | None => None
  | Some m =>
      let xs := numbers cs in
      Some (sqrt (qsum (map (fun x => (x - m) * (x - m)) xs)
                  / inject_Z (Z.of_nat (length xs))))%Q
  end.

(** [array.reduce(f, dim=dims)]: the listed dimensions go, each remaining
    cell is [f] of the cells that lay over it. *)
Definition da_reduce (f : list cell -> cell) (da : DataArray) (dims : list string)
  : result DataArray :=
  let v := da_var da in
  if forallb (fun d => mem d (v_dims v)) dims then
    Ok {| da_name := da_name da;
          da_sizes := filter (fun p : string * nat => negb (mem (fst p) dims)) (da_sizes da);
          da_coords := filter (fun p : string * list label => negb (mem (fst p) dims))
                              (da_coords da);
          da_var :=
            {| v_dims := filter (fun d => negb (mem d dims)) (v_dims v);
               v_data := fun e =>
                 f (map (v_data v)
                        (all_indices_in e
                           (map (fun d => (d, seq 0 (size_of (da_sizes da) d))) dims)));
               v_attrs := [] |} |}
  else Raise (ValueError "dimension not found in data dimensions").

(** *** Nearest-neighbour selection *)

Definition Qlt_bool (a b : Q) : bool := negb (Qle_bool b a).

Fixpoint increasing (l : list Q) : bool :=
  match l with
  | a :: (b :: _) as r => Qlt_bool a b && increasing r
  | _ => true
  end.

Fixpoint decreasing (l : list Q) : bool :=
  match l with
  | a :: (b :: _) as r => Qlt_bool b a && decreasing r
  | _ => true
  end.

Fixpoint numeric (ls : list label) : option (list Q) :=
  match ls with
  | [] => Some []
  | LNum q :: r => option_map (cons q) (numeric r)
  | _ => None
  end.

(** Is [l] nearer to [target] than [best], a tie going to the larger one? *)
Definition nearer (target l best : Q) : bool :=
  let dl := Qabs (l - target) in
  let db := Qabs (best - target) in
  Qlt_bool dl db || (Qeq_bool dl db && Qlt_bool best l).

Fixpoint nearest_from (target : Q) (best : nat * Q) (k : nat) (ls : list Q) : nat * Q :=
  match ls with
  | [] => best
  | l :: r =>
      nearest_from target (if nearer target l (snd best) then (k, l) else best) (S k) r
  end.

(** The position of the label nearest to [target]. *)
Definition nearest_position (target : Q) (ls : list Q) : option nat :=
  match ls with
  | [] => None
  | l :: r => Some (fst (nearest_from target (0%nat, l) 1 r))
  end.

(** One key of [array.sel({dim: target}, method="nearest")]: the index of
    [dim] must be numeric and strictly monotonic. *)
Definition sel_nearest_one (da : DataArray) (dim : string) (target : Q)
  : result DataArray :=
  let v := da_var da in
  if negb (mem dim (v_dims v)) then Raise (KeyError dim)
  else
    match assoc dim (da_coords da) with
    | None => Raise (KeyError dim)
    | Some ls =>
        match numeric ls with
        | None => Raise (KeyError dim)
        | Some qs =>
            if negb (increasing qs || decreasing qs)
            then Raise (ValueError "index must be monotonic increasing or decreasing")
            else
              match nearest_position target qs with
              | None => Raise (KeyError dim)
              | Some p =>
                  Ok {| da_name := da_name da;
                        da_sizes := remove_assoc dim (da_sizes da);
                        da_coords := remove_assoc dim (da_coords da);
                        da_var :=
                          {| v_dims := filter (fun d => negb (String.eqb d dim)) (v_dims v);
                             v_data := fun e => v_data v (upd e dim p);
                             v_attrs := v_attrs v |} |}
              end
        end
    end.

Fixpoint sel_nearest (da : DataArray) (keys : list (string * Q)) : result DataArray :=
  match keys with
  | [] => Ok da
  | (dim, target) :: r =>
      match sel_nearest_one da dim target with
      | Ok da' => sel_nearest da' r
      | Raise e => Raise e
      end
  end.

(** *** Clipping by a geometry *)

Definition coord_number (coords : list (string * list label)) (d : string) (k : nat) : Q :=
  match assoc d coords with
  | Some ls => match nth_error ls k with Some (LNum q) => q | _ => 0%Q end
  | None => inject_Z (Z.of_nat k)
  end.

Definition spatial (x_dim y_dim : string) (v : DataVar) : bool :=
  mem x_dim (v_dims v) && mem y_dim (v_dims v).

(** One variable under [rio.clip([geometry], drop=False)]: a cell whose
    centre the geometry does not cover becomes not-a-number. *)
Definition clip_var (x_dim y_dim : string) (g : Geometry) (ds : Dataset) (v : DataVar)
  : DataVar :=
  {| v_dims := v_dims v;
     v_data := fun e =>
       if g_covers g (coord_number (ds_coords ds) x_dim (e x_dim))
                     (coord_number (ds_coords ds) y_dim (e y_dim))
       then v_data v e else None;
     v_attrs := v_attrs v |}.

(** The variables of the dataset are clipped one by one, in their order.
    A variable over the two spatial dimensions needs the coordinate
    reference system that [write_crs] leaves with the variables (the
    dataset attribute ["crs"] does not reach them), and a grid with cells:
    a grid without cells has no data in the bounds of any geometry.  A
    variable without the spatial dimensions is refused when it has two
    dimensions or more, and else goes through as it is.  The three
    refusals are the library's own exceptions, all of them kinds of
    [RuntimeError]. *)
Fixpoint clip_vars (x_dim y_dim : string) (g : Geometry) (ds : Dataset)
    (vars : list (string * DataVar)) : result (list (string * DataVar)) :=
  match vars with
  | [] => Ok []
  | nv :: rest =>
      if spatial x_dim y_dim (snd nv) then
        if negb (has_key "spatial_ref" (ds_attrs ds))
        then Raise (RuntimeError "CRS not found")
        else if (size_of (ds_sizes ds) x_dim =? 0)%nat
                || (size_of (ds_sizes ds) y_dim =? 0)%nat
        then Raise (RuntimeError "No data found in bounds")
        else
          match clip_vars x_dim y_dim g ds rest with
          | Ok rest' => Ok ((fst nv, clip_var x_dim y_dim g ds (snd nv)) :: rest')
          | Raise e => Raise e
          end
      else if (2 <=? length (v_dims (snd nv)))%nat
      then Raise (RuntimeError "spatial dimension not found")
      else
        match clip_vars x_dim y_dim g ds rest with
        | Ok rest' => Ok (nv :: rest')
        | Raise e => Raise e
        end
  end.

(** [dataset.rio.clip([geometry], drop=False)]; nothing is dropped. *)
Definition rio_clip (x_dim y_dim : string) (g : Geometry) (ds : Dataset) : result Dataset :=
  match clip_vars x_dim y_dim g ds (ds_vars ds) with
  | Ok vars =>
      Ok {| ds_sizes := ds_sizes ds;
            ds_coords := ds_coords ds;
            ds_vars := vars;
            ds_attrs := ds_attrs ds |}
  | Raise e => Raise e
  end.

(** An array on its own, as the dataset of its one variable. *)
Definition da_to_dataset (da : DataArray) : Dataset :=
  {| ds_sizes := da_sizes da;
     ds_coords := da_coords da;
     ds_vars := [(da_name da, da_var da)];
     ds_attrs := [] |}.

End Xr.

(** ** TimeSeriesMerger: [merge_files] *)

Module Merger.
Import Xr.

(** [pd.date_range(start, end)]: every day from [start] to [end], both
    included; days are counted like [date.toordinal]. *)
Definition pd_date_range (start_day end_day : Z) : list Z :=
  map (fun k => (start_day + Z.of_nat k)%Z)
      (seq 0 (Z.to_nat (end_day - start_day + 1))).

Definition transform_get (r : Raster) (k : nat) : Q := nth k (r_transform r) 0%Q.

(** The dataset built from the first band of a raster: coordinates from the
    affine transform, one variable over [("lat", "lon")].
    [to_dataset(name=...)] refuses the name of one of the coordinates. *)
Definition raster_to_dataset (src : Raster) (variable_name : string) : result Dataset :=
  let latitudes :=
    map (fun i => LNum (transform_get src 5 + transform_get src 4 * inject_Z (Z.of_nat i))%Q)
        (seq 0 (r_height src)) in
  let longitudes :=
    map (fun j => LNum (transform_get src 2 + transform_get src 0 * inject_Z (Z.of_nat j))%Q)
        (seq 0 (r_width src)) in
  if String.eqb variable_name "lat" || String.eqb variable_name "lon"
  then Raise (ValueError "cannot create a Dataset from a DataArray with the same name as one of its coordinates")
  else
    Ok {| ds_sizes := [("lat", r_height src); ("lon", r_width src)];
          ds_coords := [("lat", latitudes); ("lon", longitudes)];
          ds_vars := [(variable_name,
                       {| v_dims := ["lat"; "lon"];
                          v_data := fun e => r_band1 src (e "lat") (e "lon");
                          v_attrs := [] |})];
          ds_attrs := [] |}.

(** The name of the file of one day. *)
Definition day_filename (data_folder file_type : string) (date : Z) : string :=
  let t := Calendar.ord2ymd date in
  let year := Calendar.year t in
  let month := Py.zfill 2 (Py.str (Calendar.month t)) in
  let day := Py.zfill 2 (Py.str (Calendar.day t)) in
  data_folder ++ Py.str year ++ "-" ++ month ++ "-" ++ day ++ "." ++ file_type.

(** The loop over the dates.  [None] is the early [return]. *)
Fixpoint merge_loop (date_range : list Z)
    (data_folder file_type variable_name : string)
    (datasets : list Dataset) (times : list Z)
  : M World (option (list Dataset * list Z)) :=
  match date_range with
  | [] => ret (Some (datasets, times))
  | date :: rest =>
      let filename := day_filename data_folder file_type date in
      do found <- os_path_exists filename;
      if found : bool then
        if String.eqb file_type "nc" then
          do ds <- xr_open_dataset filename;
          merge_loop rest data_folder file_type variable_name
                     (datasets ++ [ds]) (times ++ [date])
        else if String.eqb file_type "tif" then
          do src <- rasterio_open filename;
          do ds <- lift (raster_to_dataset src variable_name);
          merge_loop rest data_folder file_type variable_name
                     (datasets ++ [ds]) (times ++ [date])
        else
          (print ("Unsupported file type: " ++ file_type);;
           ret None)
      else
        (print ("File not found: " ++ filename);;
         merge_loop rest data_folder file_type variable_name datasets times)
  end.

Definition merge_files (start_date end_date : Z)
    (data_folder output_folder file_type units variable_name : string)
  : M World unit :=
  let date_range := pd_date_range start_date (end_date - 1) in
  do r <- merge_loop date_range data_folder file_type variable_name [] [];
  match r with
  | None => ret tt
  | Some (datasets, times) =>
      do combined <- lift (xr_concat datasets "time");
      do combined <- lift (ds_set_coord combined "time" (map LDay times));
      do combined <- lift (ds_set_var_attr combined variable_name "units" units);
      (to_netcdf combined output_folder;;
       print (repr combined))
  end.

End Merger.

(** ** CountryMasker: [country_crop] *)

Module Masker.
Import Xr.

Definition country_crop (file_to_be_cropped mask_file output_file : string)
  : M World unit :=
  do ds <- xr_open_dataset file_to_be_cropped;
  do ds_mask <- xr_open_dataset mask_file;
  do mask <- lift (ds_getitem ds_mask "mask");
  do ds_global_honduras <- lift (ds_where_drop ds (da_eq mask 1%Q));
  to_netcdf ds_global_honduras output_file.

End Masker.

(** ** Rows of a vector layer *)

(** [row[column]] on a row of a layer. *)
Definition feature_get (row : Feature) (column : string) : result label :=
  match assoc column (f_attrs row) with
  | Some l => Ok l
  | None => Raise (KeyError column)
  end.

(** ** RegionClipper: [regions_crop] *)

Module Clipper.
Import Xr.

Section Reprojection.
(** [geometry.to_crs(target)] from the system [source]: the library's
    reprojection of a geometry is a parameter. *)
Variable to_crs : string -> string -> Geometry -> Geometry.

(** [dataset.rio.write_crs(crs, inplace=True)]: the coordinate system is
    kept with the dataset, here under the key ["spatial_ref"]. *)
Definition rio_write_crs (crs : string) (ds : Dataset) : Dataset :=
  {| ds_sizes := ds_sizes ds;
     ds_coords := ds_coords ds;
     ds_vars := ds_vars ds;
     ds_attrs := set_assoc "spatial_ref" crs (ds_attrs ds) |}.

(** [dataset.rio.crs]: what [write_crs] kept, else the attribute ["crs"]. *)
Definition rio_crs (ds : Dataset) : string :=
  match assoc "spatial_ref" (ds_attrs ds) with
  | Some c => c
  | None => default "" (assoc "crs" (ds_attrs ds))
  end.

(** [dataset.rio.set_spatial_dims(x_dim, y_dim)]. *)
Definition rio_set_spatial_dims (x_dim y_dim : string) (ds : Dataset) : result Dataset :=
  if has_key x_dim (ds_sizes ds) && has_key y_dim (ds_sizes ds) then Ok ds
  else Raise (RuntimeError "spatial dimension not found").

Definition layer_to_crs (target : string) (regions : Layer) : Layer :=
  {| l_crs := target;
     l_features :=
       map (fun f => {| f_geometry := to_crs target (l_crs regions) (f_geometry f);
                        f_attrs := f_attrs f |})
           (l_features regions) |}.

(** The loop over the rows of the layer. *)
Fixpoint regions_loop (ds : Dataset) (lon_dim lat_dim data_var name_column : string)
    (rows : list Feature) (clipped_datasets : list DataArray) (region_names : list label)
  : M World (list DataArray * list label) :=
  match rows with
  | [] => ret (clipped_datasets, region_names)
  | region :: rest =>
      let geometry := f_geometry region in
      do mask <- lift (rio_clip lon_dim lat_dim geometry ds);
      do mask <- lift (ds_getitem mask data_var);
      let mask := da_notnull mask in
      do region_name <- lift (feature_get region name_column);
      do da <- lift (ds_getitem ds data_var);
      let region_masked := xr_where mask da None in
      regions_loop ds lon_dim lat_dim data_var name_column rest
                   (clipped_datasets ++ [region_masked])
                   (region_names ++ [region_name])
  end.

Definition regions_crop (file_to_be_cropped shapefile output_file name_column : string)
  : M World string :=
  do ds <- xr_open_dataset file_to_be_cropped;
  (print (repr ds);;
   let ds := if negb (has_key "crs" (ds_attrs ds))
             then rio_write_crs "EPSG:4326" ds else ds in
   let lon_dim := if has_key "lon" (ds_sizes ds) then "lon" else "x" in
   let lat_dim := if has_key "lat" (ds_sizes ds) then "lat" else "y" in
   do ds <- lift (rio_set_spatial_dims lon_dim lat_dim ds);
   do regions <- gpd_read_file shapefile;
   let regions :=
     if String.eqb (rio_crs ds) (l_crs regions) then regions
     else layer_to_crs (rio_crs ds) regions in
   do data_var <- lift (match ds_vars ds with
                        | [] => Raise (IndexError "list index out of range")
                        | nv :: _ => Ok (fst nv)
                        end);
   do r <- regions_loop ds lon_dim lat_dim data_var name_column
                        (l_features regions) [] [];
   do combined_ds <- lift (xr_concat (map da_to_dataset (fst r)) "region");
   do combined_ds <- lift (ds_set_coord combined_ds "region" (snd r));
   (to_netcdf combined_ds output_file;;
    ret output_file)).

End Reprojection.

End Clipper.

(** ** TimeSeriesPlotter: [plot_nc_file] *)

Module Plotter.
Import Xr.

Definition cell_label (c : cell) : label :=
  match c with Some q => LNum q | None => LNaN end.

(** [array.values], flattened: the labels of a coordinate, the cells of a
    data variable. *)
Definition da_values (da : DataArray) : list label :=
  match v_dims (da_var da), assoc (da_name da) (da_coords da) with
  | [d], Some ls => if String.eqb d (da_name da) then ls
                    else map (fun e => cell_label (v_data (da_var da) e))
                             (all_indices_in origin [(d, seq 0 (size_of (da_sizes da) d))])
  | dims, _ =>
      map (fun e => cell_label (v_data (da_var da) e))
          (all_indices_in origin
             (map (fun d => (d, seq 0 (size_of (da_sizes da) d))) dims))
  end.

Definition da_cells (da : DataArray) : list cell :=
  map (v_data (da_var da))
      (all_indices_in origin
         (map (fun d => (d, seq 0 (size_of (da_sizes da) d))) (v_dims (da_var da)))).

Definition cell_add (a b : cell) : cell :=
  match a, b with Some x, Some y => Some (x + y)%Q | _, _ => None end.

Definition cell_sub (a b : cell) : cell :=
  match a, b with Some x, Some y => Some (x - y)%Q | _, _ => None end.

Fixpoint zip_with {A B C} (f : A -> B -> C) (l : list A) (r : list B) : list C :=
  match l, r with
  | a :: l', b :: r' => f a b :: zip_with f l' r'
  | _, _ => []
  end.

(** A calendar-aware day becomes the plain day of its ISO text. *)
Definition to_datetime64 (l : label) : label :=
  match l with LCal d => LDay d | other => other end.

Definition lower_char (c : ascii) : ascii :=
  let n := nat_of_ascii c in
  if (65 <=? n)%nat && (n <=? 90)%nat then ascii_of_nat (n + 32) else c.

Fixpoint lower (s : string) : string :=
  match s with
  | EmptyString => EmptyString
  | String c r => String (lower_char c) (lower r)
  end.

Fixpoint rstrip_dots (s : string) : string :=
  match s with
  | EmptyString => EmptyString
  | String c r =>
      match rstrip_dots r with
      | EmptyString => if Ascii.eqb c "." then EmptyString else String c EmptyString
      | r' => String c r'
      end
  end.

Definition savefig_formats : list string :=
  ["eps"; "jpeg"; "jpg"; "pdf"; "pgf"; "png"; "ps"; "raw"; "rgba"; "svg";
   "svgz"; "tif"; "tiff"; "webp"].

(** [plt.savefig(fname)]: the format is the extension of the name; a name
    without one gets the default, ["png"], appended. *)
Definition plt_savefig (fname : string) (fig : Figure) : M World unit :=
  let ext := snd (Py.splitext fname) in
  let format := substring 1 (String.length ext - 1) ext in
  if String.eqb format "" then write_file (rstrip_dots fname ++ ".png") (Image fig)
  else if mem (lower format) savefig_formats then write_file fname (Image fig)
  else raise (ValueError "format is not supported").

Section Sqrt.
(** The square root of the standard deviation is a parameter. *)
Variable sqrt : Q -> Q.

Definition plot_nc_file
    (file_path variable_name save_path lon_dim lat_dim time_dim : string)
  : M World unit :=
  do dataset <- xr_open_dataset file_path;
  if negb (ds_contains dataset variable_name) then
    raise (ValueError ("La variable '" ++ variable_name
                       ++ "' no se encuentra en el archivo."))
  else
    do da <- lift (ds_getitem dataset variable_name);
    do daily_mean <- lift (da_reduce nanmean da [lon_dim; lat_dim]);
    do daily_std <- lift (da_reduce (nanstd sqrt) da [lon_dim; lat_dim]);
    do time_da <- lift (ds_getitem dataset time_dim);
    let time := da_values time_da in
    do first <- lift (match time with
                      | [] => Raise (IndexError "index 0 is out of bounds")
                      | t :: _ => Ok t
                      end);
    let time := match first with
                | LCal _ => map to_datetime64 time
                | _ => time
                end in
    let upper_bound := zip_with cell_add (da_cells daily_mean) (da_cells daily_std) in
    let lower_bound := zip_with cell_sub (da_cells daily_mean) (da_cells daily_std) in
    let units := default "unidades" (assoc "units" (v_attrs (da_var da))) in
    if (1 <? length (v_dims (da_var daily_mean)))%nat
       || negb (length time =? length (da_cells daily_mean))%nat
    then raise (ValueError "x and y must have same first dimension")
    else
      plt_savefig (save_path ++ variable_name)
        {| fig_x := time;
           fig_mean := da_cells daily_mean;
           fig_lower := lower_bound;
           fig_upper := upper_bound;
           fig_xlabel := "Días";
           fig_ylabel := variable_name ++ " (" ++ units ++ ")";
           fig_title := "Promedio diario de " ++ variable_name
                        ++ " con rango de incertidumbre";
           fig_legend := [variable_name ++ " promedio"; "Rango de incertidumbre"] |}.

End Sqrt.

End Plotter.

(** ** MunicipalityAverager: [calculate_daily_mean_per_municipality] *)

Module Averager.
Import Xr.

(** A row of the table: the two labels and, under the name of the mean
    column, the mean. *)
Record Row : Type := mk_Row {
  row_region : label;
  row_municipio : label;
  row_mean_column : string;
  row_mean : DataArray
}.

(** [pd.DataFrame(results)]: the rows in the order of the list. *)
Record DataFrame : Type := mk_DataFrame { df_rows : list Row }.

Fixpoint municipality_loop (dataset : Dataset)
    (variable_name region_column municipality_column units lon_dim lat_dim : string)
    (rows : list Feature) (results : list Row) : M World (list Row) :=
  match rows with
  | [] => ret results
  | municipality :: rest =>
      let municipality_polygon := f_geometry municipality in
      do da <- lift (ds_getitem dataset variable_name);
      do variable_data <-
        lift (sel_nearest da [(lon_dim, fst (g_centroid municipality_polygon));
                              (lat_dim, snd (g_centroid municipality_polygon))]);
      do daily_mean <- lift (da_reduce nanmean variable_data ["time"]);
      do region <- lift (feature_get municipality region_column);
      do municipio <- lift (feature_get municipality municipality_column);
      municipality_loop dataset variable_name region_column municipality_column units
        lon_dim lat_dim rest
        (results
         ++ [{| row_region := region;
                row_municipio := municipio;
                row_mean_column := variable_name ++ "_promedio (" ++ units ++ ")";
                row_mean := daily_mean |}])
  end.

Definition calculate_daily_mean_per_municipality
    (shapefile_path netcdf_file variable_name region_column municipality_column units
     : string)
  : M World DataFrame :=
  do municipalities <- gpd_read_file shapefile_path;
  do dataset <- xr_open_dataset netcdf_file;
  if negb (ds_contains dataset variable_name) then
    raise (ValueError ("La variable '" ++ variable_name
                       ++ "' no se encuentra en el archivo NetCDF."))
  else
    let lon_dim := if has_key "lon" (ds_sizes dataset) then "lon" else "x" in
    let lat_dim := if has_key "lat" (ds_sizes dataset) then "lat" else "y" in
    do results <- municipality_loop dataset variable_name region_column
                    municipality_column units lon_dim lat_dim
                    (l_features municipalities) [];
    let df := {| df_rows := results |} in
    ret df.

End Averager.

(** * The vocabulary of the properties *)

(** [p] holds on the [count] integers from [lo] on, checked by iteration. *)
Definition check_range (p : Z -> bool) (lo : Z) (count : positive) : bool :=
  fst (Pos.iter (fun s => (fst s && p (snd s), (snd s + 1)%Z)) (true, lo) count).

(** [t] is the date of ordinal [n], with a month and a day that exist. *)
Definition ymd_ok (t : Calendar.ymd) (n : Z) : bool :=
  (Calendar.toordinal t =? n)%Z && (1 <=? Calendar.month t)%Z && (Calendar.month t <=? 12)%Z
  && (1 <=? Calendar.day t)%Z
  && (Calendar.day t <=? Calendar.days_in_month (Calendar.year t) (Calendar.month t))%Z.

(** The days before a month and its length stay inside the year. *)
Definition month_ok (leap : bool) (m : Z) : bool :=
  let before := (Calendar.table Calendar.DAYS_BEFORE_MONTH m
                 + (if (2 <? m)%Z && leap then 1 else 0))%Z in
  let within := if (m =? 2)%Z && leap then 29%Z
                else Calendar.table Calendar.DAYS_IN_MONTH m in
  ((0 <=? before) && (before + within <=? (if leap then 366 else 365)))%Z.

(** The decimal digit of a number from 0 to 9. *)
Definition digit (k : Z) : ascii := ascii_of_nat (48 + Z.to_nat k).

(** A number written with exactly two, three and four decimal digits. *)
Definition DD (n : Z) : string :=
  String (digit (n / 10 mod 10)) (String (digit (n mod 10)) "").
Definition DDD (n : Z) : string := String (digit (n / 100 mod 10)) (DD n).
Definition YYYY (n : Z) : string := String (digit (n / 1000 mod 10)) (DDD n).

Definition j_ok (n : Z) : bool :=
  match Calendar.match_j (DDD n) with
  | Some (v, used) =>
      if ((1 <=? n) && (n <=? 366))%Z then (v =? n)%Z && (used =? 3)%nat
      else negb (n =? 0)%Z && negb (used =? 3)%nat
  | None => (n =? 0)%Z
  end.

(** *** Vocabulary of the renamer *)
Definition base_name (archivo : string) : string := fst (Py.splitext archivo).
Definition extension (archivo : string) : string := snd (Py.splitext archivo).

(** The entry has a base name of exactly seven digits. *)
Definition julian (archivo : string) : bool := Renamer.is_julian_name (base_name archivo).

Definition name_year (archivo : string) : Z := Py.int (substring 0 4 (base_name archivo)).
Definition name_day (archivo : string) : Z :=
  Py.int (substring 4 (String.length (base_name archivo) - 4) (base_name archivo)).

(** The date the code computes: the first of January moved forward. *)
Definition name_date (archivo : string) : Calendar.ymd :=
  Calendar.ord2ymd (Calendar.ymd2ord (name_year archivo) 1 1 + name_day archivo - 1).

Definition new_name (archivo : string) : string :=
  if julian archivo then Calendar.isoformat (name_date archivo) ++ extension archivo
  else archivo.

(** The year is written with four digits and the day exists in that year. *)
Definition well_dated (archivo : string) : bool :=
  ((1000 <=? name_year archivo) && (1 <=? name_day archivo)
   && (name_day archivo <=? Calendar.days_in_year (name_year archivo)))%Z.

Definition renames_of (directorio : string) (archivos : list string) : list (string * string) :=
  map (fun a => (Py.path_join directorio a, Py.path_join directorio (new_name a)))
      (List.filter julian archivos).

(** The name is written in ASCII, where a character is a byte and the
    digits are ["0"] to ["9"]. *)
Definition ascii_name (archivo : string) : bool :=
  forallb (fun c => (nat_of_ascii c <? 128)%nat) (list_ascii_of_string archivo).

(** No rename of an entry of [archivos] lands on a name of [existing]. *)
Definition fresh_names (archivos existing : list string) : Prop :=
  forall a, a ∈ archivos -> julian a = true -> new_name a ∉ existing.

(** A directory with a Julian entry, a plain entry and nothing renamed yet. *)
Definition dir_example : Renamer.directory :=
  Renamer.mk_directory ["2024099.tif"; "readme.txt"] [].

(** A directory whose second entry has day 000. *)
Definition dir_day_zero : Renamer.directory :=
  Renamer.mk_directory ["2024099.tif"; "2024000.tif"; "2024100.tif"] [].

(** *** Vocabulary of the merger *)

(** There is a file at [path]. *)
Definition present (files : gmap string File) (path : string) : bool :=
  bool_decide (is_Some (files !! path)).

(** The dataset the loop takes from the file at [path], when it can. *)
Definition loaded (files : gmap string File) (file_type variable_name path : string)
  : option Dataset :=
  match files !! path with
  | Some (NetCDF ds) => if String.eqb file_type "nc" then Some ds else None
  | Some (GeoTIFF r) =>
      if String.eqb file_type "nc" then None
      else if String.eqb file_type "tif"
      then match Merger.raster_to_dataset r variable_name with
           | Ok ds => Some ds
           | Raise _ => None
           end
      else None
  | _ => None
  end.

(** The file at [path] is the file of one day: it loads, it brings one step
    along the time dimension and it holds the variable. *)
Definition single_day (files : gmap string File) (file_type variable_name path : string)
  : bool :=
  match loaded files file_type variable_name path with
  | Some ds => (Xr.steps_along "time" ds =? 1)%nat && has_key variable_name (ds_vars ds)
  | None => false
  end.

(** The days a time stamp of the date range can hold: from the 22nd of
    September 1677 to the 11th of April 2262. *)
Definition timestamp_day (d : Z) : Prop :=
  (Calendar.ymd2ord 1677 9 22 <= d <= Calendar.ymd2ord 2262 4 11)%Z.

(** Two files agree on everything but the time axis: the same dimensions
    and coordinates apart from the time, a time dimension and a time
    coordinate in both or in neither, the same variables over the same
    dimensions. *)
Definition same_layout (a b : Dataset) : Prop :=
  remove_assoc "time" (ds_sizes a) = remove_assoc "time" (ds_sizes b)
  /\ remove_assoc "time" (ds_coords a) = remove_assoc "time" (ds_coords b)
  /\ has_key "time" (ds_sizes a) = has_key "time" (ds_sizes b)
  /\ has_key "time" (ds_coords a) = has_key "time" (ds_coords b)
  /\ map (fun nv => (fst nv, v_dims (snd nv))) (ds_vars a)
     = map (fun nv => (fst nv, v_dims (snd nv))) (ds_vars b).

(** A dataset that can be written once the days are its time axis: no
    dimension is empty and no variable of its own is called ["time"]. *)
Definition writable (ds : Dataset) : Prop :=
  Forall (fun dn : string * nat => snd dn <> 0%nat) (ds_sizes ds)
  /\ has_key "time" (ds_vars ds) = false.

Definition supported (file_type : string) : bool :=
  String.eqb file_type "nc" || String.eqb file_type "tif".

(** The world after more lines were printed and more paths probed. *)
Definition with_log (lines paths : list string) (w : World) : World :=
  {| fs := fs w; stdout := stdout w ++ lines; probed := probed w ++ paths |}.

Section MergerVocabulary.
Variable files : gmap string File.
Variables data_folder file_type variable_name : string.

Definition day_present (date : Z) : bool :=
  present files (Merger.day_filename data_folder file_type date).

Definition day_loaded (date : Z) : option Dataset :=
  loaded files file_type variable_name (Merger.day_filename data_folder file_type date).

Definition not_found_line (date : Z) : string :=
  "File not found: " ++ Merger.day_filename data_folder file_type date.

(** The dates before the first one whose file is there. *)
Fixpoint absent_prefix (dates : list Z) : list Z :=
  match dates with
  | [] => []
  | d :: r => if day_present d then [] else d :: absent_prefix r
  end.

(** The turns the loop takes: it stops at the first file that is there and
    cannot be taken. *)
Fixpoint turns (dates : list Z) : nat :=
  match dates with
  | [] => 0%nat
  | d :: r =>
      if day_present d && negb (bool_decide (is_Some (day_loaded d))) then 1%nat
      else S (turns r)
  end.

(** The files of [dates] that are there can be merged and written: the
    dates are days a time stamp can hold, each file is the file of one
    day, the files agree on their layout, each can be written, and none
    of them is the output. *)
Definition mergeable (output_folder : string) (dates : list Z) : Prop :=
  (forall d, d ∈ dates -> timestamp_day d)
  /\ (forall d, d ∈ dates -> day_present d = true ->
                single_day files file_type variable_name
                           (Merger.day_filename data_folder file_type d) = true)
  /\ (forall d d' ds ds', d ∈ dates -> d' ∈ dates ->
        day_loaded d = Some ds -> day_loaded d' = Some ds' -> same_layout ds ds')
  /\ (forall d ds, d ∈ dates -> day_loaded d = Some ds -> writable ds)
  /\ (forall d, d ∈ dates ->
        Merger.day_filename data_folder file_type d <> output_folder).
End MergerVocabulary.

(** Three days from the eighth of April 2024; the file of the second day
    is missing. *)
Definition april_8 : Z := Calendar.ymd2ord 2024 4 8.

Definition flat_grid (q : Q) : Dataset :=
  {| ds_sizes := [("lat", 1%nat); ("lon", 2%nat)];
     ds_coords := [("lat", [LNum 14]); ("lon", [LNum (-87); LNum (-86)])];
     ds_vars := [("rain", {| v_dims := ["lat"; "lon"];
                             v_data := fun _ => Some q;
                             v_attrs := [] |})];
     ds_attrs := [] |}.

Definition world_gap : World :=
  {| fs := <["in/rain_2024-04-08.nc" := NetCDF (flat_grid 1)]>
             (<["in/rain_2024-04-10.nc" := NetCDF (flat_grid 3)]> ∅);
     stdout := [];
     probed := [] |}.

Definition world_full : World :=
  {| fs := <["in/rain_2024-04-08.nc" := NetCDF (flat_grid 1)]>
             (<["in/rain_2024-04-09.nc" := NetCDF (flat_grid 2)]>
                (<["in/rain_2024-04-10.nc" := NetCDF (flat_grid 3)]> ∅));
     stdout := [];
     probed := [] |}.

Definition world_empty : World := {| fs := ∅; stdout := []; probed := [] |}.

(** The grid of one day that carries its date: one step along the time. *)
Definition dated_grid (day : Z) (q : Q) : Dataset :=
  {| ds_sizes := [("time", 1%nat); ("lat", 1%nat); ("lon", 2%nat)];
     ds_coords := [("time", [LDay day]); ("lat", [LNum 14]);
                   ("lon", [LNum (-87); LNum (-86)])];
     ds_vars := [("rain", {| v_dims := ["time"; "lat"; "lon"];
                             v_data := fun _ => Some q;
                             v_attrs := [] |})];
     ds_attrs := [] |}.

(** Two days, both files there: the first carries its date, the second
    does not. *)
Definition world_mixed : World :=
  {| fs := <["in/rain_2024-04-08.nc" := NetCDF (dated_grid april_8 1)]>
             (<["in/rain_2024-04-09.nc" := NetCDF (flat_grid 2)]> ∅);
     stdout := [];
     probed := [] |}.

(** The file of the first day under a type the loop does not know. *)
Definition world_png : World :=
  {| fs := <["in/rain_2024-04-08.png" := NetCDF (flat_grid 1)]> ∅;
     stdout := [];
     probed := [] |}.

(** *** Vocabulary of the plotter and of the averager *)

(** Position [p] of [qs] holds a number nearest to [target]. *)
Definition nearest_to (target : Q) (qs : list Q) (p : nat) : Prop :=
  exists x, nth_error qs p = Some x
            /\ forall y, In y qs -> (Qabs (x - target) <= Qabs (y - target))%Q.

(** The names the code gives to the two spatial dimensions of a dataset. *)
Definition lon_dim_of (ds : Dataset) : string :=
  if has_key "lon" (ds_sizes ds) then "lon" else "x".
Definition lat_dim_of (ds : Dataset) : string :=
  if has_key "lat" (ds_sizes ds) then "lat" else "y".

(** The cells of a variable over the time steps, at one place. *)
Definition series_at (ds : Dataset) (v : DataVar) (lon_dim lat_dim : string)
    (i j : nat) (e : index) : list cell :=
  map (fun t => v_data v (upd (upd (upd e "time" t) lat_dim j) lon_dim i))
      (seq 0 (size_of (ds_sizes ds) "time")).

(** [m] is the mean of the cells of [cs] that hold a number: not a number
    when none does, and else the number that, taken as many times as there
    are numbers, gives their sum. *)
Definition mean_of (cs : list cell) (m : cell) : Prop :=
  let xs := omap id cs in
  match xs with
  | [] => m = None
  | _ :: _ =>
      exists q, m = Some q
                /\ (q * inject_Z (Z.of_nat (length xs)) == fold_right Qplus 0 xs)%Q
  end.

(** A grid of two rows and two columns with three time steps, and a layer
    of two municipalities. *)
Definition temperature_grid : Dataset :=
  {| ds_sizes := [("time", 3%nat); ("lat", 2%nat); ("lon", 2%nat)];
     ds_coords := [("time", [LDay 738984; LDay 738985; LDay 738986]);
                   ("lat", [LNum 14; LNum 15]);
                   ("lon", [LNum (-88); LNum (-87)])];
     ds_vars := [("air_temperature",
                  {| v_dims := ["time"; "lat"; "lon"];
                     v_data := fun e => Some (inject_Z (Z.of_nat (e "time" + 10 * e "lat"
                                                                  + 100 * e "lon")));
                     v_attrs := [("units", "degree_Celsius")] |})];
     ds_attrs := [] |}.

Definition square (x0 y0 : Q) : Geometry :=
  {| g_covers := fun x y => Qle_bool x0 x && Qle_bool x (x0 + 1)
                            && Qle_bool y0 y && Qle_bool y (y0 + 1);
     g_centroid := ((x0 + (1 # 2))%Q, (y0 + (1 # 2))%Q) |}.

Definition two_municipalities : Layer :=
  {| l_crs := "EPSG:4326";
     l_features :=
       [{| f_geometry := square (-(177 # 2)) (27 # 2);
           f_attrs := [("NAME_1", LStr "Copan"); ("NAME_2", LStr "Santa Rosa")] |};
        {| f_geometry := square (-(175 # 2)) (29 # 2);
           f_attrs := [("NAME_1", LStr "Yoro"); ("NAME_2", LStr "Olanchito")] |}] |}.

Definition world_grid : World :=
  {| fs := <["temp.nc" := NetCDF temperature_grid]>
             (<["municipios.shp" := Shapefile two_municipalities]> ∅);
     stdout := [];
     probed := [] |}.

(** The same grid with a variable that has no time: the height of the
    ground. *)
Definition elevation_grid : Dataset :=
  {| ds_sizes := [("lat", 2%nat); ("lon", 2%nat)];
     ds_coords := [("lat", [LNum 14; LNum 15]); ("lon", [LNum (-88); LNum (-87)])];
     ds_vars := [("elevation",
                  {| v_dims := ["lat"; "lon"];
                     v_data := fun e => Some (inject_Z (Z.of_nat (e "lat" + 10 * e "lon")));
                     v_attrs := [("units", "m")] |})];
     ds_attrs := [] |}.

Definition world_elevation : World :=
  {| fs := <["elevation.nc" := NetCDF elevation_grid]>
             (<["municipios.shp" := Shapefile two_municipalities]> ∅);
     stdout := [];
     probed := [] |}.

(** The row the averager owes to a record of the layer: its two labels, the
    name of the mean column, and the mean over time of the variable at the
    cell whose longitude and latitude are nearest to the centroid. *)
Definition row_for (ds : Dataset) (v : DataVar) (xs ys : list Q)
    (variable_name region_column municipality_column units : string)
    (municipality : Feature) (row : Averager.Row) : Prop :=
  assoc region_column (f_attrs municipality) = Some (Averager.row_region row)
  /\ assoc municipality_column (f_attrs municipality) = Some (Averager.row_municipio row)
  /\ Averager.row_mean_column row = variable_name ++ "_promedio (" ++ units ++ ")"
  /\ exists i j,
      nearest_to (fst (g_centroid (f_geometry municipality))) xs i
      /\ nearest_to (snd (g_centroid (f_geometry municipality))) ys j
      /\ forall e, mean_of (series_at ds v (lon_dim_of ds) (lat_dim_of ds) i j e)
                           (v_data (da_var (Averager.row_mean row)) e).

(** *** Vocabulary of the region clipper *)

(** The coordinate system the clipper works in: the one the grid declares
    in its attribute ["crs"], else the default it writes. *)
Definition grid_crs (ds : Dataset) : string :=
  Clipper.rio_crs (if negb (has_key "crs" (ds_attrs ds))
                   then Clipper.rio_write_crs "EPSG:4326" ds else ds).

(** The geometry of a record as the clipper uses it: reprojected when the
    layer is in another coordinate system than the grid. *)
Definition region_geometry (to_crs : string -> string -> Geometry -> Geometry)
    (ds : Dataset) (regions : Layer) (region : Feature) : Geometry :=
  if String.eqb (grid_crs ds) (l_crs regions) then f_geometry region
  else to_crs (grid_crs ds) (l_crs regions) (f_geometry region).

(** The geometry of a record when the grid has the system the clipper
    writes by default. *)
Definition projected (to_crs : string -> string -> Geometry -> Geometry)
    (regions : Layer) (region : Feature) : Geometry :=
  if String.eqb "EPSG:4326" (l_crs regions) then f_geometry region
  else to_crs "EPSG:4326" (l_crs regions) (f_geometry region).

(** The numbers are the centres of the cells of a regular axis: two at
    least, each one step from the one before. *)
Definition evenly_spaced (qs : list Q) : Prop :=
  (2 <= length qs)%nat
  /\ exists step,
      ~ (step == 0)%Q
      /\ forall k a b, nth_error qs k = Some a -> nth_error qs (S k) = Some b ->
                       (b - a == step)%Q.

(** The centre of the cell at a position of the grid lies in the geometry. *)
Definition cell_covered (ds : Dataset) (g : Geometry) (e : index) : bool :=
  g_covers g (Xr.coord_number (ds_coords ds) (lon_dim_of ds) (e (lon_dim_of ds)))
             (Xr.coord_number (ds_coords ds) (lat_dim_of ds) (e (lat_dim_of ds))).

(** The value of a cell of the slice of a region: the value of the grid
    where the geometry covers the cell, not-a-number elsewhere. *)
Definition clipped_cell (ds : Dataset) (v : DataVar) (g : Geometry) (e : index) : cell :=
  if cell_covered ds g e then v_data v e else None.

(** The slice the clipper makes of the variable [v], named [data_var], for
    one geometry: the variable where the clipped variable holds a number. *)
Definition region_slice (ds : Dataset) (data_var : string) (v : DataVar) (g : Geometry)
  : DataArray :=
  {| da_name := data_var;
     da_sizes := filter (fun p : string * nat => mem (fst p) (v_dims v)) (ds_sizes ds);
     da_coords := filter (fun p : string * list label => mem (fst p) (v_dims v))
                         (ds_coords ds);
     da_var := {| v_dims := v_dims v;
                  v_data := fun e =>
                    if match (if cell_covered ds g e then v_data v e else None) with
                       | Some _ => true
                       | None => false
                       end
                    then v_data v e else None;
                  v_attrs := [] |} |}.

(** The variable of the example grid, and two regions over that grid: the
    first covers the cell of the first row and column, the second the cell
    of the second row and column. *)
Definition air_temperature : DataVar :=
  {| v_dims := ["time"; "lat"; "lon"];
     v_data := fun e => Some (inject_Z (Z.of_nat (e "time" + 10 * e "lat" + 100 * e "lon")));
     v_attrs := [("units", "degree_Celsius")] |}.

Definition two_regions : Layer :=
  {| l_crs := "EPSG:4326";
     l_features :=
       [{| f_geometry := square (-(177 # 2)) (27 # 2);
           f_attrs := [("Nombre", LStr "Occidente")] |};
        {| f_geometry := square (-(175 # 2)) (29 # 2);
           f_attrs := [("Nombre", LStr "Norte")] |}] |}.

(** The example grid with the attribute ["crs"], as a file that declares
    its coordinate system in its global attributes. *)
Definition grid_with_crs : Dataset :=
  {| ds_sizes := ds_sizes temperature_grid;
     ds_coords := ds_coords temperature_grid;
     ds_vars := ds_vars temperature_grid;
     ds_attrs := [("crs", "EPSG:4326")] |}.

Definition world_with_crs : World :=
  {| fs := <["temp_crs.nc" := NetCDF grid_with_crs]>
             (<["regiones.shp" := Shapefile two_regions]> ∅);
     stdout := [];
     probed := [] |}.

Definition world_regions : World :=
  {| fs := <["temp.nc" := NetCDF temperature_grid]>
             (<["regiones.shp" := Shapefile two_regions]> ∅);
     stdout := [];
     probed := [] |}.

(** *** Vocabulary of the country masker *)

(** The mask holds a one at a position. *)
Definition mask_one (m : DataVar) (e : index) : bool :=
  match v_data m e with
  | Some x => Qeq_bool x 1%Q
  | None => false
  end.

(** A position of the grid of the mask: inside the length of each of the
    dimensions of the mask, at the origin along every other dimension. *)
Definition on_grid (ds : Dataset) (dims : list string) (e : index) : Prop :=
  forall d, if mem d dims then (e d < size_of (ds_sizes ds) d)%nat else e d = 0%nat.

(** The mask lies on the grid of the data: along each of its dimensions the
    two files carry the same coordinate. *)
Definition same_grid (ds ds_mask : Dataset) (dims : list string) : Prop :=
  forall d, In d dims ->
    exists ls, assoc d (ds_coords ds) = Some ls
               /\ assoc d (ds_coords ds_mask) = Some ls
               /\ assoc d (ds_sizes ds) = Some (length ls).

(** The position of the data a position of the output comes from, given the
    positions kept along each dimension of the mask. *)
Definition source_position (dims : list string) (pos : string -> list nat) (e : index)
  : index :=
  fun d => if mem d dims then nth (e d) (pos d) 0%nat else e d.

(** A mask over the example grid with one cell set to zero: the cell of the
    first row and the first column. *)
Definition mask_variable : DataVar :=
  {| v_dims := ["lat"; "lon"];
     v_data := fun e => if ((e "lat" =? 0) && (e "lon" =? 0))%nat
                        then Some 0%Q else Some 1%Q;
     v_attrs := [] |}.

Definition mask_grid : Dataset :=
  {| ds_sizes := [("lat", 2%nat); ("lon", 2%nat)];
     ds_coords := [("lat", [LNum 14; LNum 15]); ("lon", [LNum (-88); LNum (-87)])];
     ds_vars := [("mask", mask_variable)];
     ds_attrs := [] |}.

Definition world_mask : World :=
  {| fs := <["temp.nc" := NetCDF temperature_grid]>
             (<["mask.nc" := NetCDF mask_grid]> ∅);
     stdout := [];
     probed := [] |}.

(** *** More vocabulary of the renamer *)

(** The source of a rename of the directory [directorio] is a Julian entry
    of the listing [archivos]. *)
Definition renames_julian (directorio : string) (archivos : list string)
    (p : string * string) : Prop :=
  exists a, a ∈ archivos /\ julian a = true /\ fst p = Py.path_join directorio a.

(** A year written with three digits: the text the code hands to the parser
    has six digits, and the parser takes four of them for the year.  The
    first digit of the day goes to the year, the two others are the day. *)
Definition shifted_year (archivo : string) : Z :=
  (10 * name_year archivo + name_day archivo / 100)%Z.
Definition shifted_day (archivo : string) : Z := (name_day archivo mod 100)%Z.
Definition shifted_date (archivo : string) : Calendar.ymd :=
  Calendar.ord2ymd (Calendar.ymd2ord (shifted_year archivo) 1 1 + shifted_day archivo - 1).

Definition jj_ok (n : Z) : bool :=
  match Calendar.match_j (DD n) with
  | Some (v, used) => (negb (n =? 0) && (v =? n))%Z && (used =? 2)%nat
  | None => (n =? 0)%Z
  end.

(** A directory whose entry has a year of three digits. *)
Definition dir_short_year : Renamer.directory :=
  Renamer.mk_directory ["0999001.tif"] [].

(** *** More vocabulary of the merger *)

(** What the merge does once the loop has run to its end with [datasets]
    and [times] in the world [w1]. *)
Definition merge_tail (output_folder units variable_name : string)
    (datasets : list Dataset) (times : list Z) (w1 : World) : result unit * World :=
  match Xr.xr_concat datasets "time" with
  | Raise e => (Raise e, w1)
  | Ok c =>
      match Xr.ds_set_coord c "time" (map LDay times) with
      | Raise e => (Raise e, w1)
      | Ok c' =>
          match Xr.ds_set_var_attr c' variable_name "units" units with
          | Raise e => (Raise e, w1)
          | Ok combined =>
              (Ok tt, {| fs := <[output_folder := NetCDF combined]> (fs w1);
                         stdout := stdout w1 ++ [repr combined];
                         probed := probed w1 |})
          end
      end
  end.

(** Two rasters have the same shape and the same transform. *)
Definition same_shape (a b : Raster) : Prop :=
  r_height a = r_height b /\ r_width a = r_width b /\ r_transform a = r_transform b.

(** The name has no dot: it is not read as a part of the date of another
    variable. *)
Definition plain_name (s : string) : bool :=
  negb (existsb (Ascii.eqb ".") (list_ascii_of_string s)).

(** A raster of one row and two columns, and a world with the rasters of
    two days out of three. *)
Definition flat_raster (q : Q) : Raster :=
  {| r_height := 1; r_width := 2;
     r_transform := [(1 # 10); 0; -87; 0; -(1 # 10); 14]%Q;
     r_band1 := fun _ _ => Some q |}.

Definition world_rasters : World :=
  {| fs := <["in/rain_2024-04-08.tif" := GeoTIFF (flat_raster 1)]>
             (<["in/rain_2024-04-10.tif" := GeoTIFF (flat_raster 3)]> ∅);
     stdout := [];
     probed := [] |}.

(** *** More vocabulary of the plotter *)

(** The cells of a variable over the two spatial dimensions at one time step. *)
Definition slab (ds : Dataset) (v : DataVar) (lon_dim lat_dim time_dim : string) (t : nat)
  : list cell :=
  map (v_data v)
      (Xr.all_indices_in (upd origin time_dim t)
         [(lon_dim, seq 0 (size_of (ds_sizes ds) lon_dim));
          (lat_dim, seq 0 (size_of (ds_sizes ds) lat_dim))]).

(** The mean of numbers, and the mean of the squares of their distances to
    it. *)
Definition mean_q (xs : list Q) : Q :=
  (fold_right Qplus 0 xs / inject_Z (Z.of_nat (length xs)))%Q.

Definition variance_q (xs : list Q) : Q :=
  (fold_right Qplus 0 (map (fun x => (x - mean_q xs) * (x - mean_q xs)) xs)
   / inject_Z (Z.of_nat (length xs)))%Q.

(** A square root on the rationals, good to the hundredth: the root of the
    integer part of ten thousand times the number. *)
Definition sqrt_cents (q : Q) : Q :=
  Z.sqrt (Qnum q * 10000 / Zpos (Qden q)) # 100.

(** The path the figure goes to. *)
Definition figure_path (save_path variable_name : string) : string :=
  save_path ++ variable_name.

(** Case analysis on the scrutinee of the innermost [match] of a term. *)
Ltac case_innermost x :=
  lazymatch x with
  | context [match ?y with _ => _ end] => case_innermost y
  | _ => destruct x
  end.

(** *** More vocabulary of the averager *)

(** The first of the two label columns that a record lacks. *)
Definition lacking_column (region_column municipality_column : string) (f : Feature)
  : option string :=
  if negb (has_key region_column (f_attrs f)) then Some region_column
  else if negb (has_key municipality_column (f_attrs f)) then Some municipality_column
  else None.

(** A layer whose second record has no municipality label. *)
Definition municipalities_unnamed : Layer :=
  {| l_crs := "EPSG:4326";
     l_features :=
       [{| f_geometry := square (-(177 # 2)) (27 # 2);
           f_attrs := [("NAME_1", LStr "Copan"); ("NAME_2", LStr "Santa Rosa")] |};
        {| f_geometry := square (-(175 # 2)) (29 # 2);
           f_attrs := [("NAME_1", LStr "Yoro")] |}] |}.

Definition world_unnamed : World :=
  {| fs := <["temp.nc" := NetCDF temperature_grid]>
             (<["municipios.shp" := Shapefile municipalities_unnamed]> ∅);
     stdout := [];
     probed := [] |}.

(** *** More vocabulary of the region clipper *)

(** The world after the clipper has printed the dataset it opened. *)
Definition printed (ds : Dataset) (w : World) : World :=
  {| fs := fs w; stdout := stdout w ++ [repr ds]; probed := probed w |}.

(** A grid without data variables, a layer without records, a layer whose
    records have a code and no name. *)
Definition bare_grid : Dataset :=
  {| ds_sizes := [("lat", 2%nat); ("lon", 2%nat)];
     ds_coords := [("lat", [LNum 14; LNum 15]); ("lon", [LNum (-88); LNum (-87)])];
     ds_vars := [];
     ds_attrs := [] |}.

Definition no_regions : Layer := {| l_crs := "EPSG:4326"; l_features := [] |}.

Definition regions_unnamed : Layer :=
  {| l_crs := "EPSG:4326";
     l_features :=
       [{| f_geometry := square (-(177 # 2)) (27 # 2);
           f_attrs := [("Codigo", LStr "HN01")] |};
        {| f_geometry := square (-(175 # 2)) (29 # 2);
           f_attrs := [("Codigo", LStr "HN02")] |}] |}.

Definition world_bare : World :=
  {| fs := <["bare.nc" := NetCDF bare_grid]>
             (<["temp.nc" := NetCDF temperature_grid]>
                (<["regiones.shp" := Shapefile two_regions]>
                   (<["vacio.shp" := Shapefile no_regions]>
                      (<["sin_nombre.shp" := Shapefile regions_unnamed]> ∅))));
     stdout := [];
     probed := [] |}.

(** The end of a case of a frame property, from the equation of the run:
    nothing asked for, the lines printed, no file changed on a failure,
    the output written on success. *)
Ltac frame_done Hr :=
  injection Hr as -> ->; cbn;
  split; [reflexivity|];
  split; [first [now left | right; eexists; split; [first [eassumption | reflexivity]|reflexivity]]|];
  split; [intros H; first [reflexivity | discriminate H]|];
  intros H; first [discriminate H | split; [reflexivity|eauto]].

(** *** More vocabulary of the country masker *)

(** A position inside the length of each of the listed dimensions. *)
Definition in_range (ds : Dataset) (dims : list string) (e : index) : Prop :=
  forall d, In d dims -> (e d < size_of (ds_sizes ds) d)%nat.

(** Masks over the example grid, one value everywhere: a mask of ones, a
    mask of zeros. *)
Definition mask_of (q : Q) : DataVar :=
  {| v_dims := ["lat"; "lon"]; v_data := fun _ => Some q; v_attrs := [] |}.

Definition mask_grid_of (q : Q) : Dataset :=
  {| ds_sizes := [("lat", 2%nat); ("lon", 2%nat)];
     ds_coords := [("lat", [LNum 14; LNum 15]); ("lon", [LNum (-88); LNum (-87)])];
     ds_vars := [("mask", mask_of q)];
     ds_attrs := [] |}.

Definition world_masks : World :=
  {| fs := <["temp.nc" := NetCDF temperature_grid]>
             (<["ones.nc" := NetCDF (mask_grid_of 1)]>
                (<["zeros.nc" := NetCDF (mask_grid_of 0)]>
                   (<["bare.nc" := NetCDF bare_grid]> ∅)));
     stdout := [];
     probed := [] |}.

(** ** The script: the block under [__main__] *)

(** The two dates the script computes; no call that is not commented out
    uses them. *)
Definition ini_date : Z := Calendar.ymd2ord 2024 4 8.
Definition fin_date : Z := Calendar.ymd2ord 2024 4 18.

Definition ET0_grid : string := "./workspace/outputs/20240710/MSWX/ET0_Honduras.nc".
Definition ET0_regions : string :=
  "./workspace/outputs/20240710/MSWX/ET0_Honduras_regions.nc".
Definition regions_layer : string :=
  "./workspace/config/mask_honduras/regions_shapefile/Regiones_productoras_HN.shp".

(** The one call of the script: the evapotranspiration grid is clipped by
    the producing regions, named by the column ["Nombre"]; the path
    returned is dropped. *)
Definition main (to_crs : string -> string -> Geometry -> Geometry) : M World unit :=
  (Clipper.regions_crop to_crs ET0_grid regions_layer ET0_regions "Nombre";;
   ret tt).

(** * Properties *)

Section CalendarFacts.
Import Calendar.
Open Scope Z_scope.

Lemma ord2ymd_shift n k :
  ord2ymd (n + 146097 * k) =
  mk_ymd (year (ord2ymd n) + 400 * k) (month (ord2ymd n)) (day (ord2ymd n)).
Proof.
  unfold ord2ymd, DI400Y.
  replace (n + 146097 * k - 1) with (n - 1 + k * 146097) by lia.
  rewrite Z_div_plus_full, Z_mod_plus_full by lia.
  set (r := (n - 1) mod 146097).
  set (q := (n - 1) / 146097).
  cbv zeta.
  destruct ((r mod DI100Y mod DI4Y / 365 =? 4) || (r / DI100Y =? 4)); simpl.
  - f_equal; lia.
  - repeat match goal with |- context [if ?c then _ else _] => destruct c end; simpl; f_equal; lia.
Qed.

Lemma is_leap_shift y k : is_leap (y + 400 * k) = is_leap y.
Proof.
  unfold is_leap.
  replace ((y + 400 * k) mod 4) with (y mod 4)
    by (replace (y + 400 * k) with (y + (100 * k) * 4) by lia; now rewrite Z_mod_plus_full).
  replace ((y + 400 * k) mod 100) with (y mod 100)
    by (replace (y + 400 * k) with (y + (4 * k) * 100) by lia; now rewrite Z_mod_plus_full).
  replace ((y + 400 * k) mod 400) with (y mod 400)
    by (replace (y + 400 * k) with (y + k * 400) by lia; now rewrite Z_mod_plus_full).
  reflexivity.
Qed.

Lemma days_before_year_shift y k :
  days_before_year (y + 400 * k) = days_before_year y + 146097 * k.
Proof.
  unfold days_before_year. cbv zeta.
  replace ((y + 400 * k - 1) / 4) with ((y - 1) / 4 + 100 * k)
    by (replace (y + 400 * k - 1) with (y - 1 + (100 * k) * 4) by lia; now rewrite Z_div_plus_full by lia).
  replace ((y + 400 * k - 1) / 100) with ((y - 1) / 100 + 4 * k)
    by (replace (y + 400 * k - 1) with (y - 1 + (4 * k) * 100) by lia; now rewrite Z_div_plus_full by lia).
  replace ((y + 400 * k - 1) / 400) with ((y - 1) / 400 + k)
    by (replace (y + 400 * k - 1) with (y - 1 + k * 400) by lia; now rewrite Z_div_plus_full by lia).
  lia.
Qed.

Lemma check_range_nat p lo k :
  fst (Nat.iter k (fun s : bool * Z => (fst s && p (snd s), snd s + 1)) (true, lo)) = true ->
  snd (Nat.iter k (fun s : bool * Z => (fst s && p (snd s), snd s + 1)) (true, lo))
  = lo + Z.of_nat k
  /\ forall n, lo <= n < lo + Z.of_nat k -> p n = true.
Proof.
  induction k as [|k IH]; simpl.
  - intros _. split; [lia | intros n Hn; lia].
  - intros H. apply andb_prop in H as [H1 H2].
    destruct (IH H1) as [Hs Hall]. split; [rewrite Hs; lia|].
    intros n Hn. destruct (Z.eq_dec n (lo + Z.of_nat k)) as [->|Hne].
    + rewrite <- Hs. exact H2.
    + apply Hall. lia.
Qed.

Lemma check_range_spec p lo count :
  check_range p lo count = true ->
  forall n, lo <= n < lo + Z.pos count -> p n = true.
Proof.
  unfold check_range. rewrite Pos2Nat.inj_iter. intros H n Hn.
  apply (check_range_nat p lo (Pos.to_nat count)) in H as [_ H].
  apply H. rewrite positive_nat_Z. exact Hn.
Qed.

Lemma first_cycle_ok :
  check_range (fun n => ymd_ok (ord2ymd n) n) 1 146097 = true.
Proof. vm_cast_no_check (eq_refl true). Qed.

Lemma first_cycle_all n : 1 <= n <= 146097 -> ymd_ok (ord2ymd n) n = true.
Proof.
  intros Hn.
  apply (check_range_spec (fun n => ymd_ok (ord2ymd n) n) 1 146097 first_cycle_ok). lia.
Qed.

Lemma days_in_month_shift y k m : days_in_month (y + 400 * k) m = days_in_month y m.
Proof. unfold days_in_month. now rewrite is_leap_shift. Qed.

Lemma ymd2ord_shift y k m d : ymd2ord (y + 400 * k) m d = ymd2ord y m d + 146097 * k.
Proof.
  unfold ymd2ord, days_before_month.
  rewrite days_before_year_shift, is_leap_shift. lia.
Qed.

Lemma ymd_ok_shift t n k :
  ymd_ok t n = true ->
  ymd_ok (mk_ymd (year t + 400 * k) (month t) (day t)) (n + 146097 * k) = true.
Proof.
  unfold ymd_ok, toordinal. cbn [year month day].
  rewrite ymd2ord_shift, days_in_month_shift.
  rewrite !andb_true_iff, !Z.eqb_eq. intros ((((H1 & H2) & H3) & H4) & H5).
  repeat split; try assumption. lia.
Qed.

Lemma ord2ymd_ok n : ymd_ok (ord2ymd n) n = true.
Proof.
  assert (Hn : n = ((n - 1) mod 146097 + 1) + 146097 * ((n - 1) / 146097)).
  { pose proof (Z_div_mod_eq_full (n - 1) 146097). lia. }
  assert (H0 : ymd_ok (ord2ymd ((n - 1) mod 146097 + 1)) ((n - 1) mod 146097 + 1) = true).
  { apply first_cycle_all.
    pose proof (Z.mod_pos_bound (n - 1) 146097). lia. }
  revert Hn H0.
  generalize ((n - 1) mod 146097 + 1). generalize ((n - 1) / 146097).
  intros k n0 -> H0. rewrite ord2ymd_shift.
  revert H0. generalize (ord2ymd n0). intros t H0. apply ymd_ok_shift. exact H0.
Qed.

(** The fields of [fromordinal] are those of a date of the calendar, and
    its ordinal is the one it came from. *)
Lemma ord2ymd_valid n :
  toordinal (ord2ymd n) = n
  /\ 1 <= month (ord2ymd n) <= 12
  /\ 1 <= day (ord2ymd n) <= days_in_month (year (ord2ymd n)) (month (ord2ymd n)).
Proof.
  pose proof (ord2ymd_ok n) as H. revert H. generalize (ord2ymd n). intros t.
  unfold ymd_ok. rewrite !andb_true_iff, !Z.eqb_eq, !Z.leb_le. tauto.
Qed.

Lemma days_before_next_year y :
  days_before_year (y + 1) = days_before_year y + days_in_year y.
Proof.
  unfold days_before_year, days_in_year, is_leap. cbv zeta.
  replace (y + 1 - 1) with y by lia.
  destruct (Z.eqb_spec (y mod 4) 0), (Z.eqb_spec (y mod 100) 0), (Z.eqb_spec (y mod 400) 0);
    cbn [andb orb negb]; Z.div_mod_to_equations; lia.
Qed.

Lemma days_in_year_pos y : 365 <= days_in_year y <= 366.
Proof. unfold days_in_year. destruct (is_leap y); lia. Qed.

Lemma days_before_year_mono a b : a <= b -> days_before_year a <= days_before_year b.
Proof.
  intros H. replace b with (a + Z.of_nat (Z.to_nat (b - a))) by lia.
  induction (Z.to_nat (b - a)) as [|k IH]; [rewrite Z.add_0_r; lia|].
  replace (a + Z.of_nat (S k)) with (a + Z.of_nat k + 1) by lia.
  rewrite days_before_next_year. pose proof (days_in_year_pos (a + Z.of_nat k)). lia.
Qed.

Lemma month_cases m : 1 <= m <= 12 ->
  m = 1 \/ m = 2 \/ m = 3 \/ m = 4 \/ m = 5 \/ m = 6 \/ m = 7 \/ m = 8 \/ m = 9
  \/ m = 10 \/ m = 11 \/ m = 12.
Proof. lia. Qed.

Lemma months_ok leap m : 1 <= m <= 12 -> month_ok leap m = true.
Proof.
  intros Hm.
  destruct (month_cases m Hm) as [->|[->|[->|[->|[->|[->|[->|[->|[->|[->|[->| ->]]]]]]]]]]];
    destruct leap; reflexivity.
Qed.

Lemma yday_bounds y m d :
  1 <= m <= 12 -> 1 <= d <= days_in_month y m ->
  1 <= days_before_month y m + d <= days_in_year y.
Proof.
  intros Hm. pose proof (months_ok (is_leap y) m Hm) as H. revert H.
  unfold month_ok, days_in_month, days_before_month, days_in_year.
  generalize (table DAYS_BEFORE_MONTH m) (table DAYS_IN_MONTH m). intros a b.
  cbv zeta. rewrite andb_true_iff, !Z.leb_le.
  destruct ((2 <? m) && is_leap y), ((m =? 2) && is_leap y), (is_leap y); lia.
Qed.

Lemma ymd2ord_jan1 y : ymd2ord y 1 1 = days_before_year y + 1.
Proof.
  unfold ymd2ord, days_before_month.
  change (table DAYS_BEFORE_MONTH 1) with 0.
  change ((2 <? 1) && is_leap y) with false. cbv iota. lia.
Qed.

Lemma ymd_year_unique t n y :
  toordinal t = n -> 1 <= month t <= 12 ->
  1 <= day t <= days_in_month (year t) (month t) ->
  days_before_year y < n <= days_before_year (y + 1) -> year t = y.
Proof.
  intros Hord Hm Hd Hn.
  pose proof (yday_bounds _ _ _ Hm Hd) as Hy.
  unfold toordinal, ymd2ord in Hord.
  destruct (Z.lt_trichotomy (year t) y) as [Hlt|[Heq|Hgt]]; [|exact Heq|].
  - pose proof (days_before_year_mono (year t + 1) y ltac:(lia)) as H.
    rewrite days_before_next_year in H. lia.
  - pose proof (days_before_year_mono (y + 1) (year t) ltac:(lia)). lia.
Qed.

(** The year of an ordinal is the one whose days contain it. *)
Lemma ord2ymd_year n y :
  days_before_year y < n <= days_before_year (y + 1) -> year (ord2ymd n) = y.
Proof.
  intros Hn. destruct (ord2ymd_valid n) as (Hord & Hm & Hd).
  revert Hord Hm Hd. generalize (ord2ymd n). intros t Hord Hm Hd.
  exact (ymd_year_unique t n y Hord Hm Hd Hn).
Qed.

(** Day [j] of year [y], counted from the first of January. *)
Lemma ord2ymd_yday y j :
  1 <= j <= days_in_year y ->
  let t := ord2ymd (ymd2ord y 1 1 + j - 1) in
  year t = y /\ yday t = j /\ 1 <= month t <= 12
  /\ 1 <= day t <= days_in_month y (month t).
Proof.
  intros Hj.
  assert (He : ymd2ord y 1 1 + j - 1 = days_before_year y + j).
  { rewrite ymd2ord_jan1. lia. }
  rewrite He.
  assert (Hy : year (ord2ymd (days_before_year y + j)) = y).
  { apply ord2ymd_year. rewrite days_before_next_year. lia. }
  destruct (ord2ymd_valid (days_before_year y + j)) as (Hord & Hm & Hd).
  revert Hy Hord Hm Hd. generalize (ord2ymd (days_before_year y + j)).
  intros t Hy Hord Hm Hd. cbv zeta.
  unfold toordinal, ymd2ord in Hord. unfold yday. rewrite Hy in *.
  repeat split; try lia.
Qed.
End CalendarFacts.

Section StringFacts.
Open Scope Z_scope.

Lemma str_YYYY y : 1000 <= y <= 9999 -> Py.str y = YYYY y.
Proof.
  intros Hy.
  assert (H : check_range (fun y => String.eqb (Py.str y) (YYYY y)) 1000 9000 = true)
    by (vm_cast_no_check (eq_refl true)).
  apply String.eqb_eq.
  apply (check_range_spec (fun y => String.eqb (Py.str y) (YYYY y)) 1000 9000 H). lia.
Qed.

Lemma two_digits_DD n : 0 <= n <= 99 -> Calendar.two_digits n = DD n.
Proof.
  intros Hn.
  assert (H : check_range (fun n => String.eqb (Calendar.two_digits n) (DD n)) 0 100 = true)
    by (vm_cast_no_check (eq_refl true)).
  apply String.eqb_eq.
  apply (check_range_spec (fun n => String.eqb (Calendar.two_digits n) (DD n)) 0 100 H). lia.
Qed.

Lemma format_03_DDD n : 0 <= n <= 999 -> Py.format_03 n = DDD n.
Proof.
  intros Hn.
  assert (H : check_range (fun n => String.eqb (Py.format_03 n) (DDD n)) 0 1000 = true)
    by (vm_cast_no_check (eq_refl true)).
  apply String.eqb_eq.
  apply (check_range_spec (fun n => String.eqb (Py.format_03 n) (DDD n)) 0 1000 H). lia.
Qed.

Lemma match_j_DDD n : 0 <= n <= 999 -> j_ok n = true.
Proof.
  intros Hn.
  assert (H : check_range j_ok 0 1000 = true) by (vm_cast_no_check (eq_refl true)).
  apply (check_range_spec j_ok 0 1000 H). lia.
Qed.

Lemma digit_value_bounds c : Py.char_is_digit c = true -> 0 <= Py.digit_value c <= 9.
Proof.
  unfold Py.char_is_digit, Py.digit_value. cbv zeta.
  rewrite andb_true_iff, !Nat.leb_le. lia.
Qed.

Lemma digit_is_digit k : 0 <= k <= 9 -> Py.char_is_digit (digit k) = true.
Proof.
  intros Hk.
  assert (k = 0 \/ k = 1 \/ k = 2 \/ k = 3 \/ k = 4 \/ k = 5 \/ k = 6 \/ k = 7 \/ k = 8 \/ k = 9)
    as [->|[->|[->|[->|[->|[->|[->|[->|[->| ->]]]]]]]]] by lia; reflexivity.
Qed.

Lemma digit_value_digit k : 0 <= k <= 9 -> Py.digit_value (digit k) = k.
Proof.
  intros Hk.
  assert (k = 0 \/ k = 1 \/ k = 2 \/ k = 3 \/ k = 4 \/ k = 5 \/ k = 6 \/ k = 7 \/ k = 8 \/ k = 9)
    as [->|[->|[->|[->|[->|[->|[->|[->|[->| ->]]]]]]]]] by lia; reflexivity.
Qed.

Lemma mod10_bounds n : 0 <= n mod 10 <= 9.
Proof. pose proof (Z.mod_pos_bound n 10). lia. Qed.

Lemma int_YYYY y : 0 <= y <= 9999 -> Py.int (YYYY y) = y.
Proof.
  intros Hy. unfold YYYY, DDD, DD, Py.int. cbn [Py.int_from].
  rewrite !digit_value_digit by apply mod10_bounds.
  Z.div_mod_to_equations. lia.
Qed.

Lemma all_digits_YYYY y : Py.all_digits (YYYY y) = true.
Proof.
  unfold YYYY, DDD, DD. cbn [Py.all_digits].
  rewrite !digit_is_digit by apply mod10_bounds. reflexivity.
Qed.
End StringFacts.

Section RenamerFacts.
Import Calendar Renamer.
Open Scope Z_scope.

Lemma strptime_unfold a b c d rest :
  strptime_Yj (String a (String b (String c (String d rest)))) =
  if Py.all_digits (String a (String b (String c (String d "")))) then
    match match_j rest with
    | Some (julian, used) =>
        if (used =? String.length rest)%nat then
          let year := Py.int (String a (String b (String c (String d "")))) in
          if year <? 1 then Raise (ValueError "year 0 is out of range")
          else
            let n := (julian - 1) + ymd2ord year 1 1 in
            if MAXORDINAL <? n
            then Raise (ValueError "year 10000 is out of range")
            else Ok (ord2ymd n)
        else Raise (ValueError "unconverted data remains")
    | None => Raise (ValueError "time data does not match format")
    end
  else Raise (ValueError "time data does not match format").
Proof. reflexivity. Qed.

(** What the parser makes of a four-digit year followed by three digits. *)
Lemma strptime_julian y j :
  1000 <= y <= 9999 -> 0 <= j <= 999 ->
  strptime_Yj (Py.str y ++ Py.format_03 j) =
  if (1 <=? j) && (j <=? 366) then
    if MAXORDINAL <? (j - 1) + ymd2ord y 1 1
    then Raise (ValueError "year 10000 is out of range")
    else Ok (ord2ymd ((j - 1) + ymd2ord y 1 1))
  else if j =? 0 then Raise (ValueError "time data does not match format")
  else Raise (ValueError "unconverted data remains").
Proof.
  intros Hy Hj. rewrite str_YYYY, format_03_DDD by lia.
  change (YYYY y ++ DDD j) with
    (String (digit (y / 1000 mod 10)) (String (digit (y / 100 mod 10))
       (String (digit (y / 10 mod 10)) (String (digit (y mod 10)) (DDD j))))).
  rewrite strptime_unfold.
  change (String (digit (y / 1000 mod 10)) (String (digit (y / 100 mod 10))
       (String (digit (y / 10 mod 10)) (String (digit (y mod 10)) "")))) with (YYYY y).
  rewrite all_digits_YYYY, int_YYYY by lia.
  pose proof (match_j_DDD j Hj) as Hok. unfold j_ok in Hok.
  change (String.length (DDD j)) with 3%nat.
  destruct (match_j (DDD j)) as [[v used]|].
  - destruct ((1 <=? j) && (j <=? 366)).
    + apply andb_prop in Hok as [Hv Hu]. apply Z.eqb_eq in Hv. subst v. rewrite Hu.
      cbv zeta. destruct (Z.ltb_spec y 1); [lia|]. reflexivity.
    + apply andb_prop in Hok as [Hv Hu].
      apply negb_true_iff in Hu, Hv. rewrite Hu, Hv. reflexivity.
  - rewrite Hok. apply Z.eqb_eq in Hok. subst j. reflexivity.
Qed.

Lemma julian_shape archivo :
  julian archivo = true ->
  exists c1 c2 c3 c4 c5 c6 c7,
    base_name archivo
    = String c1 (String c2 (String c3 (String c4 (String c5 (String c6 (String c7 ""))))))
    /\ Forall (fun c => Py.char_is_digit c = true) [c1; c2; c3; c4; c5; c6; c7].
Proof.
  unfold julian, is_julian_name, Py.isdigit.
  destruct (base_name archivo) as [|c1 [|c2 [|c3 [|c4 [|c5 [|c6 [|c7 [|c8 r]]]]]]]];
    try discriminate.
  cbn [Py.all_digits String.length Nat.eqb]. 
  rewrite !andb_true_iff. intros (_ & _ & H).
  exists c1, c2, c3, c4, c5, c6, c7. split; [reflexivity|].
  destruct H as (? & ? & ? & ? & ? & ? & ? & _).
  repeat (constructor; [assumption|]). constructor.
Qed.

Lemma julian_ranges archivo :
  julian archivo = true -> 0 <= name_year archivo <= 9999 /\ 0 <= name_day archivo <= 999.
Proof.
  intros H. destruct (julian_shape _ H) as (c1 & c2 & c3 & c4 & c5 & c6 & c7 & Hb & Hd).
  unfold name_year, name_day. rewrite Hb.
  cbn [String.length Nat.sub substring Py.int Py.int_from].
  unfold Py.int. cbn [Py.int_from].
  repeat match goal with
         | H : Forall _ (_ :: _) |- _ => inversion H; subst; clear H
         end.
  repeat match goal with
         | H : Py.char_is_digit _ = true |- _ => apply digit_value_bounds in H
         end.
  lia.
Qed.

Lemma days_in_month_le y m : 1 <= m <= 12 -> 28 <= days_in_month y m <= 31.
Proof.
  intros Hm. unfold days_in_month.
  destruct (month_cases m Hm) as [-> |[-> |[-> |[-> |[-> |[-> |[-> |[-> |[-> |[-> |[-> | ->]]]]]]]]]]];
    destruct (is_leap y); cbv; split; discriminate.
Qed.

Lemma isoformat_shape t :
  1000 <= year t <= 9999 -> 1 <= month t <= 12 -> 1 <= day t <= 31 ->
  isoformat t = YYYY (year t) ++ "-" ++ DD (month t) ++ "-" ++ DD (day t).
Proof.
  intros Hy Hm Hd. unfold isoformat.
  rewrite str_YYYY, !two_digits_DD by lia. reflexivity.
Qed.

Lemma well_dated_spec a :
  well_dated a = true <->
  1000 <= name_year a /\ 1 <= name_day a <= days_in_year (name_year a).
Proof. unfold well_dated. rewrite !andb_true_iff, !Z.leb_le. tauto. Qed.

Lemma MAXORDINAL_year : days_before_year 10000 = MAXORDINAL.
Proof. reflexivity. Qed.

(** The date of a well-dated name: its year and its day of the year are the
    ones written in the name. *)
Lemma name_date_spec a :
  julian a = true -> well_dated a = true ->
  year (name_date a) = name_year a /\ yday (name_date a) = name_day a
  /\ 1 <= month (name_date a) <= 12
  /\ 1 <= day (name_date a) <= days_in_month (name_year a) (month (name_date a)).
Proof.
  intros _ Hw. apply well_dated_spec in Hw as [Hy Hj].
  exact (ord2ymd_yday (name_year a) (name_day a) Hj).
Qed.

Lemma splitext_pair a : Py.splitext a = (base_name a, extension a).
Proof. unfold base_name, extension. now destruct (Py.splitext a). Qed.

Lemma translate_entry_other directorio a d :
  julian a = false -> translate_entry directorio a d = (Ok a, d).
Proof.
  unfold julian, translate_entry. rewrite splitext_pair. intros ->. reflexivity.
Qed.

Lemma translate_entry_parse directorio a d :
  julian a = true ->
  translate_entry directorio a d =
  match strptime_Yj (Py.str (name_year a) ++ Py.format_03 (name_day a)) with
  | Ok t => match os_rename directorio a (isoformat t ++ extension a) d with
            | (Ok _, d') => (Ok (isoformat t ++ extension a), d')
            | (Raise e, d') => (Raise e, d')
            end
  | Raise e => (Raise e, d)
  end.
Proof.
  unfold julian, translate_entry. rewrite splitext_pair. intros ->.
  unfold bind, lift, ret, name_year, name_day.
  destruct (strptime_Yj _); [|reflexivity].
  destruct (os_rename _ _ _ d) as [[[]|e] d']; reflexivity.
Qed.

Lemma well_dated_parse a :
  julian a = true -> well_dated a = true ->
  strptime_Yj (Py.str (name_year a) ++ Py.format_03 (name_day a)) = Ok (name_date a).
Proof.
  intros Hj Hw. destruct (julian_ranges a Hj) as [Hy Hd].
  apply well_dated_spec in Hw as [Hy' Hj'].
  pose proof (days_in_year_pos (name_year a)).
  rewrite strptime_julian by lia.
  destruct (Z.leb_spec 1 (name_day a)); [|lia].
  destruct (Z.leb_spec (name_day a) 366); [|lia]. cbn [andb].
  rewrite ymd2ord_jan1.
  pose proof (days_before_year_mono (name_year a + 1) 10000 ltac:(lia)) as Hm.
  rewrite days_before_next_year, MAXORDINAL_year in Hm.
  destruct (Z.ltb_spec MAXORDINAL (name_day a - 1 + (days_before_year (name_year a) + 1)));
    [lia|].
  unfold name_date. rewrite ymd2ord_jan1. do 2 f_equal. lia.
Qed.

(** The rename of an entry that is in the directory. *)
Lemma os_rename_present directorio src dst d :
  src ∈ entries d ->
  os_rename directorio src dst d =
  (Ok tt, {| entries := filter (fun n => n ≠ src ∧ n ≠ dst) (entries d) ++ [dst];
             renamed := renamed d
                        ++ [(Py.path_join directorio src, Py.path_join directorio dst)] |}).
Proof. intros H. unfold os_rename. rewrite bool_decide_eq_true_2 by exact H. reflexivity. Qed.

Lemma translate_entry_julian directorio a d :
  julian a = true -> well_dated a = true -> a ∈ entries d ->
  translate_entry directorio a d =
  (Ok (new_name a),
   {| entries := filter (fun n => n ≠ a ∧ n ≠ new_name a) (entries d) ++ [new_name a];
      renamed := renamed d
                 ++ [(Py.path_join directorio a, Py.path_join directorio (new_name a))] |}).
Proof.
  intros Hj Hw Hin. rewrite translate_entry_parse, well_dated_parse by assumption.
  rewrite os_rename_present by assumption. unfold new_name. rewrite Hj. reflexivity.
Qed.

(** A name that starts with four characters and a dash is not a Julian name. *)
Lemma dashed_not_julian c1 c2 c3 c4 rest :
  julian (String c1 (String c2 (String c3 (String c4 (String "-" rest))))) = false.
Proof.
  apply not_true_is_false. intros H.
  destruct (julian_shape _ H) as (b1 & b2 & b3 & b4 & b5 & b6 & b7 & Hb & Hd).
  set (s := String c1 (String c2 (String c3 (String c4 (String "-" rest))))) in *.
  assert (Hs : base_name s = s \/ exists k, base_name s = substring 0 k s).
  { unfold base_name, Py.splitext. destruct (Py.rfind "." s); [|now left].
    match goal with |- context [if ?c then _ else _] => destruct c end; cbn [fst];
      [right; eauto | now left]. }
  assert (H5 : Py.char_is_digit b5 = true).
  { repeat match goal with
           | H : Forall _ (_ :: _) |- _ => inversion H; subst; clear H
           end; assumption. }
  destruct Hs as [Hs|[k Hs]]; rewrite Hs in Hb.
  - unfold s in Hb. injection Hb as -> -> -> -> <- _. discriminate.
  - unfold s in Hb. destruct k as [|[|[|[|[|k]]]]]; cbn [substring] in Hb; try discriminate.
    injection Hb as -> -> -> -> <- _. discriminate.
Qed.

Lemma new_name_not_julian a :
  julian a = true -> well_dated a = true -> julian (new_name a) = false.
Proof.
  intros Hj Hw. unfold new_name. rewrite Hj.
  destruct (name_date_spec a Hj Hw) as (Hy & _ & Hm & Hd).
  destruct (julian_ranges a Hj) as [Hyr _].
  pose proof (proj1 (well_dated_spec a) Hw) as [Hy' _].
  pose proof (days_in_month_le (name_year a) _ Hm).
  rewrite isoformat_shape by (rewrite ?Hy; lia).
  apply dashed_not_julian.
Qed.

Lemma filter_julian_cons a l :
  List.filter julian (a :: l) = if julian a then a :: List.filter julian l
                                else List.filter julian l.
Proof. reflexivity. Qed.

(** The loop on entries that parse: every name is translated, every Julian
    entry renamed, in the order of the listing. *)
Lemma translate_loop_ok directorio l :
  forall (acc : list string) (d : directory),
    NoDup l ->
    (forall a, a ∈ l -> julian a = true -> well_dated a = true /\ a ∈ entries d) ->
    exists d',
      translate_loop directorio l acc d = (Ok (acc ++ map new_name l)%list, d')
      /\ renamed d' = (renamed d ++ renames_of directorio l)%list
      /\ (forall x, x ∈ entries d' <->
                    (x ∈ entries d /\ ~ (julian x = true /\ x ∈ l))
                    \/ x ∈ map new_name (List.filter julian l)).
Proof.
  induction l as [|a rest IH]; intros acc d Hnd Hall.
  - exists d. cbn. rewrite !app_nil_r. repeat split; try reflexivity.
    + intros Hx. left. split; [assumption|]. intros [_ Hin]. inversion Hin.
    + intros [[Hx _]|Hx]; [assumption|inversion Hx].
  - apply NoDup_cons in Hnd as [Hna Hnd].
    cbn [translate_loop]. unfold bind at 1.
    destruct (julian a) eqn:Hj.
    + destruct (Hall a ltac:(left) Hj) as [Hw Hin].
      rewrite translate_entry_julian by assumption.
      set (d1 := {| entries := _; renamed := _ |}).
      assert (Hin1 : forall x, x ∈ entries d1 <-> (x ∈ entries d /\ x ≠ a) \/ x = new_name a).
      { intros x. unfold d1. cbn [entries]. rewrite elem_of_app, list_elem_of_filter.
        rewrite list_elem_of_singleton.
        destruct (decide (x = new_name a)); [|tauto]. tauto. }
      destruct (IH (acc ++ [new_name a])%list d1 Hnd) as (d' & Hrun & Hren & Hent).
      { intros a' Ha' Hj'. destruct (Hall a' ltac:(now right) Hj') as [Hw' Hin'].
        split; [assumption|]. apply Hin1. left. split; [assumption|].
        intros ->. contradiction. }
      exists d'. split; [|split].
      * rewrite Hrun. rewrite <- app_assoc. reflexivity.
      * rewrite Hren. unfold d1, renames_of. cbn [renamed].
        rewrite filter_julian_cons, Hj. cbn [map]. rewrite <- app_assoc. reflexivity.
      * intros x. rewrite Hent, Hin1, filter_julian_cons, Hj. cbn [map].
        rewrite !elem_of_cons.
        pose proof (new_name_not_julian a Hj Hw) as Hnj.
        split.
        -- intros [[[[Hx Hne]| ->] Hnot]|Hx].
           ++ left. split; [assumption|]. intros [Hjx [Heq|Hxin]]; [congruence|tauto].
           ++ right. now left.
           ++ right. now right.
        -- intros [[Hx Hnot]|[-> |Hx]].
           ++ left. split.
              ** left. split; [assumption|]. intros ->. apply Hnot. split; [assumption|now left].
              ** intros [Hjx Hxin]. apply Hnot. split; [assumption|now right].
           ++ left. split; [now right|]. intros [Hjx _]. congruence.
           ++ now right.
    + rewrite translate_entry_other by assumption.
      destruct (IH (acc ++ [a])%list d Hnd) as (d' & Hrun & Hren & Hent).
      { intros a' Ha' Hj'. apply Hall; [now right|assumption]. }
      exists d'. split; [|split].
      * rewrite Hrun. rewrite <- app_assoc. cbn [map]. unfold new_name at 2. rewrite Hj.
        reflexivity.
      * rewrite Hren. unfold renames_of. rewrite filter_julian_cons, Hj. reflexivity.
      * intros x. rewrite Hent, filter_julian_cons, Hj.
        split; (intros [[Hx Hnot]|Hx]; [left; split; [assumption|]|now right]).
        -- intros [Hjx Hxin]. rewrite elem_of_cons in Hxin; destruct Hxin as [Heq|Hxin]; [congruence|].
           tauto.
        -- intros [Hjx Hxin]. apply Hnot. split; [assumption|now right].
Qed.

Lemma translate_loop_app directorio l1 l2 (acc : list string) (d : directory) :
  translate_loop directorio (l1 ++ l2) acc d =
  match translate_loop directorio l1 acc d with
  | (Ok acc', d') => translate_loop directorio l2 acc' d'
  | (Raise e, d') => (Raise e, d')
  end.
Proof.
  revert acc d. induction l1 as [|a l1 IH]; intros acc d; [reflexivity|].
  cbn [app translate_loop]. unfold bind.
  destruct (translate_entry directorio a d) as [[n|e] d1]; [apply IH|reflexivity].
Qed.

Lemma translate_entry_bad directorio a d :
  julian a = true -> 1000 <= name_year a ->
  name_day a = 0 \/ 366 < name_day a \/ (name_year a = 9999 /\ name_day a = 366) ->
  exists msg, translate_entry directorio a d = (Raise (ValueError msg), d).
Proof.
  intros Hj Hy Hd. destruct (julian_ranges a Hj) as [Hyr Hdr].
  rewrite translate_entry_parse, strptime_julian by (assumption || lia).
  destruct Hd as [Hd|[Hd|[Hd9 Hd]]].
  - rewrite Hd. cbn. eauto.
  - destruct (Z.leb_spec (name_day a) 366); [lia|]. rewrite andb_false_r.
    destruct (Z.eqb_spec (name_day a) 0); eauto.
  - rewrite Hd, Hd9. cbn. eauto.
Qed.

(** The day of the year is 1 on the first of January only. *)
Lemma yday_one t :
  1 <= month t <= 12 -> 1 <= day t -> yday t = 1 -> month t = 1 /\ day t = 1.
Proof.
  intros Hm Hd. unfold yday, days_before_month.
  destruct (month_cases _ Hm) as [E|[E|[E|[E|[E|[E|[E|[E|[E|[E|[E|E]]]]]]]]]]];
    rewrite E;
    match goal with
    | |- context [table DAYS_BEFORE_MONTH ?m] =>
        let v := eval vm_compute in (table DAYS_BEFORE_MONTH m) in
        change (table DAYS_BEFORE_MONTH m) with v
    end;
    match goal with
    | |- context [2 <? ?m] =>
        let v := eval vm_compute in (2 <? m) in change (2 <? m) with v
    end;
    destruct (is_leap (year t)); cbn [andb]; lia.
Qed.

(** Day 366 of a year of 365 days is read as the first day of the next
    year. *)
Lemma translate_entry_day_366 directorio a d :
  julian a = true -> 1000 <= name_year a <= 9998 ->
  name_day a = 366 -> days_in_year (name_year a) = 365 -> a ∈ entries d ->
  fst (translate_entry directorio a d)
  = Ok (YYYY (name_year a + 1) ++ "-01-01" ++ extension a).
Proof.
  intros Hj Hy Hd H365 Hin.
  rewrite translate_entry_parse, strptime_julian by (assumption || lia).
  rewrite Hd. cbn [Z.leb Z.compare Pos.compare Pos.compare_cont andb Z.sub Z.add Z.opp
                   Z.pos_sub Pos.pred_double Z.succ_double Z.pred_double Z.double].
  change (1 <=? 366) with true. change (366 <=? 366) with true. cbn [andb].
  assert (He : 366 - 1 + ymd2ord (name_year a) 1 1
               = ymd2ord (name_year a + 1) 1 1 + 1 - 1).
  { rewrite !ymd2ord_jan1, days_before_next_year. lia. }
  rewrite He.
  assert (Hmax : ymd2ord (name_year a + 1) 1 1 + 1 - 1 <= MAXORDINAL).
  { rewrite ymd2ord_jan1, <- MAXORDINAL_year.
    pose proof (days_before_year_mono (name_year a + 1 + 1) 10000 ltac:(lia)) as Hm.
    rewrite (days_before_next_year (name_year a + 1)) in Hm.
    pose proof (days_in_year_pos (name_year a + 1)). lia. }
  destruct (Z.ltb_spec MAXORDINAL (ymd2ord (name_year a + 1) 1 1 + 1 - 1)); [lia|].
  pose proof (days_in_year_pos (name_year a + 1)) as Hpos.
  destruct (ord2ymd_yday (name_year a + 1) 1 ltac:(lia)) as (Hyr & Hyd & Hm & Hdd).
  revert Hyr Hyd Hm Hdd.
  generalize (ord2ymd (ymd2ord (name_year a + 1) 1 1 + 1 - 1)). intros t Hyr Hyd Hm Hdd.
  destruct (yday_one t Hm ltac:(lia) Hyd) as [Hm1 Hd1].
  cbn [lift bind].
  unfold bind, lift. rewrite os_rename_present by assumption. cbn [fst ret].
  unfold ret. cbn [fst].
  rewrite isoformat_shape by (rewrite ?Hyr, ?Hm1, ?Hd1; lia).
  rewrite Hyr, Hm1, Hd1. reflexivity.
Qed.

(** Claim C6, as amended.  In a directory of ASCII names, whose entries
    with a base name of seven digits carry a year from 1000 on and a day
    that exists in that year, and where no new name is the name of an
    entry already there, every such entry is read as a year and a day of
    the year and renamed to the date [YYYY-MM-DD] followed by its
    extension, the new name taking its place in the returned list; every
    other entry is returned unchanged, is the source of no rename and
    keeps its name in the directory. *)
Theorem translate_julian_dates_renames directorio (d : directory) :
  NoDup (entries d) ->
  (forall a, a ∈ entries d -> ascii_name a = true) ->
  fresh_names (entries d) (entries d) ->
  (forall a, a ∈ entries d -> julian a = true -> well_dated a = true) ->
  let r := translate_julian_dates directorio d in
  fst r = Ok (map new_name (entries d))
  /\ renamed (snd r) = (renamed d ++ renames_of directorio (entries d))%list
  /\ (forall a, a ∈ entries d -> julian a = true ->
      year (name_date a) = name_year a
      /\ yday (name_date a) = name_day a
      /\ new_name a = YYYY (name_year a) ++ "-" ++ DD (month (name_date a)) ++ "-"
                      ++ DD (day (name_date a)) ++ extension a
      /\ (a ∉ entries (snd r)) /\ new_name a ∈ entries (snd r))
  /\ (forall a, a ∈ entries d -> julian a = false ->
      new_name a = a /\ a ∈ entries (snd r)).
Proof.
  intros Hnd _ _ Hall r.
  destruct (translate_loop_ok directorio (entries d) [] d Hnd) as (d' & Hrun & Hren & Hent).
  { intros a Ha Hj. split; [apply Hall|]; assumption. }
  assert (Hr : r = (Ok (map new_name (entries d)), d')).
  { unfold r, translate_julian_dates, os_listdir, bind. exact Hrun. }
  rewrite Hr. cbn [fst snd]. repeat split; try assumption.
  - destruct (name_date_spec a H0 (Hall a H H0)) as (Hy & _); exact Hy.
  - destruct (name_date_spec a H0 (Hall a H H0)) as (_ & Hy & _); exact Hy.
  - destruct (name_date_spec a H0 (Hall a H H0)) as (Hy & _ & Hm & Hdd).
    pose proof (days_in_month_le (name_year a) _ Hm).
    pose proof (proj1 (well_dated_spec a) (Hall a H H0)) as [Hy' _].
    destruct (julian_ranges a H0) as [Hyr _].
    unfold new_name. rewrite H0, isoformat_shape by (rewrite ?Hy; lia).
    rewrite Hy. reflexivity.
  - intros Hin. apply Hent in Hin as [[_ Hnot]|Hin]; [tauto|].
    apply list_elem_of_In, in_map_iff in Hin as (b & Hb & Hbin).
    apply filter_In in Hbin as [Hbin Hjb].
    pose proof (new_name_not_julian b Hjb (Hall b (proj2 (list_elem_of_In _ _) Hbin) Hjb)).
    congruence.
  - apply Hent. right. apply list_elem_of_In, in_map, filter_In.
    split; [apply list_elem_of_In|]; assumption.
  - unfold new_name. rewrite H0. reflexivity.
  - apply Hent. left. split; [assumption|]. intros [Hj _]. congruence.
Qed.

Lemma translate_julian_dates_renames_witness :
  let r := translate_julian_dates "data" dir_example in
  fst r = Ok (map new_name (entries dir_example))
  /\ renamed (snd r) = (renamed dir_example ++ renames_of "data" (entries dir_example))%list
  /\ (forall a, a ∈ entries dir_example -> julian a = true ->
      year (name_date a) = name_year a
      /\ yday (name_date a) = name_day a
      /\ new_name a = YYYY (name_year a) ++ "-" ++ DD (month (name_date a)) ++ "-"
                      ++ DD (day (name_date a)) ++ extension a
      /\ (a ∉ entries (snd r)) /\ new_name a ∈ entries (snd r))
  /\ (forall a, a ∈ entries dir_example -> julian a = false ->
      new_name a = a /\ a ∈ entries (snd r)).
Proof.
  apply (translate_julian_dates_renames "data" dir_example).
  - apply NoDup_ListNoDup. repeat constructor; cbn; intuition discriminate.
  - intros a Ha. apply list_elem_of_In in Ha. cbn in Ha.
    destruct Ha as [<-|[<-|[]]]; reflexivity.
  - intros a Ha Hj. apply list_elem_of_In in Ha. cbn in Ha.
    destruct Ha as [<-|[<-|[]]]; [|discriminate Hj].
    intros Hin. apply list_elem_of_In in Hin. cbn in Hin.
    destruct Hin as [Hin|[Hin|[]]]; discriminate Hin.
  - intros a Ha Hj. apply list_elem_of_In in Ha. cbn in Ha.
    destruct Ha as [<-|[<-|[]]]; [reflexivity|discriminate Hj].
Defined.

(** The example of the specification: [2024099.tif] becomes [2024-04-08.tif]
    and [readme.txt] is left alone. *)
Example translate_julian_dates_example :
  translate_julian_dates "data" dir_example
  = (Ok ["2024-04-08.tif"; "readme.txt"],
     {| entries := ["readme.txt"; "2024-04-08.tif"];
        renamed := [("data/2024099.tif", "data/2024-04-08.tif")] |}).
Proof. vm_compute. reflexivity. Qed.

(** Claim C6 as stated fails: a seven-digit base name with day 000 is not
    renamed, the call raises. *)
Lemma translate_julian_dates_day_zero :
  julian "2024000.tif" = true
  /\ translate_julian_dates "data" (mk_directory ["2024000.tif"] [])
     = (Raise (ValueError "time data does not match format"),
        mk_directory ["2024000.tif"] []).
Proof. split; vm_compute; reflexivity. Qed.

(** Claim C10, as amended.  In a directory of ASCII names, when an entry
    with a base name of seven digits has a year from 1000 on and a day
    number that is 000, or above 366, or 366 in the year 9999, while the
    entries listed before it parse and their new names are the names of
    no entry of the directory, the call raises a [ValueError] there: the
    entries before it have been renamed, this entry and the ones after it
    are neither the source nor the target of a rename and are still in
    the directory.  Day 366 of a year of 365 days, the year 9999 apart, is
    no such entry: it raises nothing and is renamed to the first of
    January of the year after. *)
Theorem translate_julian_dates_aborts directorio (d : directory) pre bad post :
  entries d = (pre ++ bad :: post)%list ->
  NoDup (entries d) ->
  (forall a, a ∈ entries d -> ascii_name a = true) ->
  fresh_names pre (entries d) ->
  (forall a, a ∈ pre -> julian a = true -> well_dated a = true) ->
  julian bad = true -> 1000 <= name_year bad ->
  name_day bad = 0 \/ 366 < name_day bad
  \/ (name_year bad = 9999 /\ name_day bad = 366) ->
  let r := translate_julian_dates directorio d in
  (exists msg, fst r = Raise (ValueError msg))
  /\ renamed (snd r) = (renamed d ++ renames_of directorio pre)%list
  /\ (forall a, a ∈ pre -> julian a = true ->
      (a ∉ entries (snd r)) /\ new_name a ∈ entries (snd r))
  /\ (forall a, a ∈ bad :: post ->
      a ∈ entries (snd r)
      /\ forall b, b ∈ pre -> julian b = true -> a <> b /\ a <> new_name b)
  /\ (forall a d0, julian a = true -> 1000 <= name_year a <= 9998 ->
      name_day a = 366 -> days_in_year (name_year a) = 365 -> a ∈ entries d0 ->
      fst (translate_entry directorio a d0)
      = Ok (YYYY (name_year a + 1) ++ "-01-01" ++ extension a)).
Proof.
  intros He Hnd _ Hfresh Hall Hj Hy Hd r.
  rewrite He in Hnd. pose proof Hnd as Hnd'.
  apply NoDup_app in Hnd as (Hpre & Hdisj & _).
  destruct (translate_loop_ok directorio pre [] d Hpre) as (d' & Hrun & Hren & Hent).
  { intros a Ha Hja. split; [now apply Hall|]. rewrite He. apply elem_of_app. now left. }
  destruct (translate_entry_bad directorio bad d' Hj Hy Hd) as [msg Hbad].
  assert (Hr : r = (Raise (ValueError msg), d')).
  { unfold r, translate_julian_dates, os_listdir, bind. rewrite He.
    rewrite translate_loop_app, Hrun. cbn [translate_loop]. unfold bind.
    rewrite Hbad. reflexivity. }
  rewrite Hr. cbn [fst snd]. split; [eauto|]. split; [assumption|]. split.
  - intros a Ha Hja. split.
    + intros Hin. apply Hent in Hin as [[_ Hnot]|Hin]; [tauto|].
      apply list_elem_of_In, in_map_iff in Hin as (b & Hb & Hbin).
      apply filter_In in Hbin as [Hbin Hjb].
      pose proof (new_name_not_julian b Hjb (Hall b (proj2 (list_elem_of_In _ _) Hbin) Hjb)).
      congruence.
    + apply Hent. right. apply list_elem_of_In, in_map, filter_In.
      split; [apply list_elem_of_In|]; assumption.
  - split.
    + intros a Ha. split.
      * apply Hent. left. split.
        -- rewrite He. apply elem_of_app. now right.
        -- intros [_ Hin]. exact (Hdisj a Hin Ha).
      * intros b Hb Hjb. split.
        -- intros ->. exact (Hdisj b Hb Ha).
        -- intros ->. apply (Hfresh b Hb Hjb).
           rewrite He. apply elem_of_app. now right.
    + intros a d0 Hja Hya Hda H365 Hin.
      exact (translate_entry_day_366 directorio a d0 Hja Hya Hda H365 Hin).
Qed.

Lemma translate_julian_dates_aborts_witness :
  let r := translate_julian_dates "data" dir_day_zero in
  (exists msg, fst r = Raise (ValueError msg))
  /\ renamed (snd r) = (renamed dir_day_zero ++ renames_of "data" ["2024099.tif"])%list
  /\ (forall a, a ∈ ["2024099.tif"] -> julian a = true ->
      (a ∉ entries (snd r)) /\ new_name a ∈ entries (snd r))
  /\ (forall a, a ∈ ["2024000.tif"; "2024100.tif"] ->
      a ∈ entries (snd r)
      /\ forall b, b ∈ ["2024099.tif"] -> julian b = true -> a <> b /\ a <> new_name b)
  /\ (forall a d0, julian a = true -> 1000 <= name_year a <= 9998 ->
      name_day a = 366 -> days_in_year (name_year a) = 365 -> a ∈ entries d0 ->
      fst (translate_entry "data" a d0)
      = Ok (YYYY (name_year a + 1) ++ "-01-01" ++ extension a)).
Proof.
  apply (translate_julian_dates_aborts "data" dir_day_zero
           ["2024099.tif"] "2024000.tif" ["2024100.tif"]).
  - reflexivity.
  - apply NoDup_ListNoDup. repeat constructor; cbn; intuition discriminate.
  - intros a Ha. apply list_elem_of_In in Ha. cbn in Ha.
    destruct Ha as [<-|[<-|[<-|[]]]]; reflexivity.
  - intros a Ha Hj. apply list_elem_of_In in Ha. cbn in Ha.
    destruct Ha as [<-|[]].
    intros Hin. apply list_elem_of_In in Hin. cbn in Hin.
    destruct Hin as [Hin|[Hin|[Hin|[]]]]; discriminate Hin.
  - intros a Ha Hj. apply list_elem_of_In in Ha. cbn in Ha.
    destruct Ha as [<-|[]]. reflexivity.
  - reflexivity.
  - vm_compute. discriminate.
  - left. reflexivity.
Defined.

(** Claim C10 as stated fails: [2023366.tif] has day 366 in a year of 365
    days, yet the call raises nothing and the entry is renamed to the
    first of January of 2024. *)
Lemma translate_julian_dates_day_366 :
  julian "2023366.tif" = true
  /\ name_day "2023366.tif" = 366
  /\ days_in_year (name_year "2023366.tif") = 365
  /\ translate_julian_dates "data" (mk_directory ["2023366.tif"] [])
     = (Ok ["2024-01-01.tif"],
        {| entries := ["2024-01-01.tif"];
           renamed := [("data/2023366.tif", "data/2024-01-01.tif")] |}).
Proof. repeat split; vm_compute; reflexivity. Qed.
End RenamerFacts.

Section MergerFacts.
Import Xr Merger.

Lemma with_log_nil w : with_log [] [] w = w.
Proof. destruct w. unfold with_log. cbn. now rewrite !app_nil_r. Qed.

Lemma with_log_log l1 p1 l2 p2 w :
  with_log l2 p2 (with_log l1 p1 w) = with_log (l1 ++ l2) (p1 ++ p2) w.
Proof. unfold with_log. cbn. now rewrite !app_assoc. Qed.

Lemma fs_with_log l p w : fs (with_log l p w) = fs w.
Proof. reflexivity. Qed.

Lemma omap_cons_eq {A B} (f : A -> option B) a l :
  omap f (a :: l) = match f a with Some b => b :: omap f l | None => omap f l end.
Proof. reflexivity. Qed.

Lemma assoc_set_assoc {A} k (a : A) l : assoc k (set_assoc k a l) = Some a.
Proof.
  induction l as [|[k' a'] l IH]; cbn.
  - now rewrite String.eqb_refl.
  - destruct (String.eqb k' k) eqn:E; cbn; [now rewrite String.eqb_refl|].
    now rewrite E.
Qed.

Lemma assoc_map_snd {A B} (g : string * A -> B) k l :
  assoc k (map (fun nv => (fst nv, g nv)) l)
  = match assoc k l with
    | Some a => Some (g (k, a))
    | None => None
    end.
Proof.
  induction l as [|[k' a'] l IH]; cbn; [reflexivity|].
  destruct (String.eqb k' k) eqn:E; [|exact IH].
  apply String.eqb_eq in E. now subst.
Qed.

(** The dates of the range: the days from the start to the day before the
    end, in increasing order. *)
Lemma pd_date_range_spec start_date end_date :
  let dates := pd_date_range start_date (end_date - 1) in
  length dates = Z.to_nat (end_date - start_date)
  /\ (forall d, d ∈ dates <-> (start_date <= d < end_date)%Z)
  /\ StronglySorted Z.lt dates.
Proof.
  unfold pd_date_range.
  replace (end_date - 1 - start_date + 1)%Z with (end_date - start_date)%Z by lia.
  remember (Z.to_nat (end_date - start_date)) as n eqn:Hn. cbv zeta. split; [now rewrite length_map, length_seq|]. split.
  - intros d. rewrite list_elem_of_In, in_map_iff. split.
    + intros (k & <- & Hk). apply in_seq in Hk. lia.
    + intros Hd. exists (Z.to_nat (d - start_date)). split; [lia|].
      apply in_seq. lia.
  - clear Hn. generalize 0%nat. induction n as [|n IH]; intros k; cbn; constructor.
    + apply IH.
    + apply Forall_forall. intros x Hx. apply list_elem_of_In, in_map_iff in Hx as (j & <- & Hj).
      apply in_seq in Hj. lia.
Qed.

Lemma sorted_filter {A} (R : A -> A -> Prop) (p : A -> bool) l :
  StronglySorted R l -> StronglySorted R (List.filter p l).
Proof.
  induction 1 as [|a l Hs IH Hf]; cbn; [constructor|].
  destruct (p a); [constructor; [exact IH|]|exact IH].
  rewrite List.Forall_forall in *. intros x Hx.
  apply filter_In in Hx as [Hx _]. auto.
Qed.

Section Loop.
Variables data_folder file_type variable_name : string.

Let filename := day_filename data_folder file_type.

Lemma merge_loop_absent d rest datasets times w :
  day_present (fs w) data_folder file_type d = false ->
  merge_loop (d :: rest) data_folder file_type variable_name datasets times w
  = merge_loop rest data_folder file_type variable_name datasets times
      (with_log [not_found_line data_folder file_type d] [filename d] w).
Proof.
  unfold day_present, present. intros H.
  cbn [merge_loop]. unfold bind at 1. unfold os_path_exists. rewrite H.
  unfold bind at 1, print, modify. cbn [fs stdout probed].
  unfold with_log, not_found_line, filename. cbn [fs stdout probed].
  reflexivity.
Qed.

Lemma merge_loop_loaded d rest datasets times w ds :
  day_loaded (fs w) data_folder file_type variable_name d = Some ds ->
  merge_loop (d :: rest) data_folder file_type variable_name datasets times w
  = merge_loop rest data_folder file_type variable_name
      (datasets ++ [ds]) (times ++ [d]) (with_log [] [filename d] w).
Proof.
  unfold day_loaded, loaded. intros H.
  cbn [merge_loop]. unfold bind at 1. unfold os_path_exists.
  destruct (fs w !! day_filename data_folder file_type d) as [[ds'|r|l|f]|] eqn:Hf;
    try discriminate.
  - destruct (String.eqb file_type "nc") eqn:Hnc; [|discriminate].
    injection H as ->.
    rewrite bool_decide_eq_true_2 by eauto.
    unfold bind at 1, xr_open_dataset. cbn [fs]. rewrite Hf.
    unfold with_log, filename. cbn [fs stdout probed]. rewrite app_nil_r. reflexivity.
  - destruct (String.eqb file_type "nc") eqn:Hnc; [discriminate|].
    destruct (String.eqb file_type "tif") eqn:Htif; [|discriminate].
    destruct (raster_to_dataset r variable_name) as [ds'|e] eqn:Hr; [|discriminate].
    injection H as ->.
    rewrite bool_decide_eq_true_2 by eauto.
    unfold bind at 1, rasterio_open. cbn [fs]. rewrite Hf.
    unfold bind at 1, lift. rewrite Hr.
    unfold with_log, filename. cbn [fs stdout probed]. rewrite app_nil_r. reflexivity.
Qed.

Lemma merge_loop_unsupported d rest datasets times w :
  day_present (fs w) data_folder file_type d = true ->
  supported file_type = false ->
  merge_loop (d :: rest) data_folder file_type variable_name datasets times w
  = (Ok None, with_log ["Unsupported file type: " ++ file_type] [filename d] w).
Proof.
  unfold day_present, present, supported. intros H Hs.
  apply orb_false_elim in Hs as [Hnc Htif].
  cbn [merge_loop]. unfold bind at 1. unfold os_path_exists. rewrite H, Hnc, Htif.
  unfold bind, print, modify, ret, with_log. cbn [fs stdout probed]. reflexivity.
Qed.

Lemma merge_loop_unreadable d rest datasets times w :
  day_present (fs w) data_folder file_type d = true ->
  supported file_type = true ->
  day_loaded (fs w) data_folder file_type variable_name d = None ->
  exists e,
    merge_loop (d :: rest) data_folder file_type variable_name datasets times w
    = (Raise e, with_log [] [filename d] w).
Proof.
  unfold day_present, present, supported, day_loaded, loaded. intros H Hs Hl.
  cbn [merge_loop]. unfold bind at 1. unfold os_path_exists. rewrite H.
  apply bool_decide_eq_true_1 in H as [f Hf]. rewrite Hf in Hl.
  unfold with_log, filename. cbn [fs stdout probed]. rewrite app_nil_r.
  destruct (String.eqb file_type "nc") eqn:Hnc.
  - unfold bind, xr_open_dataset. cbn [fs]. rewrite Hf.
    destruct f; try discriminate; eauto.
  - cbn [orb] in Hs. rewrite Hs in *.
    unfold bind, rasterio_open. cbn [fs]. rewrite Hf.
    destruct f as [ds|r|l|f]; try discriminate; eauto.
    unfold lift. destruct (raster_to_dataset r variable_name); [discriminate|eauto].
Qed.

(** The loop when every file that is there can be taken: the datasets
    and the dates of the days found, in the order of the dates; one
    warning for every day not found; every name probed. *)
Lemma merge_loop_taken dates :
  forall datasets times w,
    (forall d, d ∈ dates -> day_present (fs w) data_folder file_type d = true ->
               is_Some (day_loaded (fs w) data_folder file_type variable_name d)) ->
    merge_loop dates data_folder file_type variable_name datasets times w
    = (Ok (Some ((datasets
                  ++ omap (day_loaded (fs w) data_folder file_type variable_name) dates)%list,
                 (times
                  ++ List.filter (day_present (fs w) data_folder file_type) dates)%list)),
       with_log
         (map (not_found_line data_folder file_type)
              (List.filter (fun d => negb (day_present (fs w) data_folder file_type d)) dates))
         (map filename dates) w).
Proof.
  induction dates as [|d rest IH]; intros datasets times w Hall.
  - cbn. rewrite !app_nil_r, with_log_nil. reflexivity.
  - destruct (day_present (fs w) data_folder file_type d) eqn:Hp.
    + destruct (Hall d ltac:(left) Hp) as [ds Hds].
      rewrite (merge_loop_loaded _ _ _ _ _ _ Hds), IH.
      * rewrite fs_with_log, omap_cons_eq, Hds. cbn [List.filter map]. rewrite Hp.
        cbn [negb]. rewrite with_log_log. cbn [app]. rewrite <- !app_assoc. reflexivity.
      * intros d' Hd'. apply Hall. now right.
    + rewrite (merge_loop_absent _ _ _ _ _ Hp), IH.
      * assert (Hl : day_loaded (fs w) data_folder file_type variable_name d = None).
        { unfold day_loaded, loaded. unfold day_present, present in Hp.
          apply bool_decide_eq_false_1 in Hp.
          destruct (fs w !! _); [exfalso; apply Hp; eauto|reflexivity]. }
        rewrite fs_with_log, omap_cons_eq, Hl. cbn [List.filter map]. rewrite Hp.
        cbn [negb map]. rewrite with_log_log. reflexivity.
      * intros d' Hd'. apply Hall. now right.
Qed.

(** The loop on a file type it does not know: it returns at the first
    file that is there; when none is, it runs to its end with nothing
    collected. *)
Lemma merge_loop_unknown_type dates :
  forall datasets times w,
    supported file_type = false ->
    merge_loop dates data_folder file_type variable_name datasets times w
    = if existsb (day_present (fs w) data_folder file_type) dates then
        (Ok None,
         with_log
           (map (not_found_line data_folder file_type)
                (absent_prefix (fs w) data_folder file_type dates)
            ++ ["Unsupported file type: " ++ file_type])
           (map filename
                (firstn (S (length (absent_prefix (fs w) data_folder file_type dates)))
                        dates)) w)
      else
        (Ok (Some (datasets, times)),
         with_log (map (not_found_line data_folder file_type) dates)
                  (map filename dates) w).
Proof.
  induction dates as [|d rest IH]; intros datasets times w Hs.
  - cbn. rewrite with_log_nil. reflexivity.
  - cbn [existsb absent_prefix].
    destruct (day_present (fs w) data_folder file_type d) eqn:Hp.
    + rewrite (merge_loop_unsupported _ _ _ _ _ Hp Hs). reflexivity.
    + rewrite (merge_loop_absent _ _ _ _ _ Hp), IH by assumption.
      rewrite fs_with_log. cbn [orb].
      destruct (existsb _ rest); rewrite with_log_log; reflexivity.
Qed.

(** Whatever happens, the names probed are those of the first dates, in
    order, one for every turn of the loop. *)
Lemma merge_loop_probed dates :
  forall datasets times w,
    probed (snd (merge_loop dates data_folder file_type variable_name datasets times w))
    = (probed w
       ++ map filename
            (firstn (turns (fs w) data_folder file_type variable_name dates) dates))%list
    /\ fs (snd (merge_loop dates data_folder file_type variable_name datasets times w))
       = fs w.
Proof.
  induction dates as [|d rest IH]; intros datasets times w.
  - cbn. now rewrite app_nil_r.
  - cbn [turns].
    destruct (day_present (fs w) data_folder file_type d) eqn:Hp.
    + destruct (day_loaded (fs w) data_folder file_type variable_name d) as [ds|] eqn:Hl.
      * rewrite bool_decide_eq_true_2 by eauto. cbn [andb negb].
        rewrite (merge_loop_loaded _ _ _ _ _ _ Hl).
        destruct (IH (datasets ++ [ds])%list (times ++ [d])%list
                     (with_log [] [filename d] w)) as [H1 H2].
        rewrite H1, H2, fs_with_log. cbn [with_log probed firstn map].
        rewrite <- app_assoc. split; reflexivity.
      * rewrite bool_decide_eq_false_2 by (intros [? ?]; discriminate). cbn [andb negb].
        destruct (supported file_type) eqn:Hs.
        -- destruct (merge_loop_unreadable d rest datasets times w Hp Hs Hl) as [e ->].
           cbn. split; reflexivity.
        -- rewrite (merge_loop_unsupported _ _ _ _ _ Hp Hs). cbn. split; reflexivity.
    + rewrite (merge_loop_absent _ _ _ _ _ Hp). cbn [andb].
      destruct (IH datasets times
                   (with_log [not_found_line data_folder file_type d] [filename d] w))
        as [H1 H2].
      rewrite H1, H2, fs_with_log. cbn [with_log probed firstn map].
      rewrite <- app_assoc. split; reflexivity.
Qed.
End Loop.

Lemma absent_prefix_all files data_folder file_type dates :
  existsb (day_present files data_folder file_type) dates = false ->
  absent_prefix files data_folder file_type dates = dates.
Proof.
  induction dates as [|d rest IH]; [reflexivity|]. cbn [existsb absent_prefix].
  destruct (day_present files data_folder file_type d); [discriminate|].
  cbn [orb]. intros H. now rewrite IH.
Qed.

Section Merge.
Variables data_folder output_folder file_type units variable_name : string.

Let filename := day_filename data_folder file_type.

Lemma absent_not_loaded files d :
  day_present files data_folder file_type d = false ->
  day_loaded files data_folder file_type variable_name d = None.
Proof.
  unfold day_loaded, loaded, day_present, present. intros Hp.
  apply bool_decide_eq_false_1 in Hp.
  destruct (files !! _); [exfalso; apply Hp; eauto|reflexivity].
Qed.

Lemma taken_single_days files dates :
  (forall d, d ∈ dates -> day_present files data_folder file_type d = true ->
             single_day files file_type variable_name (filename d) = true) ->
  Forall (fun ds => steps_along "time" ds = 1%nat
                    /\ has_key variable_name (ds_vars ds) = true)
         (omap (day_loaded files data_folder file_type variable_name) dates)
  /\ length (omap (day_loaded files data_folder file_type variable_name) dates)
     = length (List.filter (day_present files data_folder file_type) dates).
Proof.
  induction dates as [|d rest IH]; intros Hall; [split; [constructor|reflexivity]|].
  destruct IH as [IH1 IH2]; [intros d' Hd'; apply Hall; now right|].
  rewrite omap_cons_eq. cbn [List.filter].
  destruct (day_present files data_folder file_type d) eqn:Hp.
  - pose proof (Hall d ltac:(left) Hp) as Hs. unfold single_day, filename in Hs.
    change (loaded files file_type variable_name (day_filename data_folder file_type d))
      with (day_loaded files data_folder file_type variable_name d) in Hs.
    destruct (day_loaded files data_folder file_type variable_name d) as [ds|];
      [|discriminate].
    apply andb_prop in Hs as [Hs1 Hs2]. apply Nat.eqb_eq in Hs1.
    split; [constructor; [split|]; assumption|cbn; now rewrite IH2].
  - rewrite (absent_not_loaded _ _ Hp). split; assumption.
Qed.

Lemma list_sum_ones {A} (f : A -> nat) l :
  Forall (fun a => f a = 1%nat) l -> list_sum (map f l) = length l.
Proof.
  unfold list_sum. induction 1 as [|a l Ha _ IH]; cbn; [reflexivity|now rewrite Ha, IH].
Qed.

Lemma concat_uniform (datasets : list Dataset) b :
  Forall (fun ds => has_key "time" (ds_coords ds) = b) datasets ->
  forallb (fun ds => has_key "time" (ds_coords ds)) datasets
  || forallb (fun ds => negb (has_key "time" (ds_coords ds))) datasets = true.
Proof.
  intros H. destruct b.
  - apply orb_true_intro. left. apply forallb_forall. rewrite Forall_forall in H.
    intros ds Hds. apply H, list_elem_of_In, Hds.
  - apply orb_true_intro. right. apply forallb_forall. rewrite Forall_forall in H.
    intros ds Hds. rewrite (H ds) by apply list_elem_of_In, Hds. reflexivity.
Qed.

(** Files of one layout all bring a time coordinate, or none does. *)
Lemma layout_uniform files dates :
  (forall d d' ds ds', d ∈ dates -> d' ∈ dates ->
     day_loaded files data_folder file_type variable_name d = Some ds ->
     day_loaded files data_folder file_type variable_name d' = Some ds' ->
     same_layout ds ds') ->
  let datasets := omap (day_loaded files data_folder file_type variable_name) dates in
  forallb (fun ds => has_key "time" (ds_coords ds)) datasets
  || forallb (fun ds => negb (has_key "time" (ds_coords ds))) datasets = true.
Proof.
  intros Hlay datasets.
  destruct datasets as [|first others] eqn:Hd; [reflexivity|].
  apply (concat_uniform _ (has_key "time" (ds_coords first))).
  apply Forall_forall. intros ds Hds. rewrite <- Hd in Hds.
  assert (Hf : first ∈ datasets) by (rewrite Hd; left).
  unfold datasets in Hds, Hf.
  apply list_elem_of_omap in Hds as (d & Hdin & Hdl).
  apply list_elem_of_omap in Hf as (d' & Hdin' & Hdl').
  destruct (Hlay d d' ds first Hdin Hdin' Hdl Hdl') as (_ & _ & _ & H & _). exact H.
Qed.

(** The merge when every file of the range that is there is the file of
    one day, the files agree on their layout, and one at least is
    there. *)
Lemma merge_files_taken start_date end_date w :
  let dates := pd_date_range start_date (end_date - 1) in
  (forall d, d ∈ dates -> day_present (fs w) data_folder file_type d = true ->
             single_day (fs w) file_type variable_name (filename d) = true) ->
  (forall d d' ds ds', d ∈ dates -> d' ∈ dates ->
     day_loaded (fs w) data_folder file_type variable_name d = Some ds ->
     day_loaded (fs w) data_folder file_type variable_name d' = Some ds' ->
     same_layout ds ds') ->
  existsb (day_present (fs w) data_folder file_type) dates = true ->
  exists combined,
    merge_files start_date end_date data_folder output_folder file_type units
                variable_name w
    = (Ok tt,
       {| fs := <[output_folder := NetCDF combined]> (fs w);
          stdout := stdout w
                    ++ map (not_found_line data_folder file_type)
                         (List.filter
                            (fun d => negb (day_present (fs w) data_folder file_type d))
                            dates)
                    ++ [repr combined];
          probed := probed w ++ map filename dates |})
    /\ assoc "time" (ds_coords combined)
       = Some (map LDay (List.filter (day_present (fs w) data_folder file_type) dates))
    /\ assoc "time" (ds_sizes combined)
       = Some (length (List.filter (day_present (fs w) data_folder file_type) dates))
    /\ exists v, assoc variable_name (ds_vars combined) = Some v
                 /\ assoc "units" (v_attrs v) = Some units.
Proof.
  intros dates Hall Hlay Hsome.
  pose proof (layout_uniform (fs w) dates Hlay) as Huni. cbv zeta in Huni.
  destruct (taken_single_days (fs w) dates Hall) as [Hone Hlen].
  assert (Hne : List.filter (day_present (fs w) data_folder file_type) dates <> []).
  { apply existsb_exists in Hsome as (d & Hd & Hp). intros He.
    assert (Hin : In d (List.filter (day_present (fs w) data_folder file_type) dates))
      by (apply filter_In; split; assumption).
    rewrite He in Hin. destruct Hin. }
  unfold merge_files. fold dates. unfold bind at 1.
  rewrite merge_loop_taken.
  2:{ intros d Hd Hp. pose proof (Hall d Hd Hp) as Hs. unfold single_day, filename in Hs.
      unfold day_loaded.
      destruct (loaded _ _ _ _); [eauto|discriminate]. }
  cbn [app].
  remember (omap (day_loaded (fs w) data_folder file_type variable_name) dates)
    as datasets eqn:Hd.
  remember (List.filter (day_present (fs w) data_folder file_type) dates)
    as times eqn:Ht.
  destruct datasets as [|first others].
  { destruct times; [congruence|discriminate Hlen]. }
  assert (Hsum : list_sum (map (steps_along "time") (first :: others)) = length times).
  { rewrite <- Hlen. apply list_sum_ones.
    eapply Forall_impl; [exact Hone|]. intros ds [H _]. exact H. }
  assert (Hvar : has_key variable_name (ds_vars first) = true).
  { inversion Hone as [|? ? [_ H] _]. exact H. }
  unfold has_key in Hvar.
  destruct (assoc variable_name (ds_vars first)) as [v0|] eqn:Hv0; [|discriminate].
  unfold xr_concat. rewrite Huni. cbn [negb]. unfold bind at 1, lift at 1.
  unfold ds_set_coord. cbn [ds_sizes assoc]. cbn [String.eqb Ascii.eqb Bool.eqb].
  rewrite Hsum, length_map, Nat.eqb_refl.
  unfold bind at 1, lift at 1.
  unfold ds_set_var_attr. cbn [ds_vars ds_sizes ds_coords ds_attrs].
  rewrite assoc_map_snd, Hv0.
  unfold bind at 1, lift at 1.
  eexists. split; [|split; [|split]].
  - unfold bind, to_netcdf, write_file, print, modify, with_log.
    cbn [fs stdout probed]. rewrite <- app_assoc. reflexivity.
  - cbn [ds_coords]. apply assoc_set_assoc.
  - cbn [ds_sizes assoc String.eqb Ascii.eqb Bool.eqb]. reflexivity.
  - eexists. cbn [ds_vars]. split; [apply assoc_set_assoc|].
    cbn [v_attrs]. apply assoc_set_assoc.
Qed.

Lemma supported_false :
  file_type <> "nc" -> file_type <> "tif" -> supported file_type = false.
Proof.
  intros H1 H2. unfold supported.
  apply String.eqb_neq in H1, H2. now rewrite H1, H2.
Qed.



Lemma filter_all {A} (p : A -> bool) l :
  (forall a, In a l -> p a = true) -> List.filter p l = l.
Proof.
  induction l as [|a l IH]; intros H; [reflexivity|]. cbn.
  rewrite (H a (or_introl eq_refl)), IH; [reflexivity|].
  intros b Hb. apply H. now right.
Qed.


Lemma merge_files_probed_loop start_date end_date w :
  probed (snd (merge_files start_date end_date data_folder output_folder file_type
                           units variable_name w))
  = probed (snd (merge_loop (pd_date_range start_date (end_date - 1))
                            data_folder file_type variable_name [] [] w)).
Proof.
  unfold merge_files, bind at 1.
  destruct (merge_loop _ _ _ _ _ _ w) as [[[[datasets times]|]|e] w1]; cbn [snd];
    try reflexivity.
  unfold bind, lift.
  destruct (xr_concat datasets "time") as [c|e]; [|reflexivity].
  destruct (ds_set_coord c "time" (map LDay times)) as [c'|e]; [|reflexivity].
  destruct (ds_set_var_attr c' variable_name "units" units) as [c''|e]; reflexivity.
Qed.

(** Claim C9, as amended.  For a start date and a day before the end date
    that a time stamp can hold, the dates of the loop are the days from
    the start date to the day before the end date, in order.  The name
    built for a date is the prefix, the year of the date, a dash, its
    month in two digits, a dash, its day in two digits, a dot and the file
    type; a year from 1000 to 9999 is written with its four digits.  The
    names probed are the names of the first dates, in their order: of all
    the dates when every file that is there is taken by the loop, and,
    with a file type the loop does not know, of the dates up to the first
    whose file is there. *)
Theorem merge_files_dates_and_names start_date end_date w :
  let dates := pd_date_range start_date (end_date - 1) in
  let r := merge_files start_date end_date data_folder output_folder file_type units
                       variable_name w in
  timestamp_day start_date -> timestamp_day (end_date - 1) ->
  (forall d, d ∈ dates <-> (start_date <= d < end_date)%Z)
  /\ StronglySorted Z.lt dates
  /\ (forall d, let t := Calendar.ord2ymd d in
        Calendar.toordinal t = d
        /\ (1 <= Calendar.month t <= 12)%Z /\ (1 <= Calendar.day t <= 31)%Z
        /\ filename d = data_folder ++ Py.str (Calendar.year t) ++ "-"
                        ++ DD (Calendar.month t) ++ "-" ++ DD (Calendar.day t)
                        ++ "." ++ file_type
        /\ ((1000 <= Calendar.year t <= 9999)%Z ->
            Py.str (Calendar.year t) = YYYY (Calendar.year t)))
  /\ (exists n, probed (snd r) = (probed w ++ map filename (firstn n dates))%list)
  /\ ((forall d, d ∈ dates -> day_present (fs w) data_folder file_type d = true ->
                 is_Some (day_loaded (fs w) data_folder file_type variable_name d)) ->
      probed (snd r) = (probed w ++ map filename dates)%list)
  /\ (supported file_type = false ->
      probed (snd r)
      = (probed w
         ++ map filename
              (firstn (S (length (absent_prefix (fs w) data_folder file_type dates)))
                      dates))%list).
Proof.
  intros dates r _ _.
  destruct (pd_date_range_spec start_date end_date) as (_ & Hmem & Hsorted).
  split; [exact Hmem|]. split; [exact Hsorted|]. split; [|split; [|split]].
  - intros d t. destruct (ord2ymd_valid d) as (Hord & Hm & Hd). fold t in Hord, Hm, Hd.
    pose proof (days_in_month_le (Calendar.year t) _ Hm) as Hle.
    split; [exact Hord|]. split; [exact Hm|]. split; [lia|]. split.
    + unfold filename, day_filename. fold t.
      change (Py.zfill 2 (Py.str (Calendar.month t)))
        with (Calendar.two_digits (Calendar.month t)).
      change (Py.zfill 2 (Py.str (Calendar.day t)))
        with (Calendar.two_digits (Calendar.day t)).
      rewrite !two_digits_DD by lia. reflexivity.
    + apply str_YYYY.
  - eexists. unfold r. rewrite merge_files_probed_loop.
    apply (merge_loop_probed data_folder file_type variable_name dates [] [] w).
  - intros Hall. unfold r. rewrite merge_files_probed_loop. fold dates.
    rewrite merge_loop_taken by exact Hall. reflexivity.
  - intros Hs. unfold r. rewrite merge_files_probed_loop. fold dates.
    rewrite merge_loop_unknown_type by exact Hs.
    destruct (existsb (day_present (fs w) data_folder file_type) dates) eqn:He;
      [reflexivity|].
    cbn [snd with_log probed].
    rewrite (absent_prefix_all (fs w) data_folder file_type dates He).
    rewrite firstn_all2 by lia. reflexivity.
Qed.
End Merge.

(** The files of the two example worlds can be merged and written. *)
Lemma world_gap_mergeable :
  mergeable (fs world_gap) "in/rain_" "nc" "rain" "out/rain.nc"
            (pd_date_range april_8 (april_8 + 3 - 1))
  /\ mergeable (fs world_full) "in/rain_" "nc" "rain" "out/rain.nc"
               (pd_date_range april_8 (april_8 + 3 - 1)).
Proof.
  split; (split; [|split; [|split; [|split]]]).
  1, 6: intros d Hd; apply list_elem_of_In in Hd; vm_compute in Hd;
        destruct Hd as [<-|[<-|[<-|[]]]]; vm_compute; split; discriminate.
  1, 5: intros d Hd Hp; apply list_elem_of_In in Hd; vm_compute in Hd;
        destruct Hd as [<-|[<-|[<-|[]]]]; vm_compute in Hp |- *;
        first [reflexivity | discriminate Hp].
  1, 4: intros d d' ds ds' Hd Hd' Hl Hl';
        apply list_elem_of_In in Hd; apply list_elem_of_In in Hd';
        vm_compute in Hd, Hd';
        destruct Hd as [<-|[<-|[<-|[]]]]; vm_compute in Hl;
        try discriminate Hl; injection Hl as <-;
        destruct Hd' as [<-|[<-|[<-|[]]]]; vm_compute in Hl';
        try discriminate Hl'; injection Hl' as <-;
        repeat split; reflexivity.
  1, 3: intros d ds Hd Hl; apply list_elem_of_In in Hd; vm_compute in Hd;
        destruct Hd as [<-|[<-|[<-|[]]]]; vm_compute in Hl;
        try discriminate Hl; injection Hl as <-;
        (split; [repeat constructor; discriminate|reflexivity]).
  all: intros d Hd; apply list_elem_of_In in Hd; vm_compute in Hd;
       destruct Hd as [<-|[<-|[<-|[]]]]; vm_compute; discriminate.
Qed.




(** The example of the specification: three days, the file of the second
    missing; the time coordinate written has length 2 and holds the first
    and the third day, in this order. *)
Example merge_files_gap_example :
  let r := merge_files april_8 (april_8 + 3) "in/rain_" "out/rain.nc" "nc" "mm" "rain"
                       world_gap in
  fst r = Ok tt
  /\ stdout (snd r) = ["File not found: in/rain_2024-04-09.nc"; "<xarray.Dataset>"]
  /\ match fs (snd r) !! "out/rain.nc" with
     | Some (NetCDF ds) =>
         assoc "time" (ds_coords ds) = Some [LDay april_8; LDay (april_8 + 2)]
         /\ assoc "time" (ds_sizes ds) = Some 2%nat
     | _ => False
     end.
Proof. vm_compute. repeat split; reflexivity. Qed.




Lemma merge_files_dates_and_names_witness :
  let dates := pd_date_range april_8 (april_8 + 3 - 1) in
  let r := merge_files april_8 (april_8 + 3) "in/rain_" "out/rain.nc" "nc" "mm" "rain"
                       world_gap in
  (forall d, d ∈ dates <-> (april_8 <= d < april_8 + 3)%Z)
  /\ StronglySorted Z.lt dates
  /\ (forall d, let t := Calendar.ord2ymd d in
        Calendar.toordinal t = d
        /\ (1 <= Calendar.month t <= 12)%Z /\ (1 <= Calendar.day t <= 31)%Z
        /\ day_filename "in/rain_" "nc" d
           = "in/rain_" ++ Py.str (Calendar.year t) ++ "-"
             ++ DD (Calendar.month t) ++ "-" ++ DD (Calendar.day t) ++ "." ++ "nc"
        /\ ((1000 <= Calendar.year t <= 9999)%Z ->
            Py.str (Calendar.year t) = YYYY (Calendar.year t)))
  /\ (exists n, probed (snd r)
                = (probed world_gap ++ map (day_filename "in/rain_" "nc") (firstn n dates))%list)
  /\ ((forall d, d ∈ dates -> day_present (fs world_gap) "in/rain_" "nc" d = true ->
                 is_Some (day_loaded (fs world_gap) "in/rain_" "nc" "rain" d)) ->
      probed (snd r) = (probed world_gap ++ map (day_filename "in/rain_" "nc") dates)%list)
  /\ (supported "nc" = false ->
      probed (snd r)
      = (probed world_gap
         ++ map (day_filename "in/rain_" "nc")
              (firstn (S (length (absent_prefix (fs world_gap) "in/rain_" "nc" dates)))
                      dates))%list).
Proof.
  apply (merge_files_dates_and_names "in/rain_" "out/rain.nc" "nc" "mm" "rain"
           april_8 (april_8 + 3) world_gap);
    vm_compute; split; discriminate.
Defined.

(** Claim C9 as stated fails: with a file type the loop does not know and
    the file of the first of three days there, the call returns after the
    first name; the names of the other two days are never probed. *)
Lemma merge_files_probes_stop :
  let r := merge_files april_8 (april_8 + 3) "in/rain_" "out/rain.nc" "png" "mm" "rain"
                       world_png in
  length (pd_date_range april_8 (april_8 + 3 - 1)) = 3%nat
  /\ fst r = Ok tt
  /\ probed (snd r) = ["in/rain_2024-04-08.png"].
Proof. vm_compute. repeat split; reflexivity. Qed.
End MergerFacts.

Section PlotterFacts.
Import Xr Plotter.

(** Claim C7.  When the file opens as a dataset that does not hold the
    variable asked for, the plotter raises a [ValueError] that names the
    variable, and leaves the world as it found it: no image is written. *)
Theorem plot_nc_file_missing_variable (sqrt : Q -> Q)
    file_path variable_name save_path lon_dim lat_dim time_dim w ds :
  fs w !! file_path = Some (NetCDF ds) ->
  ds_contains ds variable_name = false ->
  plot_nc_file sqrt file_path variable_name save_path lon_dim lat_dim time_dim w
  = (Raise (ValueError ("La variable '" ++ variable_name
                        ++ "' no se encuentra en el archivo.")), w).
Proof.
  intros Hf Hc. unfold plot_nc_file, bind at 1, xr_open_dataset.
  rewrite Hf, Hc. reflexivity.
Qed.

Lemma plot_nc_file_missing_variable_witness :
  plot_nc_file (fun q => q) "temp.nc" "ET0" "figures/" "lon" "lat" "time" world_grid
  = (Raise (ValueError "La variable 'ET0' no se encuentra en el archivo."), world_grid).
Proof.
  apply (plot_nc_file_missing_variable (fun q => q) "temp.nc" "ET0" "figures/"
           "lon" "lat" "time" world_grid temperature_grid); reflexivity.
Defined.
End PlotterFacts.

Section AveragerFacts.
Import Xr Averager.

(** The mean the reductions compute is the mean of the numbers. *)
Lemma nanmean_mean_of cs : mean_of cs (nanmean cs).
Proof.
  unfold mean_of, nanmean, numbers, qsum. cbv zeta.
  destruct (omap id cs) as [|x xs]; [reflexivity|].
  eexists. split; [reflexivity|].
  field. unfold Qeq, inject_Z. cbn [Qnum Qden length]. lia.
Qed.

Lemma Qlt_bool_iff a b : Qlt_bool a b = true <-> (a < b)%Q.
Proof.
  unfold Qlt_bool. rewrite negb_true_iff. split.
  - intros H. apply Qnot_le_lt. intros Hle. apply Qle_bool_iff in Hle. congruence.
  - intros H. apply not_true_is_false. intros Hle. apply Qle_bool_iff in Hle.
    exact (Qlt_not_le _ _ H Hle).
Qed.

Lemma nearer_true t l best :
  nearer t l best = true -> (Qabs (l - t) <= Qabs (best - t))%Q.
Proof.
  unfold nearer. rewrite orb_true_iff, andb_true_iff. intros [H|[H _]].
  - apply Qlt_bool_iff in H. now apply Qlt_le_weak.
  - apply Qeq_bool_iff in H. rewrite H. apply Qle_refl.
Qed.

Lemma nearer_false t l best :
  nearer t l best = false -> (Qabs (best - t) <= Qabs (l - t))%Q.
Proof.
  unfold nearer. rewrite orb_false_iff. intros [H _].
  apply Qnot_lt_le. intros Hlt. apply Qlt_bool_iff in Hlt. congruence.
Qed.

Lemma nearest_from_spec t ls :
  forall best k,
    (Qabs (snd (nearest_from t best k ls) - t) <= Qabs (snd best - t))%Q
    /\ (forall x, In x ls -> (Qabs (snd (nearest_from t best k ls) - t) <= Qabs (x - t))%Q)
    /\ (nearest_from t best k ls = best
        \/ exists i, fst (nearest_from t best k ls) = (k + i)%nat
                     /\ nth_error ls i = Some (snd (nearest_from t best k ls))).
Proof.
  induction ls as [|l r IH]; intros best k.
  - cbn. split; [apply Qle_refl|]. split; [intros x []|now left].
  - cbn [nearest_from].
    destruct (IH (if nearer t l (snd best) then (k, l) else best) (S k))
      as (H1 & H2 & H3).
    destruct (nearer t l (snd best)) eqn:Hn; cbn [snd] in H1.
    + split; [eapply Qle_trans; [exact H1|now apply nearer_true]|].
      split.
      * intros x [<-|Hx]; [exact H1|now apply H2].
      * right. destruct H3 as [->|(i & Hi & Hnth)].
        -- exists 0%nat. cbn. split; [lia|reflexivity].
        -- exists (S i). split; [lia|exact Hnth].
    + split; [exact H1|]. split.
      * intros x [<-|Hx]; [|now apply H2].
        eapply Qle_trans; [exact H1|now apply nearer_false].
      * destruct H3 as [->|(i & Hi & Hnth)]; [now left|].
        right. exists (S i). split; [lia|exact Hnth].
Qed.

(** The position found is in the list and no number of the list is nearer
    to the target. *)
Lemma nearest_position_spec t qs p :
  nearest_position t qs = Some p -> nearest_to t qs p.
Proof.
  destruct qs as [|l r]; [discriminate|]. cbn [nearest_position]. intros [= <-].
  destruct (nearest_from_spec t r (0%nat, l) 1) as (H1 & H2 & H3).
  exists (snd (nearest_from t (0%nat, l) 1 r)). split.
  - destruct H3 as [->|(i & -> & Hnth)]; [reflexivity|exact Hnth].
  - intros y [<-|Hy]; [exact H1|now apply H2].
Qed.

Lemma nearest_position_some t qs : qs <> [] -> is_Some (nearest_position t qs).
Proof. destruct qs; [congruence|]. cbn. eauto. Qed.

Lemma numeric_LNum qs : numeric (map LNum qs) = Some qs.
Proof. induction qs as [|q r IH]; cbn; [reflexivity|now rewrite IH]. Qed.

Lemma mem_true_iff d l : mem d l = true <-> In d l.
Proof.
  unfold mem. rewrite existsb_exists. split.
  - intros (x & Hx & He). apply String.eqb_eq in He. now subst.
  - intros H. exists d. split; [assumption|apply String.eqb_refl].
Qed.

Lemma assoc_filter_key {A} (f : string -> bool) k (l : list (string * A)) :
  assoc k (filter (fun p : string * A => f (fst p)) l)
  = if f k then assoc k l else None.
Proof.
  induction l as [|[k' a] l IH]; [now destruct (f k)|].
  rewrite filter_cons. cbn [fst].
  destruct (decide (f k')) as [Hf|Hf].
  - cbn [assoc]. destruct (String.eqb k' k) eqn:E; [|exact IH].
    apply String.eqb_eq in E. subst. apply Is_true_true in Hf. now rewrite Hf.
  - rewrite IH. cbn [assoc]. destruct (String.eqb k' k) eqn:E; [|reflexivity].
    apply String.eqb_eq in E. subst.
    destruct (f k); [exfalso; apply Hf; exact I|reflexivity].
Qed.

Lemma assoc_remove_other {A} k k' (l : list (string * A)) :
  k <> k' -> assoc k (remove_assoc k' l) = assoc k l.
Proof.
  intros Hne. unfold remove_assoc.
  rewrite (assoc_filter_key (fun d => negb (String.eqb d k'))).
  apply String.eqb_neq in Hne. now rewrite Hne.
Qed.

Lemma all_indices_in_one e d ks :
  all_indices_in e [(d, ks)] = map (upd e d) ks.
Proof.
  cbn. induction ks as [|k r IH]; cbn; [reflexivity|now rewrite IH].
Qed.

Lemma sel_nearest_one_ok da dim target qs :
  mem dim (v_dims (da_var da)) = true ->
  assoc dim (da_coords da) = Some (map LNum qs) ->
  qs <> [] -> increasing qs || decreasing qs = true ->
  exists p,
    nearest_to target qs p
    /\ sel_nearest_one da dim target
       = Ok {| da_name := da_name da;
               da_sizes := remove_assoc dim (da_sizes da);
               da_coords := remove_assoc dim (da_coords da);
               da_var :=
                 {| v_dims := filter (fun d => negb (String.eqb d dim))
                                     (v_dims (da_var da));
                    v_data := fun e => v_data (da_var da) (upd e dim p);
                    v_attrs := v_attrs (da_var da) |} |}.
Proof.
  intros Hm Hc Hne Hmono. unfold sel_nearest_one.
  rewrite Hm, Hc, numeric_LNum, Hmono. cbn [negb].
  destruct (nearest_position_some target qs Hne) as [p Hp].
  exists p. split; [now apply nearest_position_spec|]. now rewrite Hp.
Qed.

Lemma mem_filter_other d dim l :
  d <> dim -> mem d (filter (fun d' => negb (String.eqb d' dim)) l) = mem d l.
Proof.
  intros Hne. apply eq_true_iff_eq. rewrite !mem_true_iff, <- !list_elem_of_In.
  rewrite list_elem_of_filter. split; [tauto|]. intros H. split; [|exact H].
  apply String.eqb_neq in Hne. rewrite Hne. exact I.
Qed.

Section Loop.
Variable ds : Dataset.
Variable v : DataVar.
Variables xs ys : list Q.
Variables variable_name region_column municipality_column units : string.

Hypothesis Hvar : assoc variable_name (ds_vars ds) = Some v.
Hypothesis Hlon : mem (lon_dim_of ds) (v_dims v) = true.
Hypothesis Hlat : mem (lat_dim_of ds) (v_dims v) = true.
Hypothesis Htime : mem "time" (v_dims v) = true.
Hypothesis Hxs : assoc (lon_dim_of ds) (ds_coords ds) = Some (map LNum xs).
Hypothesis Hys : assoc (lat_dim_of ds) (ds_coords ds) = Some (map LNum ys).
Hypothesis Hxne : xs <> [].
Hypothesis Hyne : ys <> [].
Hypothesis Hxmono : increasing xs || decreasing xs = true.
Hypothesis Hymono : increasing ys || decreasing ys = true.

Lemma spatial_names_differ :
  lat_dim_of ds <> lon_dim_of ds
  /\ "time" <> lon_dim_of ds /\ "time" <> lat_dim_of ds.
Proof.
  unfold lon_dim_of, lat_dim_of.
  destruct (has_key "lon" (ds_sizes ds)), (has_key "lat" (ds_sizes ds));
    repeat split; discriminate.
Qed.

(** One turn of the loop adds the row of the record. *)
Lemma municipality_step municipality rest results w :
  has_key region_column (f_attrs municipality) = true ->
  has_key municipality_column (f_attrs municipality) = true ->
  exists row,
    row_for ds v xs ys variable_name region_column municipality_column units
            municipality row
    /\ municipality_loop ds variable_name region_column municipality_column units
         (lon_dim_of ds) (lat_dim_of ds) (municipality :: rest) results w
       = municipality_loop ds variable_name region_column municipality_column units
           (lon_dim_of ds) (lat_dim_of ds) rest (results ++ [row]) w.
Proof.
  intros Hr Hm. destruct spatial_names_differ as (Hd1 & Hd2 & Hd3).
  unfold has_key in Hr, Hm.
  destruct (assoc region_column (f_attrs municipality)) as [region|] eqn:Er;
    [|discriminate].
  destruct (assoc municipality_column (f_attrs municipality)) as [municipio|] eqn:Em;
    [|discriminate].
  set (da0 := {| da_name := variable_name;
                 da_sizes := filter (fun p : string * nat => mem (fst p) (v_dims v))
                                    (ds_sizes ds);
                 da_coords := filter (fun p : string * list label =>
                                        mem (fst p) (v_dims v)) (ds_coords ds);
                 da_var := v |}).
  destruct (sel_nearest_one_ok da0 (lon_dim_of ds)
              (fst (g_centroid (f_geometry municipality))) xs)
    as (i & Hi & Hsel1); try assumption.
  { unfold da0. cbn [da_coords].
    rewrite (assoc_filter_key (fun d => mem d (v_dims v))), Hlon. exact Hxs. }
  match type of Hsel1 with _ = Ok ?d => set (da1 := d) in * end.
  destruct (sel_nearest_one_ok da1 (lat_dim_of ds)
              (snd (g_centroid (f_geometry municipality))) ys)
    as (j & Hj & Hsel2); try assumption.
  { unfold da1, da0. cbn [da_var v_dims]. now rewrite mem_filter_other. }
  { unfold da1, da0. cbn [da_coords]. rewrite assoc_remove_other by assumption.
    rewrite (assoc_filter_key (fun d => mem d (v_dims v))), Hlat. exact Hys. }
  match type of Hsel2 with _ = Ok ?d => set (da2 := d) in * end.
  assert (Hred : exists dm,
             da_reduce nanmean da2 ["time"] = Ok dm
             /\ forall e, v_data (da_var dm) e
                          = nanmean (series_at ds v (lon_dim_of ds) (lat_dim_of ds) i j e)).
  { unfold da_reduce. cbn [forallb].
    assert (Ht : mem "time" (v_dims (da_var da2)) = true).
    { unfold da2, da1, da0. cbn [da_var v_dims].
      now rewrite !mem_filter_other by assumption. }
    rewrite Ht. cbn [andb]. eexists. split; [reflexivity|].
    intros e. cbn [da_var v_data map]. rewrite all_indices_in_one, map_map.
    unfold series_at. f_equal. f_equal.
    unfold da2, da1, da0, size_of. cbn [da_sizes].
    rewrite !assoc_remove_other by assumption.
    rewrite (assoc_filter_key (fun d => mem d (v_dims v))), Htime. reflexivity. }
  destruct Hred as (dm & Hred & Hdm).
  exists {| row_region := region; row_municipio := municipio;
            row_mean_column := variable_name ++ "_promedio (" ++ units ++ ")";
            row_mean := dm |}.
  split.
  - unfold row_for. cbn [row_region row_municipio row_mean_column row_mean].
    repeat split; try assumption. exists i, j.
    split; [assumption|]. split; [assumption|].
    intros e. rewrite Hdm. apply nanmean_mean_of.
  - cbn [municipality_loop]. unfold bind at 1, lift at 1, ds_getitem. rewrite Hvar.
    fold da0. unfold bind at 1, lift at 1. cbn [sel_nearest].
    rewrite Hsel1. fold da1. rewrite Hsel2. fold da2.
    unfold bind at 1, lift at 1. rewrite Hred.
    unfold bind at 1, lift at 1, feature_get. rewrite Er.
    unfold bind at 1, lift at 1. rewrite Em. reflexivity.
Qed.

Lemma municipality_loop_rows rows :
  forall results w,
    (forall f, In f rows ->
               has_key region_column (f_attrs f) = true
               /\ has_key municipality_column (f_attrs f) = true) ->
    exists new,
      municipality_loop ds variable_name region_column municipality_column units
        (lon_dim_of ds) (lat_dim_of ds) rows results w
      = (Ok (results ++ new)%list, w)
      /\ Forall2 (row_for ds v xs ys variable_name region_column municipality_column
                          units) rows new.
Proof.
  induction rows as [|f rest IH]; intros results w Hall.
  - exists []. cbn. rewrite app_nil_r. split; [reflexivity|constructor].
  - destruct (Hall f (or_introl eq_refl)) as [Hr Hm].
    destruct (municipality_step f rest results w Hr Hm) as (row & Hrow & Hstep).
    destruct (IH (results ++ [row])%list w) as (new & Hrun & Hnew).
    { intros f' Hf'. apply Hall. now right. }
    exists (row :: new). rewrite Hstep, Hrun, <- app_assoc.
    split; [reflexivity|now constructor].
Qed.
End Loop.

(** Claim C8, as amended.  When the layer and the grid open, the grid
    holds the variable over time and the two spatial dimensions, whose
    coordinates are numbers in strictly monotonic order, and the records
    carry the two label columns, the call returns a table with one row for
    every record of the layer, in the order of the file: the row holds the
    region label, the municipality label and, under the name of the mean
    column, the mean over time of the variable at the cell nearest to the
    centroid of the record: the sum of the numbers of the time steps
    divided by how many they are, and not a number when no step holds
    one.  The world is left as it was: no file is written. *)
Theorem municipality_means
    shapefile_path netcdf_file variable_name region_column municipality_column units
    (w : World) (municipalities : Layer) (ds : Dataset) (v : DataVar) (xs ys : list Q) :
  fs w !! shapefile_path = Some (Shapefile municipalities) ->
  fs w !! netcdf_file = Some (NetCDF ds) ->
  assoc variable_name (ds_vars ds) = Some v ->
  mem (lon_dim_of ds) (v_dims v) = true ->
  mem (lat_dim_of ds) (v_dims v) = true ->
  mem "time" (v_dims v) = true ->
  assoc (lon_dim_of ds) (ds_coords ds) = Some (map LNum xs) ->
  assoc (lat_dim_of ds) (ds_coords ds) = Some (map LNum ys) ->
  xs <> [] -> ys <> [] ->
  increasing xs || decreasing xs = true ->
  increasing ys || decreasing ys = true ->
  (forall f, In f (l_features municipalities) ->
             has_key region_column (f_attrs f) = true
             /\ has_key municipality_column (f_attrs f) = true) ->
  exists df,
    calculate_daily_mean_per_municipality shapefile_path netcdf_file variable_name
      region_column municipality_column units w
    = (Ok df, w)
    /\ length (df_rows df) = length (l_features municipalities)
    /\ Forall2 (row_for ds v xs ys variable_name region_column municipality_column units)
               (l_features municipalities) (df_rows df).
Proof.
  intros Hshp Hnc Hvar Hlon Hlat Htime Hxs Hys Hxne Hyne Hxm Hym Hall.
  destruct (municipality_loop_rows ds v xs ys variable_name region_column
              municipality_column units Hvar Hlon Hlat Htime Hxs Hys Hxne Hyne Hxm Hym
              (l_features municipalities) [] w Hall) as (rows & Hrun & Hrows).
  exists {| df_rows := rows |}. split; [|split].
  - unfold calculate_daily_mean_per_municipality.
    unfold bind at 1, gpd_read_file. rewrite Hshp.
    unfold bind at 1, xr_open_dataset. rewrite Hnc.
    unfold ds_contains, has_key at 1. rewrite Hvar. cbn [orb negb].
    unfold bind at 1. fold (lon_dim_of ds) (lat_dim_of ds). rewrite Hrun. reflexivity.
  - cbn [df_rows]. symmetry. exact (Forall2_length _ _ _ Hrows).
  - exact Hrows.
Qed.

Lemma municipality_means_witness :
  exists df,
    calculate_daily_mean_per_municipality "municipios.shp" "temp.nc" "air_temperature"
      "NAME_1" "NAME_2" "grados" world_grid
    = (Ok df, world_grid)
    /\ length (df_rows df) = length (l_features two_municipalities)
    /\ Forall2 (row_for temperature_grid
                        {| v_dims := ["time"; "lat"; "lon"];
                           v_data := fun e => Some (inject_Z (Z.of_nat
                                               (e "time" + 10 * e "lat" + 100 * e "lon")));
                           v_attrs := [("units", "degree_Celsius")] |}
                        [(-88)%Q; (-87)%Q] [14%Q; 15%Q]
                        "air_temperature" "NAME_1" "NAME_2" "grados")
               (l_features two_municipalities) (df_rows df).
Proof.
  apply (municipality_means "municipios.shp" "temp.nc" "air_temperature"
           "NAME_1" "NAME_2" "grados" world_grid two_municipalities temperature_grid);
    try reflexivity; try discriminate.
  intros f Hf. cbn in Hf. destruct Hf as [<-|[<-|[]]]; split; reflexivity.
Defined.

(** Claim C8 as stated fails: the grid holds the variable asked for, but
    the variable has no time dimension; the mean over time raises and no
    table is returned. *)
Lemma calculate_daily_mean_per_municipality_no_time :
  ds_contains elevation_grid "elevation" = true
  /\ calculate_daily_mean_per_municipality "municipios.shp" "elevation.nc" "elevation"
       "NAME_1" "NAME_2" "m" world_elevation
     = (Raise (ValueError "dimension not found in data dimensions"), world_elevation).
Proof. split; vm_compute; reflexivity. Qed.

(** On the example: the first municipality lies nearest to the first row
    and column, the second to the second; the means over the three days. *)
Example municipality_means_example :
  match fst (calculate_daily_mean_per_municipality "municipios.shp" "temp.nc"
               "air_temperature" "NAME_1" "NAME_2" "grados" world_grid) with
  | Ok df =>
      map (fun row => (row_region row, row_municipio row, row_mean_column row,
                       option_map Qred (v_data (da_var (row_mean row)) origin)))
          (df_rows df)
      = [(LStr "Copan", LStr "Santa Rosa", "air_temperature_promedio (grados)",
          Some 1%Q);
         (LStr "Yoro", LStr "Olanchito", "air_temperature_promedio (grados)",
          Some 111%Q)]
  | Raise _ => False
  end.
Proof. vm_compute. reflexivity. Qed.
End AveragerFacts.

Section ClipperFacts.
Import Xr Clipper.

Lemma locate_ones steps k :
  Forall (fun n => n = 1%nat) steps -> (k < length steps)%nat ->
  locate steps k = (k, 0%nat).
Proof.
  intros H. revert k. induction H as [|n steps -> _ IH]; intros k Hk; [cbn in Hk; lia|].
  cbn [locate]. destruct k as [|k]; [reflexivity|].
  cbn. cbn in Hk. rewrite Nat.sub_0_r, IH by lia. reflexivity.
Qed.

Lemma xr_concat_nonempty datasets first rest dim :
  datasets = first :: rest ->
  forallb (fun ds => has_key dim (ds_coords ds)) datasets
  || forallb (fun ds => negb (has_key dim (ds_coords ds))) datasets = true ->
  xr_concat datasets dim
  = Ok {| ds_sizes := (dim, list_sum (map (steps_along dim) datasets))
                      :: remove_assoc dim (ds_sizes first);
          ds_coords :=
            (if forallb (fun ds => has_key dim (ds_coords ds)) datasets
             then [(dim, flat_map (fun ds => default [] (assoc dim (ds_coords ds)))
                                  datasets)]
             else [])
            ++ remove_assoc dim (ds_coords first);
          ds_vars :=
            map (fun nv =>
                   (fst nv,
                    {| v_dims := if mem dim (v_dims (snd nv)) then v_dims (snd nv)
                                 else dim :: v_dims (snd nv);
                       v_data := fun e =>
                         let '(p, j) := locate (map (steps_along dim) datasets) (e dim) in
                         match nth_error datasets p with
                         | Some piece =>
                             match assoc (fst nv) (ds_vars piece) with
                             | Some v0 => v_data v0 (upd e dim j)
                             | None => None
                             end
                         | None => None
                         end;
                       v_attrs := v_attrs (snd nv) |}))
                (ds_vars first);
          ds_attrs := ds_attrs first |}.
Proof.
  intros -> Hu. unfold xr_concat. rewrite Hu. reflexivity.
Qed.

Lemma no_coordinate_uniform (datasets : list Dataset) dim :
  Forall (fun ds => has_key dim (ds_coords ds) = false) datasets ->
  forallb (fun ds => has_key dim (ds_coords ds)) datasets
  || forallb (fun ds => negb (has_key dim (ds_coords ds))) datasets = true.
Proof.
  intros Hno. apply orb_true_intro. right.
  apply forallb_forall. intros d Hd. rewrite Forall_forall in Hno.
  rewrite (Hno d) by apply list_elem_of_In, Hd. reflexivity.
Qed.

(** The clip of variables that all lie over the two spatial dimensions of
    a grid with cells and a coordinate system. *)
Lemma clip_vars_spatial x_dim y_dim g (d : Dataset) vars :
  has_key "spatial_ref" (ds_attrs d) = true ->
  size_of (ds_sizes d) x_dim <> 0%nat -> size_of (ds_sizes d) y_dim <> 0%nat ->
  Forall (fun nv : string * DataVar => spatial x_dim y_dim (snd nv) = true) vars ->
  clip_vars x_dim y_dim g d vars
  = Ok (map (fun nv => (fst nv, clip_var x_dim y_dim g d (snd nv))) vars).
Proof.
  intros Hcrs Hx Hy. induction 1 as [|nv vars Hsp _ IH]; [reflexivity|].
  cbn [clip_vars map]. rewrite Hsp, Hcrs. cbn [negb].
  apply Nat.eqb_neq in Hx, Hy. rewrite Hx, Hy. cbn [orb]. rewrite IH. reflexivity.
Qed.

Section Grid.
Variable to_crs : string -> string -> Geometry -> Geometry.
Variable ds : Dataset.
Variable data_var : string.
Variable v : DataVar.
Variable others : list (string * DataVar).

Hypothesis Hvars : ds_vars ds = (data_var, v) :: others.
Hypothesis Hcrs : has_key "crs" (ds_attrs ds) = false.
Hypothesis Hlon : mem (lon_dim_of ds) (v_dims v) = true.
Hypothesis Hlat : mem (lat_dim_of ds) (v_dims v) = true.
Hypothesis Hothers :
  Forall (fun nv : string * DataVar =>
            spatial (lon_dim_of ds) (lat_dim_of ds) (snd nv) = true) others.
Hypothesis Hnx : size_of (ds_sizes ds) (lon_dim_of ds) <> 0%nat.
Hypothesis Hny : size_of (ds_sizes ds) (lat_dim_of ds) <> 0%nat.

(** The grid as the loop sees it: the coordinate system may have been
    written to it. *)
Let ds' : Dataset :=
  if negb (has_key "crs" (ds_attrs ds)) then rio_write_crs "EPSG:4326" ds else ds.

Lemma written_same :
  ds_sizes ds' = ds_sizes ds /\ ds_coords ds' = ds_coords ds /\ ds_vars ds' = ds_vars ds.
Proof. unfold ds'. destruct (negb _); repeat split; reflexivity. Qed.

Lemma written_crs : has_key "spatial_ref" (ds_attrs ds') = true /\ rio_crs ds' = "EPSG:4326".
Proof.
  unfold ds'. rewrite Hcrs. cbn [negb]. unfold rio_crs, has_key, rio_write_crs.
  cbn [ds_attrs]. now rewrite assoc_set_assoc.
Qed.

Lemma grid_crs_default : grid_crs ds = "EPSG:4326".
Proof. unfold grid_crs. fold ds'. exact (proj2 written_crs). Qed.

Lemma region_geometry_projected regions f :
  region_geometry to_crs ds regions f = projected to_crs regions f.
Proof. unfold region_geometry, projected. now rewrite grid_crs_default. Qed.

Lemma region_slice_data g e :
  v_data (da_var (region_slice ds data_var v g)) e = clipped_cell ds v g e.
Proof.
  unfold region_slice, clipped_cell. cbn [da_var v_data].
  destruct (cell_covered ds g e); [|reflexivity]. now destruct (v_data v e).
Qed.

Lemma spatial_first : spatial (lon_dim_of ds) (lat_dim_of ds) v = true.
Proof. unfold spatial. now rewrite Hlon, Hlat. Qed.

(** One turn of the loop adds the slice and the label of the record. *)
Lemma regions_step name_column region rest clipped names w l :
  assoc name_column (f_attrs region) = Some l ->
  regions_loop ds' (lon_dim_of ds) (lat_dim_of ds) data_var name_column
               (region :: rest) clipped names w
  = regions_loop ds' (lon_dim_of ds) (lat_dim_of ds) data_var name_column rest
      (clipped ++ [region_slice ds data_var v (f_geometry region)])
      (names ++ [l]) w.
Proof.
  intros Hl. pose proof spatial_first as Hsp.
  destruct written_same as (Hs & Hc & Hv).
  cbn [regions_loop]. unfold bind at 1, lift at 1, rio_clip.
  rewrite (clip_vars_spatial (lon_dim_of ds) (lat_dim_of ds) (f_geometry region) ds').
  2: exact (proj1 written_crs).
  2, 3: rewrite Hs; assumption.
  2: { rewrite Hv, Hvars. constructor; assumption. }
  unfold bind at 1, lift at 1, ds_getitem. cbn [ds_vars].
  rewrite Hv, Hvars. cbn [map snd fst assoc].
  rewrite String.eqb_refl.
  unfold bind at 1, lift at 1, feature_get. rewrite Hl.
  unfold bind at 1, lift at 1.
  unfold xr_where, da_notnull, region_slice, cell_covered, clip_var.
  cbn [da_name da_sizes da_coords da_var v_dims v_data b_test ds_sizes ds_coords].
  rewrite Hs, Hc. reflexivity.
Qed.

Lemma regions_loop_slices name_column rows :
  forall clipped names w,
    (forall f, In f rows -> has_key name_column (f_attrs f) = true) ->
    exists labels,
      regions_loop ds' (lon_dim_of ds) (lat_dim_of ds) data_var name_column
                   rows clipped names w
      = (Ok ((clipped ++ map (fun f => region_slice ds data_var v (f_geometry f)) rows)%list,
             (names ++ labels)%list), w)
      /\ map Some labels = map (fun f => assoc name_column (f_attrs f)) rows.
Proof.
  induction rows as [|f rest IH]; intros clipped names w Hall.
  - exists []. cbn. rewrite !app_nil_r. split; reflexivity.
  - pose proof (Hall f (or_introl eq_refl)) as Hk. unfold has_key in Hk.
    destruct (assoc name_column (f_attrs f)) as [l|] eqn:Hl; [|discriminate].
    destruct (IH (clipped ++ [region_slice ds data_var v (f_geometry f)])%list
                 (names ++ [l])%list w) as (labels & Hrun & Hlab).
    { intros f' Hf'. apply Hall. now right. }
    exists (l :: labels). rewrite (regions_step _ _ _ _ _ _ _ Hl), Hrun.
    rewrite <- !app_assoc. cbn [map app]. rewrite Hl, Hlab. split; reflexivity.
Qed.

Hypothesis Hregion : mem "region" (v_dims v) = false.

Lemma slice_has_no_region g :
  assoc "region" (ds_sizes (da_to_dataset (region_slice ds data_var v g))) = None
  /\ has_key "region" (ds_coords (da_to_dataset (region_slice ds data_var v g))) = false.
Proof.
  unfold da_to_dataset, region_slice, has_key. cbn [ds_sizes ds_coords da_sizes da_coords].
  rewrite (assoc_filter_key (fun d => mem d (v_dims v))).
  rewrite (assoc_filter_key (fun d => mem d (v_dims v))).
  now rewrite Hregion.
Qed.

Lemma projected_features regions :
  l_features (if String.eqb (rio_crs ds') (l_crs regions) then regions
              else layer_to_crs to_crs (rio_crs ds') regions)
  = map (fun f => {| f_geometry := region_geometry to_crs ds regions f;
                     f_attrs := f_attrs f |})
        (l_features regions).
Proof.
  unfold region_geometry, grid_crs. fold ds'.
  destruct (String.eqb (rio_crs ds') (l_crs regions)).
  - induction (l_features regions) as [|[g a] l IH]; [reflexivity|].
    cbn [map f_geometry f_attrs]. now rewrite <- IH.
  - reflexivity.
Qed.

(** The run of the clipper, slice by slice. *)
Lemma regions_crop_slices
    file_to_be_cropped shapefile output_file name_column (w : World) (regions : Layer) :
  fs w !! file_to_be_cropped = Some (NetCDF ds) ->
  fs w !! shapefile = Some (Shapefile regions) ->
  l_features regions <> [] ->
  (forall f, In f (l_features regions) -> has_key name_column (f_attrs f) = true) ->
  exists out out_v labels,
    regions_crop to_crs file_to_be_cropped shapefile output_file name_column w
    = (Ok output_file,
       {| fs := <[output_file := NetCDF out]> (fs w);
          stdout := stdout w ++ [repr ds];
          probed := probed w |})
    /\ assoc "region" (ds_sizes out) = Some (length (l_features regions))
    /\ assoc "region" (ds_coords out) = Some labels
    /\ map Some labels = map (fun f => assoc name_column (f_attrs f)) (l_features regions)
    /\ ds_vars out = [(data_var, out_v)]
    /\ (forall k f e,
          nth_error (l_features regions) k = Some f -> e "region" = k ->
          v_data out_v e
          = clipped_cell ds v (region_geometry to_crs ds regions f) (upd e "region" 0))
    /\ (forall e,
          (e "region" < length (l_features regions))%nat ->
          (forall f, In f (l_features regions) ->
                     cell_covered ds (region_geometry to_crs ds regions f)
                                  (upd e "region" 0) = false) ->
          v_data out_v e = None).
Proof.
  intros Hnc Hshp Hne Hall.
  destruct written_same as (Hs & Hc & Hv).
  set (rows := map (fun f => {| f_geometry := region_geometry to_crs ds regions f;
                                f_attrs := f_attrs f |}) (l_features regions)).
  destruct (regions_loop_slices name_column rows [] [] 
              {| fs := fs w; stdout := stdout w ++ [repr ds]; probed := probed w |})
    as (labels & Hrun & Hlab).
  { intros f Hf. apply in_map_iff in Hf as (f0 & <- & Hf0). cbn [f_attrs]. now apply Hall. }
  assert (Hlab' : map Some labels
                  = map (fun f => assoc name_column (f_attrs f)) (l_features regions)).
  { rewrite Hlab. unfold rows. rewrite map_map. reflexivity. }
  assert (Hlen : length labels = length (l_features regions)).
  { apply (f_equal (@length _)) in Hlab'. now rewrite !length_map in Hlab'. }
  set (slices := map (fun f => region_slice ds data_var v (f_geometry f)) rows) in *.
  set (pieces := map da_to_dataset slices).
  assert (Hsteps : Forall (fun n => n = 1%nat) (map (steps_along "region") pieces)).
  { unfold pieces, slices. rewrite !map_map. apply Forall_forall. intros n Hn.
    apply list_elem_of_In, in_map_iff in Hn as (f & <- & _). unfold steps_along.
    now destruct (slice_has_no_region (f_geometry f)) as [-> _]. }
  assert (Hplen : length pieces = length (l_features regions)).
  { unfold pieces, slices, rows. now rewrite !length_map. }
  destruct (l_features regions) as [|f0 frest] eqn:Hfeat; [congruence|].
  assert (Hp : pieces
               = da_to_dataset (region_slice ds data_var v
                                  (region_geometry to_crs ds regions f0))
                 :: map da_to_dataset
                      (map (fun f => region_slice ds data_var v (f_geometry f))
                           (map (fun f => {| f_geometry := region_geometry to_crs ds
                                                             regions f;
                                             f_attrs := f_attrs f |}) frest)))
    by reflexivity.
  set (out_v := {| v_dims := "region" :: v_dims v;
                   v_data := fun e =>
                     let '(p, j) := locate (map (steps_along "region") pieces)
                                           (e "region") in
                     match nth_error pieces p with
                     | Some piece =>
                         match assoc data_var (ds_vars piece) with
                         | Some v0 => v_data v0 (upd e "region" j)
                         | None => None
                         end
                     | None => None
                     end;
                   v_attrs := [] |}).
  eexists _, out_v, labels. split; [|split; [|split; [|split; [|split; [|split]]]]].
  - unfold regions_crop. unfold bind at 1, xr_open_dataset. rewrite Hnc.
    unfold bind at 1, print, modify. fold ds'.
    rewrite Hs. fold (lon_dim_of ds) (lat_dim_of ds).
    unfold bind at 1, lift at 1, rio_set_spatial_dims. rewrite Hs.
    assert (Hk : has_key (lon_dim_of ds) (ds_sizes ds)
                 && has_key (lat_dim_of ds) (ds_sizes ds) = true).
    { unfold has_key, size_of in *.
      destruct (assoc (lon_dim_of ds) (ds_sizes ds)); [|contradiction].
      destruct (assoc (lat_dim_of ds) (ds_sizes ds)); [|contradiction]. reflexivity. }
    rewrite Hk. unfold bind at 1, gpd_read_file. cbn [fs]. rewrite Hshp.
    unfold bind at 1, lift at 1. rewrite Hv, Hvars. cbn [fst].
    unfold bind at 1. rewrite projected_features, Hfeat. fold rows.
    rewrite Hrun. cbn [fst snd app].
    fold slices. fold pieces.
    unfold bind at 1, lift at 1.
    rewrite (xr_concat_nonempty pieces _ _ "region" Hp).
    2: { apply no_coordinate_uniform.
         unfold pieces, slices. rewrite !Forall_map. apply Forall_forall. intros f _.
         exact (proj2 (slice_has_no_region (f_geometry f))). }
    unfold bind at 1, lift at 1, ds_set_coord. cbn [ds_sizes assoc].
    cbn [String.eqb Ascii.eqb Bool.eqb].
    pose proof (list_sum_ones (steps_along "region") pieces (proj1 (Forall_map _ _ _) Hsteps)) as Hsum.
    rewrite Hsum.
    rewrite Hplen, Hlen, Nat.eqb_refl.
    unfold bind, to_netcdf, write_file, modify, ret. cbn [fs stdout probed].
    cbn [ds_sizes ds_coords ds_vars ds_attrs da_to_dataset region_slice da_name da_var
         map fst snd v_dims v_attrs].
    rewrite Hregion. reflexivity.
  - reflexivity.
  - cbn [ds_coords]. apply assoc_set_assoc.
  - exact Hlab'.
  - cbn [ds_vars map fst snd]. reflexivity.
  - intros k f e Hk He. unfold out_v. cbn [v_data].
    assert (Hkl : (k < length (map (steps_along "region") pieces))%nat).
    { rewrite length_map, Hplen. apply nth_error_Some. congruence. }
    rewrite He, (locate_ones _ _ Hsteps Hkl).
    unfold pieces, slices, rows. rewrite !map_map, nth_error_map, Hk.
    cbn [option_map da_to_dataset ds_vars region_slice da_name da_var assoc f_geometry].
    rewrite String.eqb_refl.
    apply (region_slice_data (region_geometry to_crs ds regions f)).
  - intros e He Hout.
    destruct (nth_error (f0 :: frest) (e "region")) as [f|] eqn:Hf;
      [|apply nth_error_None in Hf; lia].
    unfold out_v. cbn [v_data].
    assert (Hkl : (e "region" < length (map (steps_along "region") pieces))%nat).
    { now rewrite length_map, Hplen. }
    rewrite (locate_ones _ _ Hsteps Hkl).
    unfold pieces, slices, rows. rewrite !map_map, nth_error_map, Hf.
    cbn [option_map da_to_dataset ds_vars region_slice da_name da_var assoc f_geometry].
    rewrite String.eqb_refl.
    rewrite (region_slice_data (region_geometry to_crs ds regions f)).
    unfold clipped_cell. rewrite Hout; [reflexivity|].
    eapply nth_error_In. exact Hf.
Qed.

Lemma upd_region_other e d :
  d = lon_dim_of ds \/ d = lat_dim_of ds -> upd e "region" 0%nat d = e d.
Proof.
  unfold upd, lon_dim_of, lat_dim_of.
  destruct (has_key "lon" (ds_sizes ds)), (has_key "lat" (ds_sizes ds));
    intros [-> | ->]; reflexivity.
Qed.

(** Where the spatial coordinates are numbers, a cell is covered when
    the geometry covers the point of its two coordinates. *)
Lemma cell_covered_at xs ys g e x y :
  assoc (lon_dim_of ds) (ds_coords ds) = Some (map LNum xs) ->
  assoc (lat_dim_of ds) (ds_coords ds) = Some (map LNum ys) ->
  nth_error xs (e (lon_dim_of ds)) = Some x ->
  nth_error ys (e (lat_dim_of ds)) = Some y ->
  cell_covered ds g (upd e "region" 0%nat) = g_covers g x y.
Proof.
  intros Hxs Hys Hx Hy. unfold cell_covered, coord_number.
  rewrite Hxs, Hys.
  rewrite (upd_region_other e (lon_dim_of ds)) by now left.
  rewrite (upd_region_other e (lat_dim_of ds)) by now right.
  rewrite !nth_error_map, Hx, Hy. reflexivity.
Qed.

End Grid.



(** On the example: the labels of the output, and the first time step of
    the two slices, row by row. *)
Example regions_crop_example :
  match regions_crop (fun _ _ g => g) "temp.nc" "regiones.shp" "regiones.nc" "Nombre"
                     world_regions with
  | (Ok path, w) =>
      path = "regiones.nc"
      /\ match fs w !! "regiones.nc" with
         | Some (NetCDF out) =>
             ds_sizes out = [("region", 2%nat); ("time", 3%nat); ("lat", 2%nat);
                             ("lon", 2%nat)]
             /\ assoc "region" (ds_coords out) = Some [LStr "Occidente"; LStr "Norte"]
             /\ match assoc "air_temperature" (ds_vars out) with
                | Some out_v =>
                    map (fun '(r, j, i) =>
                           option_map Qred
                             (v_data out_v (upd (upd (upd origin "region" r) "lat" j)
                                                "lon" i)))
                        [(0, 0, 0); (0, 0, 1); (0, 1, 0); (0, 1, 1);
                         (1, 0, 0); (1, 0, 1); (1, 1, 0); (1, 1, 1)]%nat
                    = [Some 0%Q; None; None; None; None; None; None; Some 110%Q]
                | None => False
                end
         | _ => False
         end
  | _ => False
  end.
Proof. vm_compute. repeat split; reflexivity. Qed.
End ClipperFacts.

Section MaskerFacts.
Import Xr Masker.

Lemma index_ext (e e' : index) : (forall d, e d = e' d) -> e = e'.
Proof. apply functional_extensionality. Qed.

Lemma upd_same e d k d' : d' = d -> upd e d k d' = k.
Proof. intros ->. unfold upd. now rewrite String.eqb_refl. Qed.

Lemma upd_other e d k d' : d' <> d -> upd e d k d' = e d'.
Proof. intros H. unfold upd. apply String.eqb_neq in H. now rewrite H. Qed.

(** The positions [all_indices_in] lists: one of the choices along each
    listed dimension, the others as in the position it starts from. *)
Lemma in_all_indices_in choices :
  forall e0 e,
    NoDup (map fst choices) ->
    (In e (all_indices_in e0 choices)
     <-> (forall d ks, In (d, ks) choices -> In (e d) ks)
         /\ (forall d, ~ In d (map fst choices) -> e d = e0 d)).
Proof.
  induction choices as [|[d ks] r IH]; intros e0 e Hnd.
  - cbn. split.
    + intros [<-|[]]. split; [intros ? ? []|reflexivity].
    + intros [_ H]. left. symmetry. apply index_ext. intros d. apply H. tauto.
  - cbn [all_indices_in map fst] in *. apply NoDup_cons in Hnd as [Hd Hnd].
    rewrite list_elem_of_In in Hd.
    rewrite in_flat_map. split.
    + intros (k & Hk & He). apply (IH _ _ Hnd) in He as [Hin Hout]. split.
      * intros d' ks' [Heq|Hr]; [|now apply Hin].
        injection Heq as <- <-. rewrite (Hout d Hd). now rewrite upd_same.
      * intros d' Hd'. rewrite Hout by (intros ?; apply Hd'; now right).
        apply upd_other. intros ->. apply Hd'. now left.
    + intros [Hin Hout]. exists (e d). split; [apply Hin; now left|].
      apply (IH _ _ Hnd). split.
      * intros d' ks' Hr. apply Hin. now right.
      * intros d' Hd'. destruct (String.eqb_spec d' d) as [->|Hne].
        -- now rewrite upd_same.
        -- rewrite upd_other by assumption. apply Hout. intros [Heq|Hr]; [congruence|contradiction].
Qed.

Lemma filter_positions (P : nat * nat -> bool) l :
  filter P (map (fun k : nat => (k, k)) l)
  = map (fun k : nat => (k, k)) (filter (fun k => P (k, k)) l).
Proof.
  induction l as [|k l IH]; [reflexivity|].
  cbn [map]. rewrite !filter_cons. destruct (decide (P (k, k))); cbn [map]; now rewrite IH.
Qed.

Lemma join_positions_same ls : join_positions ls ls = positions (length ls).
Proof. unfold join_positions. now rewrite bool_decide_eq_true_2. Qed.

Lemma map_snd_positions n : map snd (positions n) = seq 0 n.
Proof. unfold positions. rewrite map_map. cbn [snd]. apply map_id. Qed.

Lemma filter_seq_sorted (P : nat -> bool) n :
  forall a, StronglySorted lt (filter P (seq a n)).
Proof.
  induction n as [|n IH]; intros a; [constructor|].
  cbn [seq]. rewrite filter_cons. destruct (decide _); [|apply IH].
  constructor; [apply IH|]. apply List.Forall_forall. intros x Hx.
  apply list_elem_of_In, list_elem_of_filter in Hx as [_ Hx].
  apply list_elem_of_In, in_seq in Hx. lia.
Qed.

Section Mask.
Variables ds ds_mask : Dataset.
Variable m : DataVar.

Hypothesis Hmask : assoc "mask" (ds_vars ds_mask) = Some m.
Hypothesis Hnodup : NoDup (v_dims m).
Hypothesis Hgrid : same_grid ds ds_mask (v_dims m).

(** The condition of the selection: the mask variable equals one. *)
Let cond : BoolArray :=
  da_eq {| da_name := "mask";
           da_sizes := filter (fun p : string * nat => mem (fst p) (v_dims m))
                              (ds_sizes ds_mask);
           da_coords := filter (fun p : string * list label => mem (fst p) (v_dims m))
                               (ds_coords ds_mask);
           da_var := m |} 1%Q.

(** The positions of the data kept along a dimension. *)
Let pos (d : string) : list nat :=
  filter (fun k : nat =>
            existsb (fun e => mask_one m (upd e d k))
              (all_indices_in origin
                 (map (fun d' => (d', seq 0 (size_of (ds_sizes ds) d')))
                      (filter (fun d' => negb (String.eqb d' d)) (v_dims m)))))
         (seq 0 (size_of (ds_sizes ds) d)).

Lemma aligned_grid d :
  In d (v_dims m) -> aligned ds cond d = positions (size_of (ds_sizes ds) d).
Proof.
  intros Hd. destruct (Hgrid d Hd) as (ls & Hc & Hcm & Hs).
  unfold aligned, cond, da_eq. cbn [b_coords da_coords].
  rewrite (assoc_filter_key (fun d => mem d (v_dims m))).
  apply mem_true_iff in Hd. rewrite Hd, Hc, Hcm, join_positions_same.
  unfold size_of. now rewrite Hs.
Qed.

Lemma choices_grid d :
  map (fun d' => (d', map snd (aligned ds cond d')))
      (filter (fun d' => negb (String.eqb d' d)) (b_dims cond))
  = map (fun d' => (d', seq 0 (size_of (ds_sizes ds) d')))
        (filter (fun d' => negb (String.eqb d' d)) (v_dims m)).
Proof.
  cbn [cond da_eq b_dims da_var]. apply map_ext_in. intros d' Hd'.
  apply list_elem_of_In, list_elem_of_filter in Hd' as [_ Hd'].
  apply list_elem_of_In in Hd'. now rewrite (aligned_grid d' Hd'), map_snd_positions.
Qed.

Lemma kept_grid d :
  In d (v_dims m) -> kept ds cond d = map (fun k : nat => (k, k)) (pos d).
Proof.
  intros Hd. unfold kept. rewrite choices_grid, (aligned_grid d Hd).
  unfold positions. rewrite filter_positions. reflexivity.
Qed.

Lemma others_nodup d :
  NoDup (map fst (map (fun d' => (d', seq 0 (size_of (ds_sizes ds) d')))
                      (filter (fun d' => negb (String.eqb d' d)) (v_dims m)))).
Proof. rewrite map_map. cbn [fst]. rewrite map_id. now apply NoDup_filter. Qed.

Lemma in_others d d' :
  In d' (filter (fun d' => negb (String.eqb d' d)) (v_dims m))
  <-> In d' (v_dims m) /\ d' <> d.
Proof.
  rewrite <- !list_elem_of_In, list_elem_of_filter.
  destruct (String.eqb_spec d' d); cbn; intuition.
Qed.

(** A position is kept along a dimension when the mask holds a one
    somewhere at that position. *)
Lemma pos_spec d k :
  In d (v_dims m) ->
  (In k (pos d)
   <-> exists e, on_grid ds (v_dims m) e /\ e d = k /\ mask_one m e = true).
Proof.
  intros Hd. unfold pos.
  rewrite <- list_elem_of_In, list_elem_of_filter, list_elem_of_In, in_seq.
  rewrite Is_true_true, existsb_exists. split.
  - intros [(e & He & Hone) Hk].
    apply (in_all_indices_in _ _ _ (others_nodup d)) in He as [Hin Hout].
    exists (upd e d k). split; [|split; [now apply upd_same|exact Hone]].
    intros d'. destruct (String.eqb_spec d' d) as [->|Hne].
    + apply mem_true_iff in Hd. rewrite Hd, upd_same by reflexivity. lia.
    + rewrite upd_other by assumption.
      destruct (mem d' (v_dims m)) eqn:Hmem.
      * apply mem_true_iff in Hmem.
        assert (Hc : In (d', seq 0 (size_of (ds_sizes ds) d'))
                       (map (fun d' => (d', seq 0 (size_of (ds_sizes ds) d')))
                            (filter (fun d' => negb (String.eqb d' d)) (v_dims m)))).
        { apply in_map_iff. exists d'. split; [reflexivity|]. now apply in_others. }
        apply Hin, in_seq in Hc. lia.
      * apply Hout. rewrite map_map. cbn [fst]. rewrite map_id, in_others.
        intros [Hmem' _]. apply mem_true_iff in Hmem'. congruence.
  - intros (e & Hgr & <- & Hone). split.
    + exists (upd e d 0). split.
      * apply (in_all_indices_in _ _ _ (others_nodup d)). split.
        -- intros d' ks Hc. apply in_map_iff in Hc as (d0 & Heq & Hd0).
           injection Heq as <- <-. apply in_others in Hd0 as [Hd0 Hne].
           rewrite upd_other by assumption. pose proof (Hgr d0) as H0.
           apply mem_true_iff in Hd0. rewrite Hd0 in H0. apply in_seq. lia.
        -- intros d' Hd'. rewrite map_map in Hd'. cbn [fst] in Hd'.
           rewrite map_id, in_others in Hd'.
           destruct (String.eqb_spec d' d) as [->|Hne]; [now apply upd_same|].
           rewrite upd_other by assumption. pose proof (Hgr d') as H0.
           destruct (mem d' (v_dims m)) eqn:Hmem; [|exact H0].
           apply mem_true_iff in Hmem. tauto.
      * replace (upd (upd e d 0) d (e d)) with e; [exact Hone|].
        apply index_ext. intros d'. unfold upd.
        destruct (String.eqb_spec d' d) as [->|Hne]; reflexivity.
    + pose proof (Hgr d) as H0. apply mem_true_iff in Hd. rewrite Hd in H0. lia.
Qed.

Lemma pos_sorted d : StronglySorted lt (pos d).
Proof. apply filter_seq_sorted. Qed.

Lemma kept_source e :
  kept_ds ds cond e = source_position (v_dims m) pos e
  /\ kept_cond ds cond e = source_position (v_dims m) pos e.
Proof.
  split; apply index_ext; intros d; unfold kept_ds, kept_cond, source_position;
    cbn [cond da_eq b_dims da_var];
    (destruct (mem d (v_dims m)) eqn:Hmem; [|reflexivity]);
    apply mem_true_iff in Hmem; rewrite (kept_grid d Hmem).
  - now rewrite (map_nth (fun k : nat => (k, k)) (pos d) 0%nat (e d)).
  - now rewrite (map_nth (fun k : nat => (k, k)) (pos d) 0%nat (e d)).
Qed.

Lemma where_drop_checks :
  forallb (fun d => has_key d (ds_sizes ds)) (b_dims cond) = true
  /\ forallb (alignable ds cond) (b_dims cond) = true.
Proof.
  split; apply forallb_forall; intros d Hd; cbn [cond da_eq b_dims da_var] in Hd;
    destruct (Hgrid d Hd) as (ls & Hc & Hcm & Hs).
  - unfold has_key. now rewrite Hs.
  - unfold alignable, cond, da_eq. cbn [b_coords da_coords].
    rewrite (assoc_filter_key (fun d => mem d (v_dims m))).
    apply mem_true_iff in Hd. now rewrite Hd, Hc, Hcm.
Qed.

(** Claim C1, as amended.  When the mask lies on the grid of the data
    and holds a one somewhere on it, no dimension of the data is empty,
    and the output is neither of the two input files, the masker writes
    a dataset in which, along each dimension of the mask, exactly the
    positions remain at which the mask holds a one somewhere, in their
    order, with their coordinate labels, and at least one of them; a
    cell of the output holds the value of the data where the mask is
    one and not-a-number elsewhere.  So every coordinate where the mask
    is one is in the output, and the cell of a zero stays in it, as
    not-a-number, whenever each of its positions holds a one
    elsewhere. *)
Theorem country_crop_keeps file_to_be_cropped mask_file output_file (w : World) :
  fs w !! file_to_be_cropped = Some (NetCDF ds) ->
  fs w !! mask_file = Some (NetCDF ds_mask) ->
  output_file <> file_to_be_cropped -> output_file <> mask_file ->
  Forall (fun dn : string * nat => snd dn <> 0%nat) (ds_sizes ds) ->
  (exists e, on_grid ds (v_dims m) e /\ mask_one m e = true) ->
  exists out kept_positions,
    country_crop file_to_be_cropped mask_file output_file w
    = (Ok tt, {| fs := <[output_file := NetCDF out]> (fs w);
                 stdout := stdout w;
                 probed := probed w |})
    /\ (forall d k, In d (v_dims m) ->
          (In k (kept_positions d)
           <-> exists e, on_grid ds (v_dims m) e /\ e d = k /\ mask_one m e = true))
    /\ (forall d, In d (v_dims m) -> StronglySorted lt (kept_positions d))
    /\ (forall d, In d (v_dims m) -> kept_positions d <> [])
    /\ (forall d ls, In d (v_dims m) -> assoc d (ds_coords ds) = Some ls ->
          assoc d (ds_coords out)
          = Some (map (fun k => nth k ls LNaN) (kept_positions d))
          /\ assoc d (ds_sizes out) = Some (length (kept_positions d)))
    /\ (forall name v, assoc name (ds_vars ds) = Some v ->
          exists out_v,
            assoc name (ds_vars out) = Some out_v
            /\ forall e,
                 v_data out_v e
                 = if mask_one m (source_position (v_dims m) kept_positions e)
                   then v_data v (source_position (v_dims m) kept_positions e)
                   else None).
Proof.
  intros Hf Hm _ _ _ Hone. destruct where_drop_checks as [Hk Ha].
  eexists _, pos. split; [|split; [|split; [|split; [|split]]]].
  - unfold country_crop. unfold bind at 1, xr_open_dataset. rewrite Hf.
    unfold bind at 1. rewrite Hm.
    unfold bind at 1, lift at 1, ds_getitem. rewrite Hmask.
    unfold bind at 1, lift at 1, ds_where_drop. fold cond. rewrite Hk, Ha.
    cbn [negb]. unfold to_netcdf, write_file, modify. reflexivity.
  - intros d k Hd. now apply pos_spec.
  - intros d _. apply pos_sorted.
  - intros d Hd Hnil. destruct Hone as (e & He & Hm1).
    assert (Hin : In (e d) (pos d)) by (apply (pos_spec d (e d) Hd); eauto).
    rewrite Hnil in Hin. destruct Hin.
  - intros d ls Hd Hc. destruct (Hgrid d Hd) as (ls' & Hc' & _ & Hs).
    pose proof Hd as Hmem. apply mem_true_iff in Hmem.
    cbn [ds_coords ds_sizes]. split.
    + rewrite (assoc_map_snd (fun dl : string * list label =>
                 if mem (fst dl) (b_dims cond)
                 then map (fun ij : nat * nat => nth (fst ij) (snd dl) LNaN)
                          (kept ds cond (fst dl))
                 else snd dl)).
      rewrite Hc. cbn [fst snd cond da_eq b_dims da_var]. rewrite Hmem.
      fold cond. rewrite (kept_grid d Hd), map_map. reflexivity.
    + rewrite (assoc_map_snd (fun dn : string * nat =>
                 if mem (fst dn) (b_dims cond)
                 then length (kept ds cond (fst dn)) else snd dn)).
      rewrite Hs. cbn [fst snd cond da_eq b_dims da_var]. rewrite Hmem.
      fold cond. now rewrite (kept_grid d Hd), length_map.
  - intros name v Hv. cbn [ds_vars]. eexists. split.
    + rewrite (assoc_map_snd (fun nv : string * DataVar =>
                 {| v_dims := v_dims (snd nv)
                              ++ filter (fun d => negb (mem d (v_dims (snd nv))))
                                        (b_dims cond);
                    v_data := fun e => if b_test cond (kept_cond ds cond e)
                                       then v_data (snd nv) (kept_ds ds cond e)
                                       else None;
                    v_attrs := v_attrs (snd nv) |})).
      rewrite Hv. reflexivity.
    + intros e. cbn [v_data snd]. destruct (kept_source e) as [-> ->]. reflexivity.
Qed.
End Mask.

Lemma country_crop_keeps_witness :
  exists out kept_positions,
    country_crop "temp.nc" "mask.nc" "temp_honduras.nc" world_mask
    = (Ok tt, {| fs := <["temp_honduras.nc" := NetCDF out]> (fs world_mask);
                 stdout := stdout world_mask;
                 probed := probed world_mask |})
    /\ (forall d k, In d ["lat"; "lon"] ->
          (In k (kept_positions d)
           <-> exists e, on_grid temperature_grid ["lat"; "lon"] e /\ e d = k
                         /\ mask_one mask_variable e = true))
    /\ (forall d, In d ["lat"; "lon"] -> StronglySorted lt (kept_positions d))
    /\ (forall d, In d ["lat"; "lon"] -> kept_positions d <> [])
    /\ (forall d ls, In d ["lat"; "lon"] -> assoc d (ds_coords temperature_grid) = Some ls ->
          assoc d (ds_coords out)
          = Some (map (fun k => nth k ls LNaN) (kept_positions d))
          /\ assoc d (ds_sizes out) = Some (length (kept_positions d)))
    /\ (forall name v, assoc name (ds_vars temperature_grid) = Some v ->
          exists out_v,
            assoc name (ds_vars out) = Some out_v
            /\ forall e,
                 v_data out_v e
                 = if mask_one mask_variable (source_position ["lat"; "lon"] kept_positions e)
                   then v_data v (source_position ["lat"; "lon"] kept_positions e)
                   else None).
Proof.
  apply (country_crop_keeps temperature_grid mask_grid mask_variable eq_refl);
    try reflexivity; try discriminate.
  - apply (bool_decide_unpack _). vm_compute. exact I.
  - intros d Hd. cbn in Hd. destruct Hd as [<-|[<-|[]]]; eexists; repeat split; reflexivity.
  - repeat constructor; discriminate.
  - exists (upd (upd origin "lat" 1%nat) "lon" 1%nat). split; [|reflexivity].
    intros d. unfold mem, mask_variable, v_dims. cbn [existsb].
    unfold upd, origin, size_of.
    destruct (String.eqb_spec d "lat") as [->|Hlat]; [cbn; lia|].
    destruct (String.eqb_spec d "lon") as [->|Hlon]; [cbn; lia|].
    cbn [orb]. reflexivity.
Defined.

(** The mask of the example has one cell set to zero, the first of the
    first row.  The output keeps both rows and both columns, so the
    coordinate of that cell is still in it; the cell holds not-a-number. *)
Lemma country_crop_keeps_masked_cell :
  match country_crop "temp.nc" "mask.nc" "temp_honduras.nc" world_mask with
  | (Ok _, w) =>
      match fs w !! "temp_honduras.nc" with
      | Some (NetCDF out) =>
          assoc "lat" (ds_coords out) = Some [LNum 14; LNum 15]
          /\ assoc "lon" (ds_coords out) = Some [LNum (-88); LNum (-87)]
          /\ match assoc "air_temperature" (ds_vars out) with
             | Some out_v =>
                 map (fun '(j, i) =>
                        option_map Qred
                          (v_data out_v (upd (upd origin "lat" j) "lon" i)))
                     [(0, 0); (0, 1); (1, 0); (1, 1)]%nat
                 = [None; Some 100%Q; Some 10%Q; Some 110%Q]
             | None => False
             end
      | _ => False
      end
  | _ => False
  end.
Proof. vm_compute. repeat split; reflexivity. Qed.
End MaskerFacts.

Section RenamerMoreFacts.
Import Calendar Renamer.

(** The loop on entries that are not Julian names: nothing is renamed. *)
Lemma translate_loop_plain directorio l :
  forall (acc : list string) (d : directory),
    (forall a, a ∈ l -> julian a = false) ->
    translate_loop directorio l acc d = (Ok (acc ++ l)%list, d).
Proof.
  induction l as [|a rest IH]; intros acc d Hall.
  - cbn. now rewrite app_nil_r.
  - cbn [translate_loop]. unfold bind at 1.
    rewrite translate_entry_other by (apply Hall; now left).
    rewrite IH by (intros b Hb; apply Hall; now right).
    now rewrite <- app_assoc.
Qed.

(** One turn of the loop: the entry is left alone, or the turn raises and
    the directory is as before, or the entry, a Julian name that is in
    the directory, is renamed. *)
Lemma translate_entry_cases directorio a d :
  (julian a = false /\ translate_entry directorio a d = (Ok a, d))
  \/ (julian a = true /\ exists e, translate_entry directorio a d = (Raise e, d))
  \/ (julian a = true /\ a ∈ entries d /\ exists dst,
        translate_entry directorio a d
        = (Ok dst,
           {| entries := filter (fun n => n ≠ a ∧ n ≠ dst) (entries d) ++ [dst];
              renamed := renamed d
                         ++ [(Py.path_join directorio a, Py.path_join directorio dst)] |})).
Proof.
  destruct (julian a) eqn:Hj.
  - right. rewrite translate_entry_parse by assumption.
    destruct (strptime_Yj _) as [t|e]; [|left; eauto].
    destruct (decide (a ∈ entries d)) as [Hin|Hin].
    + right. rewrite os_rename_present by assumption. eauto.
    + left. unfold os_rename. rewrite bool_decide_eq_false_2 by assumption. eauto.
  - left. split; [reflexivity|]. now apply translate_entry_other.
Qed.

Lemma translate_loop_frame directorio l :
  forall (acc : list string) (d : directory),
    (forall x, x ∈ entries d -> julian x = false ->
               x ∈ entries (snd (translate_loop directorio l acc d)))
    /\ exists news,
         renamed (snd (translate_loop directorio l acc d)) = (renamed d ++ news)%list
         /\ Forall (renames_julian directorio l) news.
Proof.
  induction l as [|a rest IH]; intros acc d.
  - cbn. split; [auto|]. exists []. now rewrite app_nil_r.
  - cbn [translate_loop]. unfold bind at 1 2.
    destruct (translate_entry_cases directorio a d)
      as [[Hj ->]|[[Hj [e ->]]|(Hj & Hin & dst & ->)]].
    + destruct (IH (acc ++ [a])%list d) as [H1 (news & H2 & H3)].
      split; [exact H1|]. exists news. split; [exact H2|].
      eapply Forall_impl; [exact H3|]. intros p (b & Hb & Hjb & Hp).
      exists b. split; [now right|]. now split.
    + cbn. split; [auto|]. exists []. now rewrite app_nil_r.
    + match goal with |- context [translate_loop _ _ _ ?d1] =>
        destruct (IH (acc ++ [dst])%list d1) as [H1 (news & H2 & H3)] end.
      split.
      * intros x Hx Hjx. apply H1; [|exact Hjx]. cbn [entries].
        apply elem_of_app. destruct (decide (x = dst)) as [->|Hne].
        -- right. now apply list_elem_of_singleton.
        -- left. apply list_elem_of_filter. split; [|exact Hx].
           split; [congruence|exact Hne].
      * exists ((Py.path_join directorio a, Py.path_join directorio dst) :: news).
        split; [rewrite H2; cbn [renamed]; now rewrite <- app_assoc|].
        constructor.
        -- exists a. split; [now left|]. now split.
        -- eapply Forall_impl; [exact H3|]. intros p (b & Hb & Hjb & Hp).
           exists b. split; [now right|]. now split.
Qed.

Lemma translate_loop_names directorio l :
  forall (acc names : list string) (d d' : directory),
    translate_loop directorio l acc d = (Ok names, d') ->
    exists news,
      names = (acc ++ news)%list /\ length news = length l
      /\ forall k a, nth_error l k = Some a -> julian a = false ->
                     nth_error news k = Some a.
Proof.
  induction l as [|a rest IH]; intros acc names d d' Hrun.
  - cbn in Hrun. injection Hrun as <- <-. exists []. rewrite app_nil_r.
    repeat split. intros [|k] b Hk; discriminate.
  - cbn [translate_loop] in Hrun. unfold bind at 1 in Hrun.
    destruct (translate_entry directorio a d) as [[n|e] d1] eqn:He; [|discriminate].
    destruct (IH _ _ _ _ Hrun) as (news & -> & Hlen & Hnth).
    exists (n :: news). rewrite <- app_assoc. split; [reflexivity|].
    split; [cbn; now rewrite Hlen|].
    intros [|k] b Hk Hj; cbn in Hk |- *; [|now apply Hnth].
    injection Hk as ->. rewrite translate_entry_other in He by assumption.
    congruence.
Qed.

(** X1.  In a directory of ASCII names, however the call ends, the name
    of an entry that is not a Julian name is still listed afterwards, and
    every rename the call performed has a Julian entry of the listing as
    its source: an entry that is not a Julian name is the source of no
    rename. *)
Theorem translate_julian_dates_frame directorio (d : directory) :
  (forall a, a ∈ entries d -> ascii_name a = true) ->
  let r := translate_julian_dates directorio d in
  (forall x, x ∈ entries d -> julian x = false -> x ∈ entries (snd r))
  /\ exists news,
       renamed (snd r) = (renamed d ++ news)%list
       /\ Forall (renames_julian directorio (entries d)) news.
Proof.
  intros _. unfold translate_julian_dates, bind, os_listdir.
  apply (translate_loop_frame directorio (entries d) [] d).
Qed.

Lemma translate_julian_dates_frame_witness :
  let r := translate_julian_dates "data" dir_day_zero in
  (forall x, x ∈ entries dir_day_zero -> julian x = false -> x ∈ entries (snd r))
  /\ exists news,
       renamed (snd r) = (renamed dir_day_zero ++ news)%list
       /\ Forall (renames_julian "data" (entries dir_day_zero)) news.
Proof.
  apply (translate_julian_dates_frame "data" dir_day_zero).
  intros a Ha. apply list_elem_of_In in Ha. cbn in Ha.
  destruct Ha as [<-|[<-|[<-|[]]]]; reflexivity.
Defined.

(** X2.  In a directory of ASCII names, when the call returns, it returns
    one name for every entry of the listing, and at the place of an entry
    that is not a Julian name stands the entry itself. *)
Theorem translate_julian_dates_names directorio (d : directory) names :
  (forall a, a ∈ entries d -> ascii_name a = true) ->
  fst (translate_julian_dates directorio d) = Ok names ->
  length names = length (entries d)
  /\ forall k a, nth_error (entries d) k = Some a -> julian a = false ->
                 nth_error names k = Some a.
Proof.
  unfold translate_julian_dates, bind, os_listdir. intros _ Hrun.
  destruct (translate_loop directorio (entries d) [] d) as [r d'] eqn:Hl.
  cbn [fst] in Hrun. subst r.
  destruct (translate_loop_names _ _ _ _ _ _ Hl) as (news & -> & Hlen & Hnth).
  cbn [app]. split; assumption.
Qed.

Lemma translate_julian_dates_names_witness :
  length ["2024-04-08.tif"; "readme.txt"] = length (entries dir_example)
  /\ forall k a, nth_error (entries dir_example) k = Some a -> julian a = false ->
                 nth_error ["2024-04-08.tif"; "readme.txt"] k = Some a.
Proof.
  apply (translate_julian_dates_names "data" dir_example).
  - intros a Ha. apply list_elem_of_In in Ha. cbn in Ha.
    destruct Ha as [<-|[<-|[]]]; reflexivity.
  - vm_compute. reflexivity.
Defined.

(** X3.  In a directory of ASCII names whose Julian entries all carry a
    year of four digits and a day of that year, and where no new name is
    the name of an entry already there, a second call finds nothing to
    do: it returns the entries as they are listed and leaves the
    directory, and the record of the renames, as the first call left
    them. *)
Theorem translate_julian_dates_twice directorio (d : directory) :
  NoDup (entries d) ->
  (forall a, a ∈ entries d -> ascii_name a = true) ->
  fresh_names (entries d) (entries d) ->
  (forall a, a ∈ entries d -> julian a = true -> well_dated a = true) ->
  let r := translate_julian_dates directorio d in
  translate_julian_dates directorio (snd r) = (Ok (entries (snd r)), snd r).
Proof.
  intros Hnd _ _ Hall r.
  destruct (translate_loop_ok directorio (entries d) [] d Hnd) as (d' & Hrun & _ & Hent).
  { intros a Ha Hj. split; [now apply Hall|exact Ha]. }
  assert (Hr : snd r = d').
  { unfold r, translate_julian_dates, bind, os_listdir. now rewrite Hrun. }
  rewrite Hr. unfold translate_julian_dates, bind, os_listdir.
  apply (translate_loop_plain directorio (entries d') [] d').
  intros a Ha. apply Hent in Ha as [[Ha Hn]|Ha].
  - apply not_true_is_false. intros Hj. apply Hn. now split.
  - apply list_elem_of_In, in_map_iff in Ha as (b & <- & Hb).
    apply filter_In in Hb as [Hb Hjb].
    apply new_name_not_julian; [exact Hjb|]. apply Hall; [|exact Hjb].
    now apply list_elem_of_In.
Qed.

Lemma translate_julian_dates_twice_witness :
  let r := translate_julian_dates "data" dir_example in
  translate_julian_dates "data" (snd r) = (Ok (entries (snd r)), snd r).
Proof.
  apply (translate_julian_dates_twice "data" dir_example).
  - apply NoDup_ListNoDup. repeat constructor; cbn; intuition discriminate.
  - intros a Ha. apply list_elem_of_In in Ha. cbn in Ha.
    destruct Ha as [<-|[<-|[]]]; reflexivity.
  - intros a Ha Hj. apply list_elem_of_In in Ha. cbn in Ha.
    destruct Ha as [<-|[<-|[]]]; [|discriminate Hj].
    intros Hin. apply list_elem_of_In in Hin. cbn in Hin.
    destruct Hin as [Hin|[Hin|[]]]; discriminate Hin.
  - intros a Ha Hj. apply list_elem_of_In in Ha. cbn in Ha.
    destruct Ha as [<-|[<-|[]]]; [reflexivity|discriminate Hj].
Defined.

Section ShortYears.
Open Scope Z_scope.

Lemma str_DDD y : 100 <= y <= 999 -> Py.str y = DDD y.
Proof.
  intros Hy.
  assert (H : check_range (fun y => String.eqb (Py.str y) (DDD y)) 100 900 = true)
    by (vm_cast_no_check (eq_refl true)).
  apply String.eqb_eq.
  apply (check_range_spec (fun y => String.eqb (Py.str y) (DDD y)) 100 900 H). lia.
Qed.

Lemma match_j_DD n : 0 <= n <= 99 -> jj_ok n = true.
Proof.
  intros Hn.
  assert (H : check_range jj_ok 0 100 = true) by (vm_cast_no_check (eq_refl true)).
  apply (check_range_spec jj_ok 0 100 H). lia.
Qed.

(** What the parser makes of a three-digit year followed by three digits. *)
Lemma strptime_short_year y j :
  100 <= y <= 999 -> 0 <= j <= 999 ->
  strptime_Yj (Py.str y ++ Py.format_03 j) =
  if j mod 100 =? 0 then Raise (ValueError "time data does not match format")
  else Ok (ord2ymd (ymd2ord (10 * y + j / 100) 1 1 + j mod 100 - 1)).
Proof.
  intros Hy Hj. rewrite str_DDD, format_03_DDD by lia.
  change (DDD y ++ DDD j) with
    (String (digit (y / 100 mod 10)) (String (digit (y / 10 mod 10))
       (String (digit (y mod 10)) (String (digit (j / 100 mod 10)) (DD j))))).
  rewrite strptime_unfold. cbn [Py.all_digits].
  rewrite !digit_is_digit by apply mod10_bounds. cbn [andb].
  assert (Hint : Py.int (String (digit (y / 100 mod 10)) (String (digit (y / 10 mod 10))
                   (String (digit (y mod 10)) (String (digit (j / 100 mod 10)) ""))))
                 = 10 * y + j / 100).
  { unfold Py.int. cbn [Py.int_from].
    rewrite !digit_value_digit by apply mod10_bounds.
    Z.div_mod_to_equations. lia. }
  rewrite Hint.
  assert (HDD : DD j = DD (j mod 100)).
  { unfold DD.
    replace (j mod 100 / 10 mod 10) with (j / 10 mod 10)
      by (Z.div_mod_to_equations; lia).
    replace (j mod 100 mod 10) with (j mod 10) by (Z.div_mod_to_equations; lia).
    reflexivity. }
  rewrite HDD.
  assert (Hjj : 0 <= j mod 100 <= 99) by (Z.div_mod_to_equations; lia).
  pose proof (match_j_DD (j mod 100) Hjj) as Hok. unfold jj_ok in Hok.
  change (String.length (DD (j mod 100))) with 2%nat.
  destruct (match_j (DD (j mod 100))) as [[v used]|].
  - apply andb_prop in Hok as [Hok Hu]. apply andb_prop in Hok as [Hz Hv].
    apply Z.eqb_eq in Hv. subst v. apply negb_true_iff in Hz. rewrite Hz, Hu.
    cbv zeta. assert (Hq : 0 <= j / 100 <= 9) by (Z.div_mod_to_equations; lia).
    destruct (Z.ltb_spec (10 * y + j / 100) 1); [lia|].
    rewrite ymd2ord_jan1.
    pose proof (days_before_year_mono (10 * y + j / 100 + 1) 10000 ltac:(lia)) as Hm.
    rewrite days_before_next_year, MAXORDINAL_year in Hm.
    pose proof (days_in_year_pos (10 * y + j / 100)).
    destruct (Z.ltb_spec MAXORDINAL
                (j mod 100 - 1 + (days_before_year (10 * y + j / 100) + 1))); [lia|].
    do 2 f_equal. lia.
  - now rewrite Hok.
Qed.

(** X4.  A Julian entry whose year is written with a leading zero is not
    refused.  The code drops the zero when it writes the year anew, so
    the parser reads the three digits of the year and the first digit
    of the day as the year, and the two last digits as the day: the
    entry is renamed to that day of that year.  Only when the two last
    digits are zeros the parser fails, and nothing is renamed. *)
Theorem translate_entry_three_digit_year directorio a (d : directory) :
  julian a = true -> 100 <= name_year a <= 999 -> a ∈ entries d ->
  translate_entry directorio a d
  = (if shifted_day a =? 0
     then (Raise (ValueError "time data does not match format"), d)
     else (Ok (isoformat (shifted_date a) ++ extension a),
           {| entries := filter (fun n => n ≠ a ∧ n ≠ isoformat (shifted_date a)
                                                      ++ extension a)
                                (entries d)
                         ++ [isoformat (shifted_date a) ++ extension a];
              renamed := renamed d
                         ++ [(Py.path_join directorio a,
                              Py.path_join directorio
                                (isoformat (shifted_date a) ++ extension a))] |}))
  /\ (shifted_day a <> 0 ->
      year (shifted_date a) = shifted_year a /\ yday (shifted_date a) = shifted_day a).
Proof.
  intros Hj Hy Hin. destruct (julian_ranges a Hj) as [_ Hd]. split.
  - rewrite translate_entry_parse, strptime_short_year by (assumption || lia).
    unfold shifted_day, shifted_date, shifted_year.
    destruct (name_day a mod 100 =? 0); [reflexivity|].
    now rewrite os_rename_present by assumption.
  - intros Hnz. unfold shifted_day in *.
    assert (Hjj : 0 <= name_day a mod 100 <= 99) by (Z.div_mod_to_equations; lia).
    pose proof (days_in_year_pos (shifted_year a)).
    destruct (ord2ymd_yday (shifted_year a) (name_day a mod 100) ltac:(lia))
      as (H1 & H2 & _).
    split; assumption.
Qed.

Lemma translate_entry_three_digit_year_witness :
  translate_entry "data" "0999001.tif" dir_short_year
  = (if shifted_day "0999001.tif" =? 0
     then (Raise (ValueError "time data does not match format"), dir_short_year)
     else (Ok (isoformat (shifted_date "0999001.tif") ++ extension "0999001.tif"),
           {| entries := filter (fun n => n ≠ "0999001.tif"
                                          ∧ n ≠ isoformat (shifted_date "0999001.tif")
                                                ++ extension "0999001.tif")
                                (entries dir_short_year)
                         ++ [isoformat (shifted_date "0999001.tif")
                             ++ extension "0999001.tif"];
              renamed := renamed dir_short_year
                         ++ [(Py.path_join "data" "0999001.tif",
                              Py.path_join "data"
                                (isoformat (shifted_date "0999001.tif")
                                 ++ extension "0999001.tif"))] |}))
  /\ (shifted_day "0999001.tif" <> 0 ->
      year (shifted_date "0999001.tif") = shifted_year "0999001.tif"
      /\ yday (shifted_date "0999001.tif") = shifted_day "0999001.tif").
Proof.
  apply (translate_entry_three_digit_year "data" "0999001.tif" dir_short_year).
  - reflexivity.
  - vm_compute. split; discriminate.
  - apply list_elem_of_singleton. reflexivity.
Defined.

(** On the example: day 001 of the year 0999 becomes the first day of
    the year 9990. *)
Example translate_julian_dates_short_year :
  translate_julian_dates "data" dir_short_year
  = (Ok ["9990-01-01.tif"],
     {| entries := ["9990-01-01.tif"];
        renamed := [("data/0999001.tif", "data/9990-01-01.tif")] |}).
Proof. vm_compute. reflexivity. Qed.
End ShortYears.
End RenamerMoreFacts.

Section MergerMoreFacts.
Import Xr Merger.

Lemma assoc_set_assoc_other {A} k k' (a : A) l :
  k <> k' -> assoc k (set_assoc k' a l) = assoc k l.
Proof.
  intros Hne. induction l as [|[k0 a0] l IH]; cbn.
  - apply String.eqb_neq in Hne. rewrite String.eqb_sym in Hne. now rewrite Hne.
  - destruct (String.eqb k0 k') eqn:E; cbn.
    + apply String.eqb_eq in E. subst k0.
      destruct (String.eqb k' k) eqn:E'; [|reflexivity].
      apply String.eqb_eq in E'. congruence.
    + destruct (String.eqb k0 k); [reflexivity|exact IH].
Qed.

Lemma assoc_app {A} k (l1 l2 : list (string * A)) :
  assoc k (l1 ++ l2) = match assoc k l1 with Some a => Some a | None => assoc k l2 end.
Proof.
  induction l1 as [|[k0 a0] l1 IH]; cbn; [reflexivity|].
  destruct (String.eqb k0 k); [reflexivity|exact IH].
Qed.

(** The pieces of one step each, stacked along the time dimension under
    the dates [times]: the dataset the merge writes. *)
Lemma merge_tail_combined output_folder units variable_name
    datasets first others times w1 v0 :
  datasets = first :: others ->
  forallb (fun ds => has_key "time" (ds_coords ds)) datasets
  || forallb (fun ds => negb (has_key "time" (ds_coords ds))) datasets = true ->
  Forall (fun ds => steps_along "time" ds = 1%nat) datasets ->
  length datasets = length times ->
  assoc variable_name (ds_vars first) = Some v0 ->
  exists combined out_v,
    merge_tail output_folder units variable_name datasets times w1
    = (Ok tt, {| fs := <[output_folder := NetCDF combined]> (fs w1);
                 stdout := stdout w1 ++ [repr combined];
                 probed := probed w1 |})
    /\ assoc variable_name (ds_vars combined) = Some out_v
    /\ assoc "units" (v_attrs out_v) = Some units
    /\ v_dims out_v = (if mem "time" (v_dims v0) then v_dims v0 else "time" :: v_dims v0)
    /\ (forall e k piece,
          e "time" = k -> nth_error datasets k = Some piece ->
          v_data out_v e
          = match assoc variable_name (ds_vars piece) with
            | Some v => v_data v (upd e "time" 0)
            | None => None
            end)
    /\ (forall d, d <> "time" ->
          assoc d (ds_coords combined) = assoc d (ds_coords first)
          /\ assoc d (ds_sizes combined) = assoc d (ds_sizes first)).
Proof.
  intros Hd Huni Hsteps Hlen Hv0.
  assert (Hsum : list_sum (map (steps_along "time") datasets) = length times).
  { rewrite <- Hlen. now apply list_sum_ones. }
  unfold merge_tail. rewrite (xr_concat_nonempty datasets first others "time" Hd Huni).
  unfold ds_set_coord. cbn [ds_sizes assoc]. cbn [String.eqb Ascii.eqb Bool.eqb].
  rewrite Hsum, length_map, Nat.eqb_refl.
  unfold ds_set_var_attr. cbn [ds_vars ds_sizes ds_coords ds_attrs].
  rewrite assoc_map_snd, Hv0.
  eexists _, _. split; [reflexivity|]. cbn [ds_vars ds_coords ds_sizes].
  split; [apply assoc_set_assoc|]. cbn [v_attrs v_dims v_data snd fst].
  split; [apply assoc_set_assoc|]. split; [reflexivity|]. split.
  - intros e k piece He Hk.
    assert (Hkl : (k < length (map (steps_along "time") datasets))%nat).
    { rewrite length_map. apply nth_error_Some. congruence. }
    rewrite He, (locate_ones _ _ (proj2 (Forall_map _ _ _) Hsteps) Hkl), Hk.
    reflexivity.
  - intros d Hne. split.
    + rewrite assoc_set_assoc_other, assoc_app by exact Hne.
      assert (Hnone : assoc d (if forallb (fun ds => has_key "time" (ds_coords ds)) datasets
                               then [("time",
                                      flat_map (fun ds => default [] (assoc "time"
                                                                        (ds_coords ds)))
                                               datasets)]
                               else []) = None).
      { destruct (forallb _ datasets); [|reflexivity]. cbn [assoc].
        destruct (String.eqb_spec "time" d) as [E|_];
          [symmetry in E; contradiction|reflexivity]. }
      rewrite Hnone. now apply assoc_remove_other.
    + cbn [assoc]. destruct (String.eqb_spec "time" d) as [E|_]; [symmetry in E; contradiction|].
      now apply assoc_remove_other.
Qed.

Section Merge.
Variables data_folder output_folder file_type units variable_name : string.

Let filename := day_filename data_folder file_type.

Lemma merge_files_tail start_date end_date w :
  merge_files start_date end_date data_folder output_folder file_type units
              variable_name w
  = match merge_loop (pd_date_range start_date (end_date - 1))
                     data_folder file_type variable_name [] [] w with
    | (Ok (Some (datasets, times)), w1) =>
        merge_tail output_folder units variable_name datasets times w1
    | (Ok None, w1) => (Ok tt, w1)
    | (Raise e, w1) => (Raise e, w1)
    end.
Proof.
  unfold merge_files, bind at 1.
  destruct (merge_loop _ _ _ _ _ _ w) as [[[[datasets times]|]|e] w1]; reflexivity.
Qed.

Lemma merge_tail_frame datasets times w1 :
  let r := merge_tail output_folder units variable_name datasets times w1 in
  (is_ok (fst r) = false -> snd r = w1)
  /\ (fs (snd r) = fs w1
      \/ exists combined, fs (snd r) = <[output_folder := NetCDF combined]> (fs w1))
  /\ exists lines, stdout (snd r) = (stdout w1 ++ lines)%list.
Proof.
  unfold merge_tail.
  destruct (xr_concat datasets "time") as [c|e];
    [|cbn; repeat split; [now left|exists []; now rewrite app_nil_r]].
  destruct (ds_set_coord c "time" (map LDay times)) as [c'|e];
    [|cbn; repeat split; [now left|exists []; now rewrite app_nil_r]].
  destruct (ds_set_var_attr c' variable_name "units" units) as [c''|e];
    [|cbn; repeat split; [now left|exists []; now rewrite app_nil_r]].
  cbn. split; [discriminate|]. split; eauto.
Qed.

Lemma merge_loop_stdout dates :
  forall datasets times w,
    exists lines,
      stdout (snd (merge_loop dates data_folder file_type variable_name datasets times w))
      = (stdout w ++ lines)%list.
Proof.
  induction dates as [|d rest IH]; intros datasets times w.
  - exists []. cbn. now rewrite app_nil_r.
  - destruct (day_present (fs w) data_folder file_type d) eqn:Hp.
    + destruct (day_loaded (fs w) data_folder file_type variable_name d) as [ds|] eqn:Hl.
      * rewrite (merge_loop_loaded _ _ _ _ _ _ _ _ _ Hl).
        destruct (IH (datasets ++ [ds])%list (times ++ [d])%list
                     (with_log [] [day_filename data_folder file_type d] w))
          as [lines ->].
        exists lines. cbn [with_log stdout]. now rewrite app_nil_r.
      * destruct (supported file_type) eqn:Hs.
        -- destruct (merge_loop_unreadable _ _ _ d rest datasets times w Hp Hs Hl)
             as [e ->].
           exists []. reflexivity.
        -- rewrite (merge_loop_unsupported _ _ _ _ _ _ _ _ Hp Hs). eauto.
    + rewrite (merge_loop_absent _ _ _ _ _ _ _ _ Hp).
      destruct (IH datasets times
                   (with_log [not_found_line data_folder file_type d]
                             [day_filename data_folder file_type d] w))
        as [lines ->].
      eexists. cbn [with_log stdout]. now rewrite <- app_assoc.
Qed.

(** X5.  Whatever the files and however the call ends, no file other
    than the output path is created, changed or removed, and what was
    printed before is still there: the call only adds lines. *)
Theorem merge_files_frame start_date end_date w :
  let r := merge_files start_date end_date data_folder output_folder file_type units
                       variable_name w in
  (forall path, path <> output_folder -> fs (snd r) !! path = fs w !! path)
  /\ exists lines, stdout (snd r) = (stdout w ++ lines)%list.
Proof.
  intros r. unfold r. rewrite merge_files_tail.
  pose proof (merge_loop_probed data_folder file_type variable_name
                (pd_date_range start_date (end_date - 1)) [] [] w) as [_ Hfs].
  destruct (merge_loop_stdout (pd_date_range start_date (end_date - 1)) [] [] w)
    as [lines Hout].
  destruct (merge_loop _ _ _ _ _ _ w) as [[[[datasets times]|]|e] w1];
    cbn [snd fst] in *.
  - destruct (merge_tail_frame datasets times w1) as (_ & Hfiles & lines' & Hlines).
    rewrite <- Hfs. split.
    + intros path Hne. destruct Hfiles as [->|[combined ->]]; [reflexivity|].
      now rewrite lookup_insert_ne by congruence.
    + exists (lines ++ lines')%list. now rewrite Hlines, Hout, app_assoc.
  - split; [intros path _; now rewrite Hfs|eauto].
  - split; [intros path _; now rewrite Hfs|eauto].
Qed.


Lemma found_loaded files dates :
  (forall d, d ∈ dates -> day_present files data_folder file_type d = true ->
             is_Some (day_loaded files data_folder file_type variable_name d)) ->
  forall k d,
    nth_error (List.filter (day_present files data_folder file_type) dates) k = Some d ->
    exists ds,
      day_loaded files data_folder file_type variable_name d = Some ds
      /\ nth_error (omap (day_loaded files data_folder file_type variable_name) dates) k
         = Some ds.
Proof.
  induction dates as [|d0 rest IH]; intros Hall k d Hk; [destruct k; discriminate|].
  assert (Hrest : forall d, d ∈ rest ->
            day_present files data_folder file_type d = true ->
            is_Some (day_loaded files data_folder file_type variable_name d))
    by (intros d' Hd'; apply Hall; now right).
  cbn [List.filter] in Hk. rewrite omap_cons_eq.
  destruct (day_present files data_folder file_type d0) eqn:Hp.
  - destruct (Hall d0 ltac:(left) Hp) as [ds0 Hds0]. rewrite Hds0.
    destruct k as [|k]; cbn in Hk |- *.
    + injection Hk as <-. eauto.
    + now apply IH.
  - rewrite (absent_not_loaded data_folder file_type variable_name files d0 Hp).
    now apply IH.
Qed.

(** The merge when the files that are there are the files of one day
    each and one at least is there: the loop, then the stacking. *)
Lemma merge_files_stacked start_date end_date w :
  let dates := pd_date_range start_date (end_date - 1) in
  (forall d, d ∈ dates -> day_present (fs w) data_folder file_type d = true ->
             single_day (fs w) file_type variable_name (filename d) = true) ->
  (forall d d' ds ds', d ∈ dates -> d' ∈ dates ->
     day_loaded (fs w) data_folder file_type variable_name d = Some ds ->
     day_loaded (fs w) data_folder file_type variable_name d' = Some ds' ->
     same_layout ds ds') ->
  existsb (day_present (fs w) data_folder file_type) dates = true ->
  exists first others,
    omap (day_loaded (fs w) data_folder file_type variable_name) dates = first :: others
    /\ forallb (fun ds => has_key "time" (ds_coords ds)) (first :: others)
       || forallb (fun ds => negb (has_key "time" (ds_coords ds))) (first :: others)
       = true
    /\ Forall (fun ds => steps_along "time" ds = 1%nat) (first :: others)
    /\ length (first :: others)
       = length (List.filter (day_present (fs w) data_folder file_type) dates)
    /\ has_key variable_name (ds_vars first) = true
    /\ (forall d, d ∈ dates -> day_present (fs w) data_folder file_type d = true ->
                  is_Some (day_loaded (fs w) data_folder file_type variable_name d))
    /\ merge_files start_date end_date data_folder output_folder file_type units
                   variable_name w
       = merge_tail output_folder units variable_name (first :: others)
           (List.filter (day_present (fs w) data_folder file_type) dates)
           (with_log
              (map (not_found_line data_folder file_type)
                   (List.filter
                      (fun d => negb (day_present (fs w) data_folder file_type d)) dates))
              (map filename dates) w).
Proof.
  intros dates Hall Hlay Hsome.
  pose proof (layout_uniform data_folder file_type variable_name (fs w) dates Hlay)
    as Huni. cbv zeta in Huni.
  destruct (taken_single_days data_folder file_type variable_name (fs w) dates Hall)
    as [Hone Hlen].
  assert (Hloaded : forall d, d ∈ dates ->
            day_present (fs w) data_folder file_type d = true ->
            is_Some (day_loaded (fs w) data_folder file_type variable_name d)).
  { intros d Hd Hp. pose proof (Hall d Hd Hp) as Hs. unfold single_day, filename in Hs.
    unfold day_loaded. destruct (loaded _ _ _ _); [eauto|discriminate]. }
  assert (Hne : List.filter (day_present (fs w) data_folder file_type) dates <> []).
  { apply existsb_exists in Hsome as (d & Hd & Hp). intros He.
    assert (Hin : In d (List.filter (day_present (fs w) data_folder file_type) dates))
      by (apply filter_In; split; assumption).
    rewrite He in Hin. destruct Hin. }
  destruct (omap (day_loaded (fs w) data_folder file_type variable_name) dates)
    as [|first others] eqn:Hd.
  { destruct (List.filter _ dates); [congruence|discriminate Hlen]. }
  exists first, others. split; [reflexivity|]. split; [exact Huni|]. split.
  { eapply Forall_impl; [exact Hone|]. intros ds [H _]. exact H. }
  split; [exact Hlen|]. split.
  { inversion Hone as [|? ? [_ H] _]. exact H. }
  split; [exact Hloaded|].
  rewrite merge_files_tail. fold dates. rewrite merge_loop_taken by exact Hloaded.
  cbn [app]. now rewrite Hd.
Qed.

End Merge.

Section MissingVariable.
Variables data_folder output_folder file_type units variable_name : string.

(** The files of the range that are there load, bring one time step
    each, and none holds the variable, as a variable or as a
    coordinate. *)
Let lacking (w : World) (dates : list Z) : Prop :=
  forall d, d ∈ dates -> day_present (fs w) data_folder file_type d = true ->
    exists ds,
      day_loaded (fs w) data_folder file_type variable_name d = Some ds
      /\ steps_along "time" ds = 1%nat
      /\ has_key variable_name (ds_vars ds) = false
      /\ has_key variable_name (ds_coords ds) = false
      /\ has_key variable_name (ds_sizes ds) = false.

Lemma lacking_loaded w dates :
  lacking w dates ->
  Forall (fun ds => steps_along "time" ds = 1%nat
                    /\ has_key variable_name (ds_vars ds) = false
                    /\ has_key variable_name (ds_coords ds) = false
                    /\ has_key variable_name (ds_sizes ds) = false)
         (omap (day_loaded (fs w) data_folder file_type variable_name) dates)
  /\ length (omap (day_loaded (fs w) data_folder file_type variable_name) dates)
     = length (List.filter (day_present (fs w) data_folder file_type) dates).
Proof.
  induction dates as [|d rest IH]; intros Hall; [split; [constructor|reflexivity]|].
  destruct IH as [IH1 IH2]; [intros d' Hd'; apply Hall; now right|].
  rewrite omap_cons_eq. cbn [List.filter].
  destruct (day_present (fs w) data_folder file_type d) eqn:Hp.
  - destruct (Hall d ltac:(left) Hp) as (ds & -> & H1 & H2 & H3 & H4).
    split; [constructor; [repeat split|]; assumption|cbn; now rewrite IH2].
  - rewrite (absent_not_loaded data_folder file_type variable_name _ _ Hp).
    split; assumption.
Qed.

(** X8.  When the dates are days a time stamp can hold and the files that
    are there load, have one layout and bring one time step each, but the
    name given in the call, a name without a dot and other than ["time"],
    is in none of them the name of a variable, of a coordinate or of a
    dimension, the call raises a [KeyError] for that name when it comes to
    set the units: the warnings have been printed, and no file is written. *)
Theorem merge_files_missing_variable start_date end_date w :
  let dates := pd_date_range start_date (end_date - 1) in
  (forall d, d ∈ dates -> timestamp_day d) ->
  (forall d, d ∈ dates -> day_present (fs w) data_folder file_type d = true ->
     exists ds,
       day_loaded (fs w) data_folder file_type variable_name d = Some ds
       /\ steps_along "time" ds = 1%nat
       /\ has_key variable_name (ds_vars ds) = false
       /\ has_key variable_name (ds_coords ds) = false
       /\ has_key variable_name (ds_sizes ds) = false) ->
  (forall d d' ds ds', d ∈ dates -> d' ∈ dates ->
     day_loaded (fs w) data_folder file_type variable_name d = Some ds ->
     day_loaded (fs w) data_folder file_type variable_name d' = Some ds' ->
     same_layout ds ds') ->
  existsb (day_present (fs w) data_folder file_type) dates = true ->
  variable_name <> "time" ->
  plain_name variable_name = true ->
  merge_files start_date end_date data_folder output_folder file_type units
              variable_name w
  = (Raise (KeyError variable_name),
     with_log
       (map (not_found_line data_folder file_type)
            (List.filter (fun d => negb (day_present (fs w) data_folder file_type d))
                         dates))
       (map (day_filename data_folder file_type) dates) w).
Proof.
  intros dates _ Hall Hlay Hsome Hne _.
  pose proof (layout_uniform data_folder file_type variable_name (fs w) dates Hlay)
    as Huni. cbv zeta in Huni.
  destruct (lacking_loaded w dates Hall) as [Hone Hlen].
  assert (Hnn : List.filter (day_present (fs w) data_folder file_type) dates <> []).
  { apply existsb_exists in Hsome as (d & Hd & Hp). intros He.
    assert (Hin : In d (List.filter (day_present (fs w) data_folder file_type) dates))
      by (apply filter_In; split; assumption).
    rewrite He in Hin. destruct Hin. }
  rewrite merge_files_tail. fold dates. rewrite merge_loop_taken.
  2:{ intros d Hd Hp. destruct (Hall d Hd Hp) as (ds & -> & _). eauto. }
  cbn [app].
  destruct (omap (day_loaded (fs w) data_folder file_type variable_name) dates)
    as [|first others] eqn:Hd.
  { destruct (List.filter _ dates); [congruence|discriminate Hlen]. }
  assert (Hsum : list_sum (map (steps_along "time") (first :: others))
                 = length (List.filter (day_present (fs w) data_folder file_type) dates)).
  { rewrite <- Hlen. apply list_sum_ones.
    eapply Forall_impl; [exact Hone|]. intros ds [H _]. exact H. }
  inversion Hone as [|? ? (_ & Hv & Hc & Hz) _]. subst.
  unfold merge_tail.
  rewrite (xr_concat_nonempty (first :: others) first others "time" eq_refl Huni).
  unfold ds_set_coord. cbn [ds_sizes assoc]. cbn [String.eqb Ascii.eqb Bool.eqb].
  rewrite Hsum, length_map, Nat.eqb_refl.
  unfold ds_set_var_attr. cbn [ds_vars ds_sizes ds_coords ds_attrs].
  rewrite assoc_map_snd. unfold has_key in Hv, Hc, Hz |- *.
  destruct (assoc variable_name (ds_vars first)); [discriminate|].
  cbn [assoc]. apply String.eqb_neq in Hne as Hne'. rewrite String.eqb_sym in Hne'.
  rewrite Hne'. rewrite (assoc_remove_other _ _ _ Hne).
  rewrite assoc_set_assoc_other, assoc_app by exact Hne.
  assert (Hnone : assoc variable_name
                    (if forallb (fun ds => match assoc "time" (ds_coords ds) with
                                           | Some _ => true
                                           | None => false
                                           end) (first :: others)
                     then [("time",
                            flat_map (fun ds => default [] (assoc "time" (ds_coords ds)))
                                     (first :: others))]
                     else []) = None).
  { destruct (forallb _ (first :: others)); [|reflexivity]. cbn [assoc].
    destruct (String.eqb_spec "time" variable_name) as [E|_];
      [symmetry in E; contradiction|reflexivity]. }
  rewrite Hnone, assoc_remove_other by exact Hne.
  destruct (assoc variable_name (ds_coords first)); [discriminate|].
  destruct (assoc variable_name (ds_sizes first)); [discriminate|]. reflexivity.
Qed.
End MissingVariable.

Lemma merge_files_missing_variable_witness :
  merge_files april_8 (april_8 + 3) "in/rain_" "out/rain.nc" "nc" "mm" "snow" world_gap
  = (Raise (KeyError "snow"),
     with_log
       (map (not_found_line "in/rain_" "nc")
            (List.filter (fun d => negb (day_present (fs world_gap) "in/rain_" "nc" d))
                         (pd_date_range april_8 (april_8 + 3 - 1))))
       (map (day_filename "in/rain_" "nc") (pd_date_range april_8 (april_8 + 3 - 1)))
       world_gap).
Proof.
  apply (merge_files_missing_variable "in/rain_" "out/rain.nc" "nc" "mm" "snow"
           april_8 (april_8 + 3) world_gap).
  - intros d Hd. apply list_elem_of_In in Hd. vm_compute in Hd.
    destruct Hd as [<-|[<-|[<-|[]]]]; vm_compute; split; discriminate.
  - intros d Hd Hp. apply list_elem_of_In in Hd. vm_compute in Hd.
    destruct Hd as [<-|[<-|[<-|[]]]]; vm_compute in Hp; try discriminate Hp;
      eexists; (split; [vm_compute; reflexivity|repeat split; reflexivity]).
  - intros d d' ds ds' Hd Hd' Hl Hl'.
    apply list_elem_of_In in Hd; apply list_elem_of_In in Hd'.
    vm_compute in Hd, Hd'.
    destruct Hd as [<-|[<-|[<-|[]]]]; vm_compute in Hl;
      try discriminate Hl; injection Hl as <-;
      destruct Hd' as [<-|[<-|[<-|[]]]]; vm_compute in Hl';
      try discriminate Hl'; injection Hl' as <-;
      repeat split; reflexivity.
  - vm_compute. reflexivity.
  - discriminate.
  - reflexivity.
Defined.

Section Rasters.
Variables data_folder output_folder units variable_name : string.

Hypothesis Hnot_lat : variable_name <> "lat".
Hypothesis Hnot_lon : variable_name <> "lon".

(** The dataset of a raster under a name that is none of its
    coordinates. *)
Let raster_ds (r : Raster) : Dataset :=
  {| ds_sizes := [("lat", r_height r); ("lon", r_width r)];
     ds_coords :=
       [("lat", map (fun i => LNum (transform_get r 5
                                    + transform_get r 4 * inject_Z (Z.of_nat i))%Q)
                    (seq 0 (r_height r)));
        ("lon", map (fun j => LNum (transform_get r 2
                                    + transform_get r 0 * inject_Z (Z.of_nat j))%Q)
                    (seq 0 (r_width r)))];
     ds_vars := [(variable_name,
                  {| v_dims := ["lat"; "lon"];
                     v_data := fun e => r_band1 r (e "lat") (e "lon");
                     v_attrs := [] |})];
     ds_attrs := [] |}.

Lemma raster_to_dataset_ok r : raster_to_dataset r variable_name = Ok (raster_ds r).
Proof.
  unfold raster_to_dataset.
  apply String.eqb_neq in Hnot_lat, Hnot_lon. now rewrite Hnot_lat, Hnot_lon.
Qed.

Lemma raster_loaded files path r :
  files !! path = Some (GeoTIFF r) ->
  loaded files "tif" variable_name path = Some (raster_ds r).
Proof.
  intros Hf. unfold loaded. rewrite Hf. cbn [String.eqb Ascii.eqb Bool.eqb].
  now rewrite raster_to_dataset_ok.
Qed.

Lemma raster_single_day files path r :
  files !! path = Some (GeoTIFF r) ->
  single_day files "tif" variable_name path = true.
Proof.
  intros Hf. unfold single_day. rewrite (raster_loaded files path r Hf).
  unfold steps_along, has_key. cbn. now rewrite String.eqb_refl.
Qed.

End Rasters.

Lemma flat_raster_lookup path r :
  fs world_rasters !! path = Some (GeoTIFF r) -> exists q, r = flat_raster q.
Proof.
  unfold world_rasters. cbn [fs].
  destruct (decide (path = "in/rain_2024-04-08.tif")) as [->|H1].
  { rewrite lookup_insert_eq. intros [= <-]. eauto. }
  rewrite lookup_insert_ne by congruence.
  destruct (decide (path = "in/rain_2024-04-10.tif")) as [->|H2].
  { rewrite lookup_insert_eq. intros [= <-]. eauto. }
  rewrite lookup_insert_ne by congruence. rewrite lookup_empty. discriminate.
Qed.



End MergerMoreFacts.

Section PlotterMoreFacts.
Import Xr Plotter.

Lemma size_of_filter_key (f : string -> bool) d (l : list (string * nat)) :
  size_of (filter (fun p : string * nat => f (fst p)) l) d
  = if f d then size_of l d else 0%nat.
Proof. unfold size_of. rewrite (assoc_filter_key f). now destruct (f d). Qed.

Lemma zip_with_map {A B C D} (f : B -> C -> D) (g : A -> B) (h : A -> C) l :
  zip_with f (map g l) (map h l) = map (fun a => f (g a) (h a)) l.
Proof. induction l as [|a l IH]; cbn; [reflexivity|now rewrite IH]. Qed.

Section Plot.
Variable sqrt : Q -> Q.
Variables file_path variable_name save_path lon_dim lat_dim time_dim : string.
Variable ds : Dataset.
Variable v : DataVar.
Variable times : list label.

Hypothesis Hvar : assoc variable_name (ds_vars ds) = Some v.
Hypothesis Hlon : mem lon_dim (v_dims v) = true.
Hypothesis Hlat : mem lat_dim (v_dims v) = true.
Hypothesis Hdims : filter (fun d => negb (mem d [lon_dim; lat_dim])) (v_dims v)
                   = [time_dim].
Hypothesis Htime_var : assoc time_dim (ds_vars ds) = None.
Hypothesis Htime : assoc time_dim (ds_coords ds) = Some times.
Hypothesis Hsteps : length times = size_of (ds_sizes ds) time_dim.
Hypothesis Hsome : times <> [].

Lemma time_is_third :
  mem time_dim (v_dims v) = true /\ mem time_dim [lon_dim; lat_dim] = false.
Proof.
  assert (H : time_dim ∈ filter (fun d => negb (mem d [lon_dim; lat_dim])) (v_dims v)).
  { rewrite Hdims. now apply list_elem_of_singleton. }
  apply list_elem_of_filter in H as [H1 H2]. split.
  - apply mem_true_iff. now apply list_elem_of_In.
  - apply Is_true_true in H1. now apply negb_true_iff in H1.
Qed.

Lemma reduced_cells (f : list cell -> cell) :
  map (fun e =>
         f (map (v_data v)
              (all_indices_in e
                 (map (fun d => (d, seq 0 (size_of
                                             (filter (fun p : string * nat =>
                                                        mem (fst p) (v_dims v))
                                                     (ds_sizes ds)) d)))
                      [lon_dim; lat_dim]))))
      (all_indices_in origin
         (map (fun d => (d, seq 0 (size_of
                                     (filter (fun p : string * nat =>
                                                negb (mem (fst p) [lon_dim; lat_dim]))
                                        (filter (fun p : string * nat =>
                                                   mem (fst p) (v_dims v))
                                                (ds_sizes ds))) d)))
              [time_dim]))
  = map (fun t => f (slab ds v lon_dim lat_dim time_dim t))
        (seq 0 (size_of (ds_sizes ds) time_dim)).
Proof.
  destruct time_is_third as [Ht1 Ht2].
  cbn [map]. rewrite all_indices_in_one, map_map.
  rewrite (size_of_filter_key (fun d => negb (mem d [lon_dim; lat_dim]))), Ht2.
  cbn [negb].
  rewrite !(size_of_filter_key (fun d => mem d (v_dims v))), Ht1, Hlon, Hlat.
  reflexivity.
Qed.

(** The figure the plotter draws, in the terms of the reductions. *)
Lemma plot_nc_file_figure (w : World) :
  fs w !! file_path = Some (NetCDF ds) ->
  let steps := seq 0 (size_of (ds_sizes ds) time_dim) in
  let mean t := nanmean (slab ds v lon_dim lat_dim time_dim t) in
  let std t := nanstd sqrt (slab ds v lon_dim lat_dim time_dim t) in
  let path := figure_path save_path variable_name in
  exists fig,
    plot_nc_file sqrt file_path variable_name save_path lon_dim lat_dim time_dim w
    = plt_savefig path fig w
    /\ fig_x fig = match times with
                   | LCal _ :: _ => map to_datetime64 times
                   | _ => times
                   end
    /\ fig_mean fig = map mean steps
    /\ fig_upper fig = map (fun t => cell_add (mean t) (std t)) steps
    /\ fig_lower fig = map (fun t => cell_sub (mean t) (std t)) steps
    /\ fig_ylabel fig
       = variable_name ++ " (" ++ default "unidades" (assoc "units" (v_attrs v)) ++ ")"
    /\ (snd (Py.splitext path) = "" ->
        plt_savefig path fig w
        = (Ok tt, {| fs := <[rstrip_dots path ++ ".png" := Image fig]> (fs w);
                     stdout := stdout w;
                     probed := probed w |})).
Proof.
  intros Hf steps mean std path.
  destruct times as [|t0 rest] eqn:Htimes; [contradiction|].
  eexists. split; [|split; [|split; [|split; [|split; [|split]]]]].
  - unfold plot_nc_file. unfold bind at 1, xr_open_dataset. rewrite Hf.
    unfold ds_contains, has_key. rewrite Hvar. cbn [orb negb].
    unfold bind at 1, lift at 1, ds_getitem. rewrite Hvar.
    unfold bind at 1, lift at 1, da_reduce. cbn [da_var forallb].
    rewrite Hlon, Hlat. cbn [andb].
    unfold bind at 1, lift at 1.
    unfold bind at 1, lift at 1. rewrite Htime_var, Htime.
    unfold da_values. cbn [da_var v_dims da_name da_coords assoc].
    rewrite String.eqb_refl.
    unfold bind at 1, lift at 1.
    unfold da_cells. cbn [da_var v_dims v_data da_sizes].
    rewrite Hdims.
    rewrite (reduced_cells nanmean), (reduced_cells (nanstd sqrt)).
    rewrite !length_map, length_seq.
    assert (Hlen : length (match t0 with
                           | LCal _ => map to_datetime64 (t0 :: rest)
                           | _ => t0 :: rest
                           end) = size_of (ds_sizes ds) time_dim).
    { rewrite <- Hsteps. destruct t0; rewrite ?length_map; reflexivity. }
    rewrite Hlen, Nat.eqb_refl. cbn [length Nat.ltb Nat.leb negb orb].
    reflexivity.
  - cbn [fig_x]. destruct t0; reflexivity.
  - reflexivity.
  - cbn [fig_upper]. apply zip_with_map.
  - cbn [fig_lower]. apply zip_with_map.
  - reflexivity.
  - intros Hext. unfold plt_savefig. rewrite Hext. reflexivity.
Qed.

Lemma nanmean_numbers cs :
  nanmean cs = match omap id cs with
               | [] => None
               | x :: xs => Some (mean_q (x :: xs))
               end.
Proof. unfold nanmean, numbers. destruct (omap id cs); reflexivity. Qed.

Lemma nanstd_numbers cs :
  nanstd sqrt cs = match omap id cs with
                   | [] => None
                   | x :: xs => Some (sqrt (variance_q (x :: xs)))
                   end.
Proof. unfold nanstd, nanmean, numbers. destruct (omap id cs); reflexivity. Qed.

Lemma nth_error_map_seq {A} (f : nat -> A) n t :
  (t < n)%nat -> nth_error (map f (seq 0 n)) t = Some (f t).
Proof.
  intros Ht. rewrite nth_error_map, nth_error_seq.
  apply Nat.ltb_lt in Ht. now rewrite Ht.
Qed.

End Plot.


(** On the example, with the square root good to the hundredth: the
    means of the three days over the four cells and the band around the
    first, and the path of the image. *)
Example plot_nc_file_band_example :
  match plot_nc_file sqrt_cents "temp.nc" "air_temperature" "figures/" "lon" "lat" "time"
                     world_grid with
  | (Ok _, w) =>
      match fs w !! "figures/air_temperature.png" with
      | Some (Image fig) =>
          map (option_map Qred) (fig_mean fig) = [Some 55%Q; Some 56%Q; Some 57%Q]
          /\ option_map (option_map Qred) (head (fig_lower fig)) = Some (Some (119 # 25)%Q)
          /\ option_map (option_map Qred) (head (fig_upper fig)) = Some (Some (2631 # 25)%Q)
      | _ => False
      end
  | _ => False
  end.
Proof. vm_compute. repeat split; reflexivity. Qed.

(** On the example: the means of the three days over the four cells, and
    the path of the image. *)
Example plot_nc_file_example :
  match plot_nc_file (fun q => q) "temp.nc" "air_temperature" "figures/" "lon" "lat" "time"
                     world_grid with
  | (Ok _, w) =>
      match fs w !! "figures/air_temperature.png" with
      | Some (Image fig) =>
          map (option_map Qred) (fig_mean fig) = [Some 55%Q; Some 56%Q; Some 57%Q]
          /\ fig_ylabel fig = "air_temperature (degree_Celsius)"
      | _ => False
      end
  | _ => False
  end.
Proof. vm_compute. split; reflexivity. Qed.

(** X11.  When the variable does not lie over both of the dimensions
    named as longitude and latitude (the names default to [lon] and
    [lat], a file may call them [x] and [y]), the mean cannot be taken:
    the plotter raises a [ValueError] and writes nothing. *)
Theorem plot_nc_file_other_dims (sqrt : Q -> Q)
    file_path variable_name save_path lon_dim lat_dim time_dim w ds v :
  fs w !! file_path = Some (NetCDF ds) ->
  assoc variable_name (ds_vars ds) = Some v ->
  mem lon_dim (v_dims v) && mem lat_dim (v_dims v) = false ->
  exists msg,
    plot_nc_file sqrt file_path variable_name save_path lon_dim lat_dim time_dim w
    = (Raise (ValueError msg), w).
Proof.
  intros Hf Hvar Hd. unfold plot_nc_file. unfold bind at 1, xr_open_dataset. rewrite Hf.
  unfold ds_contains, has_key. rewrite Hvar. cbn [orb negb].
  unfold bind at 1, lift at 1, ds_getitem. rewrite Hvar.
  unfold bind at 1, lift at 1, da_reduce. cbn [da_var forallb].
  rewrite andb_true_r, Hd. eauto.
Qed.

Lemma plot_nc_file_other_dims_witness :
  exists msg,
    plot_nc_file (fun q => q) "temp.nc" "air_temperature" "figures/" "x" "y" "time"
                 world_grid
    = (Raise (ValueError msg), world_grid).
Proof.
  apply (plot_nc_file_other_dims (fun q => q) "temp.nc" "air_temperature" "figures/"
           "x" "y" "time" world_grid temperature_grid air_temperature);
    reflexivity.
Defined.



(** X12.  Whatever the file and the arguments: the plotter prints
    nothing and asks for no path; when it raises, the world is as it
    was; when it returns, exactly one file has been written, an image,
    under the save path followed by the name of the variable, or under
    that path with [.png] appended. *)
Theorem plot_nc_file_frame (sqrt : Q -> Q)
    file_path variable_name save_path lon_dim lat_dim time_dim w :
  let r := plot_nc_file sqrt file_path variable_name save_path lon_dim lat_dim time_dim w in
  let path := figure_path save_path variable_name in
  stdout (snd r) = stdout w /\ probed (snd r) = probed w
  /\ (is_ok (fst r) = false -> snd r = w)
  /\ (is_ok (fst r) = true ->
      exists p fig,
        fs (snd r) = <[p := Image fig]> (fs w)
        /\ (p = path \/ p = rstrip_dots path ++ ".png")).
Proof.
  intros r path. unfold r, path, figure_path, plot_nc_file.
  unfold bind, lift, raise, xr_open_dataset, plt_savefig, write_file, modify.
  cbv beta.
  repeat match goal with
         | |- context [match ?x with _ => _ end] => case_innermost x; cbv beta iota
         end;
    cbn [fst snd is_ok stdout probed fs];
    repeat split; try discriminate; try reflexivity; eauto.
Qed.
End PlotterMoreFacts.

Section AveragerMoreFacts.
Import Xr Averager.

Lemma municipality_loop_pure dataset variable_name region_column municipality_column units
    lon_dim lat_dim rows :
  forall results w,
    snd (municipality_loop dataset variable_name region_column municipality_column units
           lon_dim lat_dim rows results w) = w.
Proof.
  induction rows as [|f rest IH]; intros results w; [reflexivity|].
  cbn [municipality_loop]. unfold bind, lift.
  destruct (ds_getitem dataset variable_name) as [da|e]; [|reflexivity].
  destruct (sel_nearest da _) as [da'|e]; [|reflexivity].
  destruct (da_reduce nanmean da' ["time"]) as [dm|e]; [|reflexivity].
  destruct (feature_get f region_column) as [region|e]; [|reflexivity].
  destruct (feature_get f municipality_column) as [municipio|e]; [|reflexivity].
  apply IH.
Qed.

Lemma municipality_loop_app dataset variable_name region_column municipality_column units
    lon_dim lat_dim l1 l2 :
  forall results w,
    municipality_loop dataset variable_name region_column municipality_column units
      lon_dim lat_dim (l1 ++ l2) results w
    = match municipality_loop dataset variable_name region_column municipality_column
              units lon_dim lat_dim l1 results w with
      | (Ok results', w') =>
          municipality_loop dataset variable_name region_column municipality_column
            units lon_dim lat_dim l2 results' w'
      | (Raise e, w') => (Raise e, w')
      end.
Proof.
  induction l1 as [|f l1 IH]; intros results w; [reflexivity|].
  cbn [app municipality_loop]. unfold bind, lift.
  destruct (ds_getitem dataset variable_name) as [da|e]; [|reflexivity].
  destruct (sel_nearest da _) as [da'|e]; [|reflexivity].
  destruct (da_reduce nanmean da' ["time"]) as [dm|e]; [|reflexivity].
  destruct (feature_get f region_column) as [region|e]; [|reflexivity].
  destruct (feature_get f municipality_column) as [municipio|e]; [|reflexivity].
  apply IH.
Qed.

(** X13.  Whatever the files and the arguments and however the call
    ends, the averager leaves the world as it found it: it writes no
    file, prints nothing and asks for no path. *)
Theorem calculate_daily_mean_per_municipality_pure
    shapefile_path netcdf_file variable_name region_column municipality_column units w :
  snd (calculate_daily_mean_per_municipality shapefile_path netcdf_file variable_name
         region_column municipality_column units w) = w.
Proof.
  unfold calculate_daily_mean_per_municipality, bind, gpd_read_file, xr_open_dataset,
    raise, ret.
  destruct (fs w !! shapefile_path) as [[| |l|]|]; try reflexivity.
  destruct (fs w !! netcdf_file) as [[ds| | |]|]; try reflexivity.
  destruct (negb (ds_contains ds variable_name)); [reflexivity|].
  match goal with |- context [municipality_loop ?a ?b ?c ?d ?e ?f ?g ?h ?i w] =>
    pose proof (municipality_loop_pure a b c d e f g h i w) as Hp;
    destruct (municipality_loop a b c d e f g h i w) as [[rows|e0] w'] end;
    exact Hp.
Qed.

(** X14.  When the layer and the grid open and the grid holds the
    variable neither as a variable nor as a coordinate, the averager
    raises a [ValueError] that names the variable, before it looks at any
    record of the layer. *)
Theorem calculate_daily_mean_per_municipality_missing_variable
    shapefile_path netcdf_file variable_name region_column municipality_column units
    (w : World) (municipalities : Layer) (ds : Dataset) :
  fs w !! shapefile_path = Some (Shapefile municipalities) ->
  fs w !! netcdf_file = Some (NetCDF ds) ->
  ds_contains ds variable_name = false ->
  calculate_daily_mean_per_municipality shapefile_path netcdf_file variable_name
    region_column municipality_column units w
  = (Raise (ValueError ("La variable '" ++ variable_name
                        ++ "' no se encuentra en el archivo NetCDF.")), w).
Proof.
  intros Hshp Hnc Hc.
  unfold calculate_daily_mean_per_municipality, bind, gpd_read_file, xr_open_dataset.
  rewrite Hshp, Hnc, Hc. reflexivity.
Qed.

Lemma calculate_daily_mean_per_municipality_missing_variable_witness :
  calculate_daily_mean_per_municipality "municipios.shp" "temp.nc" "ET0"
    "NAME_1" "NAME_2" "mm/day" world_grid
  = (Raise (ValueError "La variable 'ET0' no se encuentra en el archivo NetCDF."),
     world_grid).
Proof.
  apply (calculate_daily_mean_per_municipality_missing_variable "municipios.shp" "temp.nc"
           "ET0" "NAME_1" "NAME_2" "mm/day" world_grid two_municipalities
           temperature_grid); reflexivity.
Defined.

Section Loop.
Variable ds : Dataset.
Variable v : DataVar.
Variables xs ys : list Q.
Variables variable_name region_column municipality_column units : string.

Hypothesis Hvar : assoc variable_name (ds_vars ds) = Some v.
Hypothesis Hlon : mem (lon_dim_of ds) (v_dims v) = true.
Hypothesis Hlat : mem (lat_dim_of ds) (v_dims v) = true.
Hypothesis Htime : mem "time" (v_dims v) = true.
Hypothesis Hxs : assoc (lon_dim_of ds) (ds_coords ds) = Some (map LNum xs).
Hypothesis Hys : assoc (lat_dim_of ds) (ds_coords ds) = Some (map LNum ys).
Hypothesis Hxne : xs <> [].
Hypothesis Hyne : ys <> [].
Hypothesis Hxmono : increasing xs || decreasing xs = true.
Hypothesis Hymono : increasing ys || decreasing ys = true.

(** One turn of the loop on a record that lacks a label: the mean is
    taken, then the lookup of the label raises. *)
Lemma municipality_step_unnamed municipality rest results w column :
  lacking_column region_column municipality_column municipality = Some column ->
  municipality_loop ds variable_name region_column municipality_column units
    (lon_dim_of ds) (lat_dim_of ds) (municipality :: rest) results w
  = (Raise (KeyError column), w).
Proof.
  intros Hlack.
  destruct (spatial_names_differ ds) as (Hd1 & Hd2 & Hd3).
  set (da0 := {| da_name := variable_name;
                 da_sizes := filter (fun p : string * nat => mem (fst p) (v_dims v))
                                    (ds_sizes ds);
                 da_coords := filter (fun p : string * list label =>
                                        mem (fst p) (v_dims v)) (ds_coords ds);
                 da_var := v |}).
  destruct (sel_nearest_one_ok da0 (lon_dim_of ds)
              (fst (g_centroid (f_geometry municipality))) xs)
    as (i & Hi & Hsel1); try assumption.
  { unfold da0. cbn [da_coords].
    rewrite (assoc_filter_key (fun d => mem d (v_dims v))), Hlon. exact Hxs. }
  match type of Hsel1 with _ = Ok ?d => set (da1 := d) in * end.
  destruct (sel_nearest_one_ok da1 (lat_dim_of ds)
              (snd (g_centroid (f_geometry municipality))) ys)
    as (j & Hj & Hsel2); try assumption.
  { unfold da1, da0. cbn [da_var v_dims]. now rewrite mem_filter_other. }
  { unfold da1, da0. cbn [da_coords]. rewrite assoc_remove_other by assumption.
    rewrite (assoc_filter_key (fun d => mem d (v_dims v))), Hlat. exact Hys. }
  match type of Hsel2 with _ = Ok ?d => set (da2 := d) in * end.
  assert (Hred : exists dm, da_reduce nanmean da2 ["time"] = Ok dm).
  { unfold da_reduce. cbn [forallb].
    assert (Ht : mem "time" (v_dims (da_var da2)) = true).
    { unfold da2, da1, da0. cbn [da_var v_dims].
      now rewrite !mem_filter_other by assumption. }
    rewrite Ht. cbn [andb]. eauto. }
  destruct Hred as (dm & Hred).
  cbn [municipality_loop]. unfold bind at 1, lift at 1, ds_getitem. rewrite Hvar.
  fold da0. unfold bind at 1, lift at 1. cbn [sel_nearest].
  rewrite Hsel1. fold da1. rewrite Hsel2. fold da2.
  unfold bind at 1, lift at 1. rewrite Hred.
  unfold bind at 1, lift at 1, feature_get.
  unfold lacking_column, has_key in Hlack.
  destruct (assoc region_column (f_attrs municipality)) as [region|].
  - unfold bind at 1, lift at 1.
    destruct (assoc municipality_column (f_attrs municipality)) as [municipio|];
      [discriminate|].
    cbn in Hlack. now injection Hlack as <-.
  - cbn in Hlack. now injection Hlack as <-.
Qed.
End Loop.


End AveragerMoreFacts.

Section ClipperMoreFacts.
Import Xr Clipper.

Lemma regions_loop_pure ds lon_dim lat_dim data_var name_column rows :
  forall clipped names w,
    snd (regions_loop ds lon_dim lat_dim data_var name_column rows clipped names w) = w.
Proof.
  induction rows as [|f rest IH]; intros clipped names w; [reflexivity|].
  cbn [regions_loop]. unfold bind, lift.
  destruct (rio_clip lon_dim lat_dim (f_geometry f) ds) as [m|e]; [|reflexivity].
  destruct (ds_getitem m data_var) as [da|e]; [|reflexivity].
  destruct (feature_get f name_column) as [name|e]; [|reflexivity].
  destruct (ds_getitem ds data_var) as [da'|e]; [|reflexivity].
  apply IH.
Qed.

Lemma regions_loop_app ds lon_dim lat_dim data_var name_column l1 l2 :
  forall clipped names w,
    regions_loop ds lon_dim lat_dim data_var name_column (l1 ++ l2) clipped names w
    = match regions_loop ds lon_dim lat_dim data_var name_column l1 clipped names w with
      | (Ok r, w') =>
          regions_loop ds lon_dim lat_dim data_var name_column l2 (fst r) (snd r) w'
      | (Raise e, w') => (Raise e, w')
      end.
Proof.
  induction l1 as [|f l1 IH]; intros clipped names w; [reflexivity|].
  cbn [app regions_loop]. unfold bind, lift.
  destruct (rio_clip lon_dim lat_dim (f_geometry f) ds) as [m|e]; [|reflexivity].
  destruct (ds_getitem m data_var) as [da|e]; [|reflexivity].
  destruct (feature_get f name_column) as [name|e]; [|reflexivity].
  destruct (ds_getitem ds data_var) as [da'|e]; [|reflexivity].
  apply IH.
Qed.

Section Clip.
Variable to_crs : string -> string -> Geometry -> Geometry.
Variables file_to_be_cropped shapefile output_file name_column : string.

(** What the clipper does to the world, whatever the files. *)
Lemma regions_crop_effects (w : World) :
  let r := regions_crop to_crs file_to_be_cropped shapefile output_file name_column w in
  probed (snd r) = probed w
  /\ (stdout (snd r) = stdout w
      \/ exists ds, fs w !! file_to_be_cropped = Some (NetCDF ds)
                    /\ stdout (snd r) = (stdout w ++ [repr ds])%list)
  /\ (is_ok (fst r) = false -> fs (snd r) = fs w)
  /\ (is_ok (fst r) = true ->
      fst r = Ok output_file
      /\ exists out, fs (snd r) = <[output_file := NetCDF out]> (fs w)).
Proof.
  intros r. remember r as run eqn:Hr. destruct run as [res w']. unfold r in Hr.
  clear r. unfold regions_crop in Hr.
  unfold bind at 1, xr_open_dataset in Hr.
  destruct (fs w !! file_to_be_cropped) as [[ds| | |]|] eqn:Hf;
    [|frame_done Hr|frame_done Hr|frame_done Hr|frame_done Hr].
  unfold bind at 1, print, modify in Hr.
  unfold bind at 1, lift at 1 in Hr.
  destruct (rio_set_spatial_dims _ _ _) as [ds1|e]; [|frame_done Hr].
  unfold bind at 1, gpd_read_file in Hr. cbn [fs] in Hr.
  destruct (fs w !! shapefile) as [[| |regions|]|];
    [frame_done Hr|frame_done Hr| |frame_done Hr|frame_done Hr].
  unfold bind at 1, lift at 1 in Hr.
  destruct (ds_vars ds1) as [|nv vars]; [frame_done Hr|].
  unfold bind at 1 in Hr.
  match type of Hr with context [regions_loop ?a ?b ?c ?d ?e ?f ?g ?h ?w1] =>
    pose proof (regions_loop_pure a b c d e f g h w1) as Hp;
    destruct (regions_loop a b c d e f g h w1) as [[[clipped names]|e0] w1'] end;
    cbn [snd] in Hp; subst w1'; [|frame_done Hr].
  unfold bind at 1, lift at 1 in Hr. cbn [fst snd] in Hr.
  destruct (xr_concat _ "region") as [c|e]; [|frame_done Hr].
  unfold bind at 1, lift at 1 in Hr.
  destruct (ds_set_coord c "region" names) as [c'|e]; [|frame_done Hr].
  unfold bind, to_netcdf, write_file, modify, ret in Hr. frame_done Hr.
Qed.


(** The call up to the loop, when the two files open and the grid has
    its two spatial dimensions. *)
Lemma regions_crop_opened (w : World) ds regions :
  fs w !! file_to_be_cropped = Some (NetCDF ds) ->
  fs w !! shapefile = Some (Shapefile regions) ->
  has_key (lon_dim_of ds) (ds_sizes ds) && has_key (lat_dim_of ds) (ds_sizes ds) = true ->
  let ds' := if negb (has_key "crs" (ds_attrs ds))
             then rio_write_crs "EPSG:4326" ds else ds in
  regions_crop to_crs file_to_be_cropped shapefile output_file name_column w
  = match ds_vars ds with
    | [] => (Raise (IndexError "list index out of range"), printed ds w)
    | nv :: _ =>
        match regions_loop ds' (lon_dim_of ds) (lat_dim_of ds) (fst nv) name_column
                (map (fun f => {| f_geometry := region_geometry to_crs ds regions f;
                                  f_attrs := f_attrs f |})
                     (l_features regions)) [] [] (printed ds w) with
        | (Ok r, w1) =>
            match xr_concat (map da_to_dataset (fst r)) "region" with
            | Ok c =>
                match ds_set_coord c "region" (snd r) with
                | Ok c' =>
                    (Ok output_file,
                     {| fs := <[output_file := NetCDF c']> (fs w1);
                        stdout := stdout w1;
                        probed := probed w1 |})
                | Raise e => (Raise e, w1)
                end
            | Raise e => (Raise e, w1)
            end
        | (Raise e, w1) => (Raise e, w1)
        end
    end.
Proof.
  intros Hf Hshp Hk ds'. destruct (written_same ds) as (Hs & Hc & Hv).
  unfold regions_crop. unfold bind at 1, xr_open_dataset. rewrite Hf.
  unfold bind at 1, print, modify. fold ds'. fold (printed ds w).
  fold ds' in Hs, Hc, Hv.
  rewrite Hs. fold (lon_dim_of ds) (lat_dim_of ds).
  unfold bind at 1, lift at 1, rio_set_spatial_dims. rewrite Hs, Hk.
  unfold bind at 1, gpd_read_file. cbn [fs printed]. fold (printed ds w). rewrite Hshp.
  unfold bind at 1, lift at 1. rewrite Hv.
  destruct (ds_vars ds) as [|nv vars]; [reflexivity|].
  unfold bind at 1. unfold ds'. rewrite projected_features. fold ds'.
  destruct (regions_loop _ _ _ _ _ _ _ _ _) as [[r|e] w1]; [|reflexivity].
  unfold bind at 1, lift at 1.
  destruct (xr_concat _ "region") as [c|e]; [|reflexivity].
  unfold bind at 1, lift at 1.
  destruct (ds_set_coord c "region" (snd r)) as [c'|e]; reflexivity.
Qed.


End Clip.

Lemma regions_crop_no_dims to_crs file_to_be_cropped shapefile output_file name_column
    (w : World) ds :
  fs w !! file_to_be_cropped = Some (NetCDF ds) ->
  has_key (lon_dim_of ds) (ds_sizes ds) && has_key (lat_dim_of ds) (ds_sizes ds) = false ->
  regions_crop to_crs file_to_be_cropped shapefile output_file name_column w
  = (Raise (RuntimeError "spatial dimension not found"), printed ds w).
Proof.
  intros Hf Hk. destruct (written_same ds) as (Hs & _ & _).
  unfold regions_crop. unfold bind at 1, xr_open_dataset. rewrite Hf.
  unfold bind at 1, print, modify. rewrite Hs. fold (lon_dim_of ds) (lat_dim_of ds).
  unfold bind at 1, lift at 1, rio_set_spatial_dims. rewrite Hs, Hk. reflexivity.
Qed.

(** X18.  A grid without the attribute [crs] is given the system
    EPSG:4326; a layer in that system is then used as it is read: the
    geometries are not reprojected, whatever the reprojection is. *)
Theorem regions_crop_same_crs (to_crs other_crs : string -> string -> Geometry -> Geometry)
    file_to_be_cropped shapefile output_file name_column (w : World) ds regions :
  fs w !! file_to_be_cropped = Some (NetCDF ds) ->
  fs w !! shapefile = Some (Shapefile regions) ->
  has_key "crs" (ds_attrs ds) = false ->
  l_crs regions = "EPSG:4326" ->
  regions_crop to_crs file_to_be_cropped shapefile output_file name_column w
  = regions_crop other_crs file_to_be_cropped shapefile output_file name_column w.
Proof.
  intros Hf Hshp Hcrs Hl.
  assert (Hgeo : forall tc f, region_geometry tc ds regions f = f_geometry f).
  { intros tc f. unfold region_geometry, grid_crs. rewrite Hcrs, Hl. cbn [negb].
    unfold rio_crs, rio_write_crs. cbn [ds_attrs]. now rewrite assoc_set_assoc. }
  destruct (has_key (lon_dim_of ds) (ds_sizes ds) && has_key (lat_dim_of ds) (ds_sizes ds))
    eqn:Hk.
  - rewrite !(regions_crop_opened _ _ _ _ _ w ds regions Hf Hshp Hk).
    destruct (ds_vars ds) as [|nv vars]; [reflexivity|].
    rewrite (map_ext _ _ (fun f => f_equal (fun g => {| f_geometry := g;
                                                      f_attrs := f_attrs f |})
                                        (Hgeo to_crs f))).
    rewrite (map_ext _ _ (fun f => f_equal (fun g => {| f_geometry := g;
                                                      f_attrs := f_attrs f |})
                                        (Hgeo other_crs f))).
    reflexivity.
  - now rewrite !(regions_crop_no_dims _ _ _ _ _ w ds Hf Hk).
Qed.

Section Unnamed.
Variable to_crs : string -> string -> Geometry -> Geometry.
Variable ds : Dataset.
Variable data_var : string.
Variable v : DataVar.
Variable others : list (string * DataVar).

Hypothesis Hvars : ds_vars ds = (data_var, v) :: others.
Hypothesis Hcrs : has_key "crs" (ds_attrs ds) = false.
Hypothesis Hlon : mem (lon_dim_of ds) (v_dims v) = true.
Hypothesis Hlat : mem (lat_dim_of ds) (v_dims v) = true.
Hypothesis Hothers :
  Forall (fun nv : string * DataVar =>
            spatial (lon_dim_of ds) (lat_dim_of ds) (snd nv) = true) others.
Hypothesis Hnx : size_of (ds_sizes ds) (lon_dim_of ds) <> 0%nat.
Hypothesis Hny : size_of (ds_sizes ds) (lat_dim_of ds) <> 0%nat.

Let ds' : Dataset :=
  if negb (has_key "crs" (ds_attrs ds)) then rio_write_crs "EPSG:4326" ds else ds.

(** One turn of the loop on a record without the name column: the grid
    is clipped, then the lookup of the name raises. *)
Lemma regions_step_unnamed name_column region rest clipped names w :
  has_key name_column (f_attrs region) = false ->
  regions_loop ds' (lon_dim_of ds) (lat_dim_of ds) data_var name_column
               (region :: rest) clipped names w
  = (Raise (KeyError name_column), w).
Proof.
  intros Hl. pose proof (spatial_first ds v Hlon Hlat) as Hsp.
  cbn [regions_loop]. unfold bind at 1, lift at 1, rio_clip.
  destruct (written_same ds) as (Hs & Hc & Hv). fold ds' in Hs, Hc, Hv.
  pose proof (proj1 (written_crs ds Hcrs)) as Hw. fold ds' in Hw.
  rewrite (clip_vars_spatial (lon_dim_of ds) (lat_dim_of ds) (f_geometry region) ds').
  2: exact Hw.
  2, 3: rewrite Hs; assumption.
  2: { rewrite Hv, Hvars. constructor; assumption. }
  unfold bind at 1, lift at 1, ds_getitem. cbn [ds_vars].
  rewrite Hv, Hvars. cbn [map snd fst assoc].
  rewrite String.eqb_refl.
  unfold bind at 1, lift at 1, feature_get. unfold has_key in Hl.
  destruct (assoc name_column (f_attrs region)); [discriminate|]. reflexivity.
Qed.

End Unnamed.



(** On the example: a grid without variables, and a layer without
    records. *)
Example regions_crop_nothing_example :
  fst (regions_crop (fun _ _ g => g) "bare.nc" "regiones.shp" "regiones.nc" "Nombre"
                    world_bare)
  = Raise (IndexError "list index out of range")
  /\ fst (regions_crop (fun _ _ g => g) "temp.nc" "vacio.shp" "regiones.nc" "Nombre"
                       world_bare)
     = Raise (ValueError "must supply at least one object to concatenate").
Proof. split; vm_compute; reflexivity. Qed.

Lemma regions_crop_same_crs_witness :
  regions_crop (fun _ _ g => g) "temp.nc" "regiones.shp" "regiones.nc" "Nombre" world_bare
  = regions_crop (fun _ _ _ => square 0 0) "temp.nc" "regiones.shp" "regiones.nc" "Nombre"
                 world_bare.
Proof.
  apply (regions_crop_same_crs (fun _ _ g => g) (fun _ _ _ => square 0 0)
           "temp.nc" "regiones.shp" "regiones.nc" "Nombre"
           world_bare temperature_grid two_regions);
    reflexivity.
Defined.
End ClipperMoreFacts.

Section MaskerMoreFacts.
Import Xr Masker.

Lemma map_nth_seq {A} (l : list A) (d : A) :
  map (fun k => nth k l d) (seq 0 (length l)) = l.
Proof.
  induction l as [|a l IH]; [reflexivity|].
  cbn [length seq map nth]. f_equal. rewrite <- seq_shift, map_map. exact IH.
Qed.

Lemma filter_keeps_all {A} (P : A -> bool) (l : list A) :
  (forall x, In x l -> In x (filter P l)) -> filter P l = l.
Proof.
  induction l as [|a l IH]; intros H; [reflexivity|].
  rewrite filter_cons.
  assert (Ha : P a).
  { specialize (H a (or_introl eq_refl)).
    apply list_elem_of_In, list_elem_of_filter in H. tauto. }
  destruct (decide (P a)); [|contradiction]. f_equal. apply IH.
  intros x Hx. specialize (H x (or_intror Hx)).
  apply list_elem_of_In, list_elem_of_filter in H as [HP _].
  apply list_elem_of_In, list_elem_of_filter. split; [exact HP|now apply list_elem_of_In].
Qed.

(** X20.  The masker asks for the variable called [mask]: when the two
    files open and the mask file has nothing of that name, neither a
    variable nor a coordinate nor a dimension, the call raises a
    [KeyError] and writes nothing. *)
Theorem country_crop_no_mask file_to_be_cropped mask_file output_file
    (w : World) ds ds_mask :
  fs w !! file_to_be_cropped = Some (NetCDF ds) ->
  fs w !! mask_file = Some (NetCDF ds_mask) ->
  ds_contains ds_mask "mask" = false ->
  has_key "mask" (ds_sizes ds_mask) = false ->
  country_crop file_to_be_cropped mask_file output_file w = (Raise (KeyError "mask"), w).
Proof.
  intros Hf Hm Hc Hd. unfold country_crop. unfold bind at 1, xr_open_dataset. rewrite Hf.
  unfold bind at 1. rewrite Hm. unfold bind at 1, lift at 1, ds_getitem.
  unfold ds_contains, has_key in Hc, Hd. apply orb_false_elim in Hc as [Hv Hco].
  destruct (assoc "mask" (ds_vars ds_mask)); [discriminate|].
  destruct (assoc "mask" (ds_coords ds_mask)); [discriminate|].
  destruct (assoc "mask" (ds_sizes ds_mask)); [discriminate|]. reflexivity.
Qed.

Lemma country_crop_no_mask_witness :
  country_crop "temp.nc" "bare.nc" "temp_honduras.nc" world_masks
  = (Raise (KeyError "mask"), world_masks).
Proof.
  apply (country_crop_no_mask "temp.nc" "bare.nc" "temp_honduras.nc" world_masks
           temperature_grid bare_grid); reflexivity.
Defined.

(** X21.  Whatever the files and however the call ends: the masker
    prints nothing and asks for no path, and no file other than the
    output path is created, changed or removed. *)
Theorem country_crop_frame file_to_be_cropped mask_file output_file (w : World) :
  let r := country_crop file_to_be_cropped mask_file output_file w in
  stdout (snd r) = stdout w /\ probed (snd r) = probed w
  /\ (forall path, path <> output_file -> fs (snd r) !! path = fs w !! path).
Proof.
  intros r. unfold r, country_crop.
  unfold bind, lift, xr_open_dataset, to_netcdf, write_file, modify. cbv beta.
  repeat match goal with
         | |- context [match ?x with _ => _ end] => case_innermost x; cbv beta iota
         end;
    cbn [fst snd is_ok stdout probed fs];
    repeat split; try reflexivity;
    intros path Hne; now rewrite lookup_insert_ne by congruence.
Qed.

Section Mask.
Variables ds ds_mask : Dataset.
Variable m : DataVar.

Hypothesis Hmask : assoc "mask" (ds_vars ds_mask) = Some m.
Hypothesis Hnodup : NoDup (v_dims m).
Hypothesis Hgrid : same_grid ds ds_mask (v_dims m).

Let cond : BoolArray :=
  da_eq {| da_name := "mask";
           da_sizes := filter (fun p : string * nat => mem (fst p) (v_dims m))
                              (ds_sizes ds_mask);
           da_coords := filter (fun p : string * list label => mem (fst p) (v_dims m))
                               (ds_coords ds_mask);
           da_var := m |} 1%Q.

Let pos (d : string) : list nat :=
  filter (fun k : nat =>
            existsb (fun e => mask_one m (upd e d k))
              (all_indices_in origin
                 (map (fun d' => (d', seq 0 (size_of (ds_sizes ds) d')))
                      (filter (fun d' => negb (String.eqb d' d)) (v_dims m)))))
         (seq 0 (size_of (ds_sizes ds) d)).

Lemma kept_pos d :
  In d (v_dims m) -> kept ds cond d = map (fun k : nat => (k, k)) (pos d).
Proof. exact (kept_grid ds ds_mask m Hgrid d). Qed.

Lemma kept_source_pos e :
  kept_ds ds cond e = source_position (v_dims m) pos e
  /\ kept_cond ds cond e = source_position (v_dims m) pos e.
Proof. exact (kept_source ds ds_mask m Hgrid e). Qed.

Lemma pos_has_one d k :
  In d (v_dims m) ->
  (In k (pos d)
   <-> exists e, on_grid ds (v_dims m) e /\ e d = k /\ mask_one m e = true).
Proof. exact (pos_spec ds m Hnodup d k). Qed.

(** The dataset the masker writes, by the positions kept. *)
Lemma country_crop_written file_to_be_cropped mask_file output_file (w : World) :
  fs w !! file_to_be_cropped = Some (NetCDF ds) ->
  fs w !! mask_file = Some (NetCDF ds_mask) ->
  exists out,
    country_crop file_to_be_cropped mask_file output_file w
    = (Ok tt, {| fs := <[output_file := NetCDF out]> (fs w);
                 stdout := stdout w;
                 probed := probed w |})
    /\ (forall d, assoc d (ds_sizes out)
                  = match assoc d (ds_sizes ds) with
                    | Some n => Some (if mem d (v_dims m) then length (pos d) else n)
                    | None => None
                    end)
    /\ (forall d, assoc d (ds_coords out)
                  = match assoc d (ds_coords ds) with
                    | Some ls => Some (if mem d (v_dims m)
                                       then map (fun k => nth k ls LNaN) (pos d)
                                       else ls)
                    | None => None
                    end)
    /\ (forall name, assoc name (ds_vars out)
                     = match assoc name (ds_vars ds) with
                       | Some v =>
                           Some {| v_dims := v_dims v
                                             ++ filter (fun d => negb (mem d (v_dims v)))
                                                       (v_dims m);
                                   v_data := fun e =>
                                     if mask_one m (source_position (v_dims m) pos e)
                                     then v_data v (source_position (v_dims m) pos e)
                                     else None;
                                   v_attrs := v_attrs v |}
                       | None => None
                       end).
Proof.
  intros Hf Hm.
  destruct (where_drop_checks ds ds_mask m Hgrid) as [Hk Ha]. fold cond in Hk, Ha.
  eexists. split; [|split; [|split]].
  - unfold country_crop. unfold bind at 1, xr_open_dataset. rewrite Hf.
    unfold bind at 1. rewrite Hm.
    unfold bind at 1, lift at 1, ds_getitem. rewrite Hmask.
    unfold bind at 1, lift at 1, ds_where_drop. fold cond. rewrite Hk, Ha.
    cbn [negb]. unfold to_netcdf, write_file, modify. reflexivity.
  - intros d. cbn [ds_sizes].
    rewrite (assoc_map_snd (fun dn : string * nat =>
               if mem (fst dn) (b_dims cond)
               then length (kept ds cond (fst dn)) else snd dn)).
    destruct (assoc d (ds_sizes ds)) as [n|]; [|reflexivity].
    cbn [fst snd cond da_eq b_dims da_var]. fold cond.
    destruct (mem d (v_dims m)) eqn:Hmem; [|reflexivity].
    apply mem_true_iff in Hmem.
    now rewrite (kept_pos d Hmem), length_map.
  - intros d. cbn [ds_coords].
    rewrite (assoc_map_snd (fun dl : string * list label =>
               if mem (fst dl) (b_dims cond)
               then map (fun ij : nat * nat => nth (fst ij) (snd dl) LNaN)
                        (kept ds cond (fst dl))
               else snd dl)).
    destruct (assoc d (ds_coords ds)) as [ls|]; [|reflexivity].
    cbn [fst snd cond da_eq b_dims da_var]. fold cond.
    destruct (mem d (v_dims m)) eqn:Hmem; [|reflexivity].
    apply mem_true_iff in Hmem.
    now rewrite (kept_pos d Hmem), map_map.
  - intros name. cbn [ds_vars].
    rewrite (assoc_map_snd (fun nv : string * DataVar =>
               {| v_dims := v_dims (snd nv)
                            ++ filter (fun d => negb (mem d (v_dims (snd nv))))
                                      (b_dims cond);
                  v_data := fun e => if b_test cond (kept_cond ds cond e)
                                     then v_data (snd nv) (kept_ds ds cond e)
                                     else None;
                  v_attrs := v_attrs (snd nv) |})).
    destruct (assoc name (ds_vars ds)) as [v|]; [|reflexivity].
    cbn [snd fst]. f_equal. f_equal.
    apply functional_extensionality. intros e.
    destruct (kept_source_pos e) as [-> ->]. reflexivity.
Qed.

Lemma source_in_range e :
  (forall d, In d (v_dims m) -> pos d = seq 0 (size_of (ds_sizes ds) d)) ->
  in_range ds (v_dims m) e ->
  source_position (v_dims m) pos e = e.
Proof.
  intros Hpos He. apply index_ext. intros d. unfold source_position.
  destruct (mem d (v_dims m)) eqn:Hmem; [|reflexivity].
  apply mem_true_iff in Hmem. rewrite (Hpos d Hmem).
  now rewrite seq_nth by (apply He; exact Hmem).
Qed.

End Mask.

Lemma example_grids_agree q :
  same_grid temperature_grid (mask_grid_of q) ["lat"; "lon"].
Proof.
  intros d Hd. cbn in Hd. destruct Hd as [<-|[<-|[]]]; eexists; repeat split; reflexivity.
Qed.

End MaskerMoreFacts.

Section ScriptFacts.
Import Xr Clipper.

End ScriptFacts.
